(** * n8n-nodes-cambai: the request client, the task poller, the WAV header
      and the node's [execute] loop, embedded and verified.

    The development follows the TypeScript sources:
    - [GenericFunctions]  : [cambAiApiRequest], [pollForResult],
      [generateWavHeader] (the version with polling and external URLs);
    - [CambAiNode]        : [CambAi.execute] with its nine operations;
    - [LegacyFunctions], [LegacyNode] : the earlier snapshot kept under
      [nodes/CambAi/] (text-to-speech only, no polling).

    JavaScript values are a small inductive type; objects used as
    dictionaries are finite maps; effects (HTTP calls, sleeping, pushing an
    output record, throwing) go through one state-and-exception monad. *)

From Stdlib Require Import ZArith QArith Qround String Ascii List Lia.
From Stdlib.Strings Require Import Byte.
From stdpp Require Import base option gmap strings list pretty.
Import ListNotations.

Set Warnings "-register-all".
#[local] Open Scope string_scope.
#[local] Open Scope Z_scope.

(** ** JavaScript values *)

(** Numbers are the integer-valued ones ([Z]); strings are sequences of
    one-byte characters; [JBuffer] is a Node [Buffer]; [JFormData] is an
    instance of the [form-data] class, the list of its appended parts
    (name, value, options). *)
Inductive JsValue : Type :=
| JUndefined
| JNull
| JBool (b : bool)
| JNum (n : Z)
| JStr (s : string)
| JArr (l : list JsValue)
| JObj (o : gmap string JsValue)
| JBuffer (b : list byte)
| JFormData (parts : list (string * JsValue * gmap string JsValue)).

(** [IDataObject]: a plain object used as a string-keyed dictionary. *)
Abbreviation IDataObject := (gmap string JsValue).

(** Truthiness, as used by [||], [if (x)] and [x ? a : b]. *)
Definition truthy (v : JsValue) : bool :=
  match v with
  | JUndefined | JNull => false
  | JBool b => b
  | JNum n => negb (Z.eqb n 0)
  | JStr s => negb (String.eqb s "")
  | _ => true
  end.

(** [a || b]. *)
Definition js_or (a b : JsValue) : JsValue := if truthy a then a else b.

(** [s.join(sep)] on already converted pieces. *)
Fixpoint join (sep : string) (l : list string) : string :=
  match l with
  | [] => ""
  | [x] => x
  | x :: rest => x +:+ sep +:+ join sep rest
  end.

Definition string_of_bytes (b : list byte) : string := string_of_list_byte b.

(** [String(v)], [`${v}`] and [v.toString()] for a defined [v]. An array
    joins its elements with a comma, [null] and [undefined] elements giving
    the empty piece. *)
Fixpoint toString (v : JsValue) : string :=
  match v with
  | JUndefined => "undefined"
  | JNull => "null"
  | JBool true => "true"
  | JBool false => "false"
  | JNum n => pretty n
  | JStr s => s
  | JArr l =>
      join "," ((fix pieces (l : list JsValue) : list string :=
                   match l with
                   | [] => []
                   | JUndefined :: r => "" :: pieces r
                   | JNull :: r => "" :: pieces r
                   | x :: r => toString x :: pieces r
                   end) l)
  | JObj _ => "[object Object]"
  | JBuffer b => string_of_bytes b
  | JFormData _ => "[object FormData]"
  end.

(** [c.toUpperCase()] on one character: the mapping on ASCII letters. *)
Definition upper_ascii (c : ascii) : ascii :=
  let n := nat_of_ascii c in
  if ((97 <=? n) && (n <=? 122))%nat then ascii_of_nat (n - 32) else c.

(** [s.toUpperCase()]. *)
Fixpoint toUpperCase (s : string) : string :=
  match s with
  | EmptyString => EmptyString
  | String c r => String (upper_ascii c) (toUpperCase r)
  end.

(** [v === 'lit']: strict equality with a string literal. *)
Definition is_str (v : JsValue) (lit : string) : bool :=
  match v with
  | JStr s => String.eqb s lit
  | _ => false
  end.

(** [v !== undefined]. *)
Definition is_defined (v : JsValue) : bool :=
  match v with
  | JUndefined => false
  | _ => true
  end.

(** [Array.isArray(v)]. *)
Definition Array_isArray (v : JsValue) : bool :=
  match v with
  | JArr _ => true
  | _ => false
  end.

(** [o.k] on a dictionary: a missing key reads as [undefined]. *)
Definition prop (o : IDataObject) (k : string) : JsValue :=
  default JUndefined (o !! k).

(** ** Errors and completions *)

(** The thrown values. [TransportError] is what the HTTP helper rejects
    with, read by the source as [{ statusCode?: number; message?: string }];
    [NodeApiError cause message] is [new NodeApiError(node, cause, {message})];
    [NodeOperationError message itemIndex] is
    [new NodeOperationError(node, message, {itemIndex})]; the last four are
    the language's own error classes. *)
Inductive JsError : Type :=
| TransportError (statusCode : option Z) (message : option string)
| NodeApiError (cause : JsError) (message : option string)
| NodeOperationError (message : string) (itemIndex : nat)
| Error (message : string)
| TypeError (message : string)
| RangeError (message : string)
| SyntaxError (message : string).

(** The result of running a piece of code: a value, a thrown error, or
    [Pending] when the step budget of an unbounded loop ran out while the
    loop was still going. *)
Inductive Outcome (A : Type) : Type :=
| Ok (a : A)
| Throw (e : JsError)
| Pending.
Arguments Ok {A} a.
Arguments Throw {A} e.
Arguments Pending {A}.

#[global] Instance Outcome_ret : MRet Outcome := fun A a => Ok a.
#[global] Instance Outcome_bind : MBind Outcome := fun A B f m =>
  match m with
  | Ok a => f a
  | Throw e => Throw e
  | Pending => Pending
  end.

(** Pure code that may throw runs in [Outcome]. *)
Definition throw {A : Type} (e : JsError) : Outcome A := Throw e.

(** ** Node Buffers *)

(** [Buffer.alloc(n)]: [n] zero bytes. *)
Definition Buffer_alloc (n : nat) : list byte := replicate n x00.

(** Storing a number into a byte cell keeps its low eight bits. *)
Definition to_uint8 (v : Z) : byte :=
  default x00 (Byte.of_N (Z.to_N (v mod 256))).

(** The integer part of a number (the conversion applied before a bit
    operation or a store into a byte cell). *)
Definition truncate (q : Q) : Z :=
  if Qle_bool 0 q then Qfloor q else Qceiling q.

(** [v >>> k] on an integer [v]. *)
Definition ushr (v k : Z) : Z := Z.shiftr (v mod 2 ^ 32) k.

(** [buf.write(s, offset)]: the bytes of [s] from [offset] on; what falls
    past the end of the buffer is dropped. *)
Fixpoint Buffer_write (s : list byte) (offset : nat) (buf : list byte)
  : list byte :=
  match s with
  | [] => buf
  | c :: r => Buffer_write r (S offset) (<[offset := c]> buf)
  end.

(** Node's [checkInt]: the value must lie in [[min, max]] and the cells
    [offset] and [offset + byteLength] must exist. *)
Definition checkInt (value min max : Q) (buf : list byte)
    (offset byteLength : nat) : Outcome unit :=
  if negb (Qle_bool value max) || negb (Qle_bool min value)
  then throw (RangeError "The value of 'value' is out of range.")
  else if (offset + byteLength <? length buf)%nat
       then Ok tt
       else throw (RangeError "Attempt to access memory outside buffer bounds").

(** [buf.writeUInt32LE(value, offset)]. *)
Definition writeUInt32LE (value : Q) (offset : nat) (buf : list byte)
  : Outcome (list byte) :=
  checkInt value 0 (inject_Z 4294967295) buf offset 3;;
  let v0 := truncate value in
  let buf := <[offset := to_uint8 v0]> buf in
  let v1 := ushr v0 8 in
  let buf := <[(offset + 1)%nat := to_uint8 v1]> buf in
  let v2 := ushr v1 8 in
  let buf := <[(offset + 2)%nat := to_uint8 v2]> buf in
  let v3 := ushr v2 8 in
  let buf := <[(offset + 3)%nat := to_uint8 v3]> buf in
  Ok buf.

(** [buf.writeUInt16LE(value, offset)]. *)
Definition writeUInt16LE (value : Q) (offset : nat) (buf : list byte)
  : Outcome (list byte) :=
  checkInt value 0 (inject_Z 65535) buf offset 1;;
  let v0 := truncate value in
  let buf := <[offset := to_uint8 v0]> buf in
  let buf := <[(offset + 1)%nat := to_uint8 (ushr v0 8)]> buf in
  Ok buf.

(** A buffer write of a value that is not a number. The write converts its
    value with [+value], which is NaN for a function or a plain object; no
    comparison with NaN holds, so the range check of [checkInt] lets it
    through; the bounds are checked as for a number; and each cell takes
    the low bits of NaN, which are zero. *)
Definition checkInt_NaN (buf : list byte) (offset byteLength : nat)
  : Outcome unit :=
  if (offset + byteLength <? length buf)%nat
  then Ok tt
  else throw (RangeError "Attempt to access memory outside buffer bounds").

Definition writeUInt32LE_NaN (offset : nat) (buf : list byte)
  : Outcome (list byte) :=
  checkInt_NaN buf offset 3;;
  let buf := <[offset := x00]> buf in
  let buf := <[(offset + 1)%nat := x00]> buf in
  let buf := <[(offset + 2)%nat := x00]> buf in
  let buf := <[(offset + 3)%nat := x00]> buf in
  Ok buf.

(** Reading back: [buf.readUInt32LE(offset)], [buf.readUInt16LE(offset)]
    and [buf.toString('latin1', offset, offset + n)]; [None] stands for the
    range error of a read past the end. *)
Definition byte_at (buf : list byte) (i : nat) : option Z :=
  b ← buf !! i; Some (Z.of_N (Byte.to_N b)).

Definition readUInt32LE (buf : list byte) (offset : nat) : option Z :=
  first ← byte_at buf offset;
  b1 ← byte_at buf (offset + 1);
  b2 ← byte_at buf (offset + 2);
  last ← byte_at buf (offset + 3);
  Some (first + b1 * 2 ^ 8 + b2 * 2 ^ 16 + last * 2 ^ 24).

Definition readUInt16LE (buf : list byte) (offset : nat) : option Z :=
  first ← byte_at buf offset;
  last ← byte_at buf (offset + 1);
  Some (first + last * 2 ^ 8).

Definition ascii_at (buf : list byte) (offset n : nat) : string :=
  string_of_bytes (take n (drop offset buf)).

(** The bytes of a string literal. *)
Definition bytes (s : string) : list byte := list_byte_of_string s.

(** [Buffer.from(v)]: a copy of a buffer, the bytes of a string, the low
    bytes of an array of numbers; other values are refused. *)
Definition Buffer_from (v : JsValue) : Outcome (list byte) :=
  match v with
  | JBuffer b => Ok b
  | JStr s => Ok (bytes s)
  | JArr l =>
      Ok (map (fun x => match x with JNum n => to_uint8 n | _ => x00 end) l)
  | _ =>
      throw (TypeError "The first argument must be of type string or an instance of Buffer, ArrayBuffer, or Array or an Array-like Object.")
  end.

(** ** Property reads on arbitrary values *)

(** [v.k]: reading a property of [undefined] or [null] throws; a dictionary
    gives the entry or [undefined]; [length] is defined on arrays, strings
    and buffers. *)
Definition get (v : JsValue) (k : string) : Outcome JsValue :=
  match v with
  | JUndefined =>
      throw (TypeError ("Cannot read properties of undefined (reading '" +:+ k +:+ "')"))
  | JNull =>
      throw (TypeError ("Cannot read properties of null (reading '" +:+ k +:+ "')"))
  | JObj o => Ok (prop o k)
  | JArr l =>
      Ok (if String.eqb k "length" then JNum (Z.of_nat (length l)) else JUndefined)
  | JStr s =>
      Ok (if String.eqb k "length" then JNum (Z.of_nat (String.length s)) else JUndefined)
  | JBuffer b =>
      Ok (if String.eqb k "length" then JNum (Z.of_nat (length b)) else JUndefined)
  | _ => Ok JUndefined
  end.

(** [v[i]] for a literal index [i]. *)
Definition get_index (v : JsValue) (i : nat) : Outcome JsValue :=
  match v with
  | JUndefined =>
      throw (TypeError ("Cannot read properties of undefined (reading '" +:+ pretty i +:+ "')"))
  | JNull =>
      throw (TypeError ("Cannot read properties of null (reading '" +:+ pretty i +:+ "')"))
  | JArr l => Ok (default JUndefined (l !! i))
  | JObj o => Ok (prop o (pretty i))
  | JStr s =>
      Ok (match String.get i s with
          | Some c => JStr (String c EmptyString)
          | None => JUndefined
          end)
  | JBuffer b =>
      Ok (match b !! i with
          | Some x => JNum (Z.of_N (Byte.to_N x))
          | None => JUndefined
          end)
  | _ => Ok JUndefined
  end.

(** [a < n] and [a > n] against a number literal: a comparison with
    [undefined] is false. *)
Definition js_lt (a : JsValue) (n : Z) : bool :=
  match a with
  | JNum x => x <? n
  | _ => false
  end.
Definition js_gt (a : JsValue) (n : Z) : bool :=
  match a with
  | JNum x => n <? x
  | _ => false
  end.

(** ** The host: what n8n and the remote service provide *)

(** [IBinaryData]: what the binary helpers hand over. *)
Record IBinaryData : Type := {
  data : list byte;
  fileName : JsValue;
  mimeType : JsValue;
}.

(** [INodeExecutionData]: one output record. *)
Record INodeExecutionData : Type := {
  json : JsValue;
  binary : option (gmap string IBinaryData);
  pairedItem : nat;
}.

(** What the code does to the outside, in order. [HttpRequest None o] is
    [helpers.httpRequest(o)], [HttpRequest (Some c) o] is
    [helpers.httpRequestWithAuthentication.call(this, c, o)], [Sleep ms]
    is the awaited [setTimeout(resolve, ms)]. *)
Inductive Event : Type :=
| HttpRequest (credential : option string) (requestOptions : IDataObject)
| Sleep (ms : Z).

Definition is_request (e : Event) : bool :=
  match e with
  | HttpRequest _ _ => true
  | Sleep _ => false
  end.

(** The environment of one execution. The remote side answers the [n]-th
    request (counted from 0) either with a response or by rejecting with an
    error. The last two fields are what reading [statusCode] and [message]
    gives on a [NodeApiError] that the workflow library built from its
    cause and its [message] option. The class of the library keeps the
    status of its cause as [httpCode] and defines no [statusCode], so for
    the library as it is the first of them is [None] throughout. *)
Record Host : Type := {
  inputData_length : nat;
  nodeParameter : string -> nat -> option JsValue;
  continueOnFail : bool;
  assertBinaryData : nat -> JsValue -> JsError + IBinaryData;
  getBinaryDataBuffer : nat -> JsValue -> JsError + list byte;
  remote : nat -> option string -> IDataObject -> JsError + JsValue;
  JSON_parse : string -> option JsValue;
  NodeApiError_statusCode : JsError -> option string -> option Z;
  NodeApiError_message : JsError -> option string -> JsValue;
}.

(** The mutable part: the events so far and [returnData]. *)
Record Store : Type := {
  events : list Event;
  returnData : list INodeExecutionData;
}.

Definition empty_store : Store := {| events := []; returnData := [] |}.

Definition log (e : Event) (s : Store) : Store :=
  {| events := events s ++ [e]; returnData := returnData s |}.

(** ** The monad of effectful code *)

Definition M (A : Type) : Type := Host -> Store -> Outcome A * Store.

#[global] Instance M_ret : MRet M := fun A a _ s => (Ok a, s).
#[global] Instance M_bind : MBind M := fun A B f m h s =>
  match m h s with
  | (Ok a, s') => f a h s'
  | (Throw e, s') => (Throw e, s')
  | (Pending, s') => (Pending, s')
  end.

(** Pure code inside effectful code. *)
Definition lift {A : Type} (o : Outcome A) : M A := fun _ s => (o, s).

(** [throw e;] *)
Definition throwM {A : Type} (e : JsError) : M A := lift (Throw e).

(** [try { body } catch (error) { handler }]; running out of steps is not an
    exception and is not caught. *)
Definition try_catch {A : Type} (body : M A) (handler : JsError -> M A) : M A :=
  fun h s =>
    match body h s with
    | (Throw e, s') => handler e h s'
    | r => r
    end.

(** The host as seen from the code. *)
Definition host : M Host := fun h s => (Ok h, s).

Definition request (credential : option string) (requestOptions : IDataObject)
  : M JsValue :=
  fun h s =>
    let n := length (filter (fun e => is_request e = true) (events s)) in
    let s' := log (HttpRequest credential requestOptions) s in
    match remote h n credential requestOptions with
    | inl e => (Throw e, s')
    | inr v => (Ok v, s')
    end.

(** [this.helpers.httpRequest(requestOptions)] *)
Definition httpRequest (requestOptions : IDataObject) : M JsValue :=
  request None requestOptions.

(** [this.helpers.httpRequestWithAuthentication.call(this, name, requestOptions)] *)
Definition httpRequestWithAuthentication (name : string)
    (requestOptions : IDataObject) : M JsValue :=
  request (Some name) requestOptions.

(** [await new Promise((resolve) => setTimeout(resolve, interval))] *)
Definition sleep (interval : Z) : M unit :=
  fun _ s => (Ok tt, log (Sleep interval) s).

(** [returnData.push(record)] *)
Definition push (record : INodeExecutionData) : M unit :=
  fun _ s =>
    (Ok tt, {| events := events s; returnData := returnData s ++ [record] |}).

(** [const returnData = []] *)
Definition new_returnData : M unit :=
  fun _ s => (Ok tt, {| events := events s; returnData := [] |}).

(** Reading [returnData]. *)
Definition read_returnData : M (list INodeExecutionData) :=
  fun _ s => (Ok (returnData s), s).

(** [this.getNodeParameter(name, i)] and, with a third argument,
    [this.getNodeParameter(name, i, fallback)]. *)
Definition getNodeParameter (name : string) (i : nat)
    (fallback : option JsValue) : M JsValue :=
  h ← host;
  match nodeParameter h name i, fallback with
  | Some v, _ => mret v
  | None, Some d => mret d
  | None, None => throwM (Error "Could not get parameter")
  end.

(** [err.statusCode] of a caught error. *)
Definition statusCode_of (h : Host) (e : JsError) : option Z :=
  match e with
  | TransportError sc _ => sc
  | NodeApiError cause m => NodeApiError_statusCode h cause m
  | _ => None
  end.

(** [err.message] of a caught error. *)
Definition message_of (h : Host) (e : JsError) : JsValue :=
  match e with
  | TransportError _ (Some m) => JStr m
  | TransportError _ None => JUndefined
  | NodeApiError cause m => NodeApiError_message h cause m
  | NodeOperationError m _ => JStr m
  | Error m | TypeError m | RangeError m | SyntaxError m => JStr m
  end.

(** [this.continueOnFail()] *)
Definition this_continueOnFail : M bool :=
  h ← host; mret (continueOnFail h).

(** [this.helpers.assertBinaryData(i, name)] *)
Definition helpers_assertBinaryData (i : nat) (name : JsValue) : M IBinaryData :=
  h ← host;
  match assertBinaryData h i name with
  | inl e => throwM e
  | inr b => mret b
  end.

(** [this.helpers.getBinaryDataBuffer(i, name)] *)
Definition helpers_getBinaryDataBuffer (i : nat) (name : JsValue)
  : M (list byte) :=
  h ← host;
  match getBinaryDataBuffer h i name with
  | inl e => throwM e
  | inr b => mret b
  end.

(** [this.helpers.prepareBinaryData(buffer, fileName, mimeType)]: the handle
    records what was handed over. *)
Definition helpers_prepareBinaryData (buffer : list byte)
    (name mime : JsValue) : M IBinaryData :=
  mret {| data := buffer; fileName := name; mimeType := mime |}.

(** [JSON.parse(text)]: the host's parser, a syntax error when it has no
    result. *)
Definition JSON_parse_text (text : JsValue) : M JsValue :=
  h ← host;
  match JSON_parse h (toString text) with
  | Some v => mret v
  | None => throwM (SyntaxError "Unexpected token in JSON")
  end.

(** An object literal with distinct literal keys. *)
Definition object (entries : list (string * JsValue)) : IDataObject :=
  list_to_map entries.

(** [for (let i = start; i < start + n; i++) body(i)] *)
Fixpoint for_range (start n : nat) (body : nat -> M unit) : M unit :=
  match n with
  | O => mret tt
  | S n' => body start;; for_range (S start) n' body
  end.

(** [for (const x of l) body(x)] *)
Fixpoint for_of {A : Type} (l : list A) (body : A -> M unit) : M unit :=
  match l with
  | [] => mret tt
  | x :: r => body x;; for_of r body
  end.

(** [l.map(f)] for an [f] that may throw. *)
Fixpoint map_outcome {A B : Type} (f : A -> Outcome B) (l : list A)
  : Outcome (list B) :=
  match l with
  | [] => Ok []
  | x :: r => y ← f x; ys ← map_outcome f r; Ok (y :: ys)
  end.

(** One piece of [l.join(sep)]. *)
Definition join_piece (v : JsValue) : string :=
  match v with
  | JUndefined | JNull => ""
  | _ => toString v
  end.

(** What a [while (true)] body does when it ends: go round again, or leave
    the function with a [return]. *)
Inductive LoopStep (A : Type) : Type :=
| Continue
| Return (a : A).
Arguments Continue {A}.
Arguments Return {A} a.

(** ** GenericFunctions.ts (with the poller and external URLs) *)

Module GenericFunctions.

Definition BASE_URL : string := "https://client.camb.ai/apis".

(** [cambAiApiRequest.call(this, method, endpoint, body, qs, options)];
    an argument left out by a caller is the empty object. *)
Definition cambAiApiRequest (method : string) (endpoint : JsValue)
    (body qs options : IDataObject) : M JsValue :=
  (* If baseURL is empty string, use endpoint as full URL (for external URLs)
     Otherwise use the default BASE_URL *)
  let baseURL :=
    if is_defined (prop options "baseURL") then prop options "baseURL"
    else JStr BASE_URL in
  let url :=
    if is_str baseURL "" then endpoint
    else JStr (toString baseURL +:+ toString endpoint) in
  let options := delete "baseURL" options in
  let requestOptions : IDataObject :=
    <["method" := JStr method]> (<["url" := url]> (<["json" := JBool true]> ∅)) in
  let requestOptions :=
    if (0 <? size body)%nat then <["body" := JObj body]> requestOptions
    else requestOptions in
  let requestOptions :=
    if (0 <? size qs)%nat then <["qs" := JObj qs]> requestOptions
    else requestOptions in
  (* Apply additional options (timeout, encoding, etc.) *)
  let formData := prop options "formData" in
  let restOptions := delete "formData" options in
  let requestOptions := restOptions ∪ requestOptions in
  (* If formData (FormData instance) is provided, set as body *)
  let requestOptions :=
    if truthy formData && (match formData with JFormData _ => true | _ => false end)
    then <["body" := formData]> (<["json" := JBool false]> (delete "body" requestOptions))
    else requestOptions in
  try_catch
    ((* For external URLs (baseURL is ''), skip authentication *)
     if is_str baseURL "" then httpRequest requestOptions
     else httpRequestWithAuthentication "cambAiApi" requestOptions)
    (fun error =>
       h ← host;
       let err_statusCode := statusCode_of h error in
       let err_message := message_of h error in
       if bool_decide (err_statusCode = Some 401) then
         throwM (NodeApiError error
                   (Some "Invalid API key. Please check your Camb.ai credentials."))
       else if bool_decide (err_statusCode = Some 429) then
         throwM (NodeApiError error
                   (Some "Rate limit exceeded. Please wait before making more requests."))
       else if bool_decide (err_statusCode = Some 400) then
         throwM (NodeApiError error
                   (Some ("Bad request: "
                          +:+ toString (js_or err_message (JStr "Invalid parameters")))))
       else throwM (NodeApiError error None)).

(** The status a poll response is dispatched on:
    [(result.status || '').toString().toUpperCase()]. *)
Definition status_of (result_status : JsValue) : string :=
  toUpperCase (toString (js_or result_status (JStr ""))).

(** One round of the [while (true)] of [pollForResult]. *)
Definition pollIteration (endpoint : JsValue) (interval : Z)
  : M (LoopStep JsValue) :=
  try_catch
    (response ← cambAiApiRequest "GET" endpoint ∅ ∅ ∅;
     let result := response in
     result_status ← lift (get result "status");
     let status := status_of result_status in
     if String.eqb status "SUCCESS" then mret (Return result)
     else if String.eqb status "ERROR" || String.eqb status "FAILED" then
       result_message ← lift (get result "message");
       result_error ← lift (get result "error");
       throwM (Error ("Task failed: "
                      +:+ toString (js_or (js_or result_message result_error)
                                          (JStr "Unknown error"))))
     else if String.eqb status "TIMEOUT" then
       throwM (Error "Task timed out on the server. Try again or use smaller input.")
     else if String.eqb status "PAYMENT_REQUIRED" then
       throwM (Error "Insufficient credits. Please check your Camb.ai account balance.")
     else
       (* PENDING or any other status - keep polling *)
       sleep interval;; mret Continue)
    (fun error =>
       h ← host;
       (* If it's a 404, the task might not be ready yet - keep polling *)
       if bool_decide (statusCode_of h error = Some 404) then
         sleep interval;; mret Continue
       else
         (* Any other error is a real error - stop polling *)
         throwM error).

(** [pollForResult.call(this, endpoint, interval)]: the loop has no bound of
    its own; [fuel] bounds the rounds a run may take, and a run that needs
    more is [Pending]. *)
Fixpoint pollForResult (fuel : nat) (endpoint : JsValue) (interval : Z)
  : M JsValue :=
  match fuel with
  | O => lift Pending
  | S fuel =>
      step ← pollIteration endpoint interval;
      match step with
      | Return result => mret result
      | Continue => pollForResult fuel endpoint interval
      end
  end.

(** The default of the [interval] parameter. *)
Definition default_interval : Z := 3000.

(** The default of the [sampleRate] parameter of [generateWavHeader]. *)
Definition default_sampleRate : Z := 22050.

(** [generateWavHeader(dataLength, sampleRate, numChannels, bitsPerSample)]
    for integer-valued arguments. The quotient [bitsPerSample / 8] is the
    exact one, so [byteRate] and [blockAlign] are rationals; the buffer
    writes keep their integer parts. A buffer write outside the field's
    range throws. *)
Definition generateWavHeader
    (dataLength sampleRate numChannels bitsPerSample : Z)
  : Outcome (list byte) :=
  let byteRate : Q :=
    (inject_Z sampleRate * inject_Z numChannels
     * (inject_Z bitsPerSample / inject_Z 8))%Q in
  let blockAlign : Q :=
    (inject_Z numChannels * (inject_Z bitsPerSample / inject_Z 8))%Q in
  let fileSize := 36 + dataLength in
  let header := Buffer_alloc 44 in
  (* RIFF chunk descriptor *)
  let header := Buffer_write (bytes "RIFF") 0 header in
  header ← writeUInt32LE (inject_Z fileSize) 4 header;
  let header := Buffer_write (bytes "WAVE") 8 header in
  (* fmt sub-chunk *)
  let header := Buffer_write (bytes "fmt ") 12 header in
  header ← writeUInt32LE (inject_Z 16) 16 header;
  header ← writeUInt16LE (inject_Z 1) 20 header;
  header ← writeUInt16LE (inject_Z numChannels) 22 header;
  header ← writeUInt32LE (inject_Z sampleRate) 24 header;
  header ← writeUInt32LE byteRate 28 header;
  header ← writeUInt16LE blockAlign 32 header;
  header ← writeUInt16LE (inject_Z bitsPerSample) 34 header;
  (* data sub-chunk *)
  let header := Buffer_write (bytes "data") 36 header in
  header ← writeUInt32LE (inject_Z dataLength) 40 header;
  Ok header.

(** The same function called with a [sampleRate] that is not a number, as
    the table lookup of a caller can give: [byteRate], a product with it,
    is NaN as well, and the two are written as NaN. *)
Definition generateWavHeader_NaN (dataLength numChannels bitsPerSample : Z)
  : Outcome (list byte) :=
  let blockAlign : Q :=
    (inject_Z numChannels * (inject_Z bitsPerSample / inject_Z 8))%Q in
  let fileSize := 36 + dataLength in
  let header := Buffer_alloc 44 in
  (* RIFF chunk descriptor *)
  let header := Buffer_write (bytes "RIFF") 0 header in
  header ← writeUInt32LE (inject_Z fileSize) 4 header;
  let header := Buffer_write (bytes "WAVE") 8 header in
  (* fmt sub-chunk *)
  let header := Buffer_write (bytes "fmt ") 12 header in
  header ← writeUInt32LE (inject_Z 16) 16 header;
  header ← writeUInt16LE (inject_Z 1) 20 header;
  header ← writeUInt16LE (inject_Z numChannels) 22 header;
  header ← writeUInt32LE_NaN 24 header;
  header ← writeUInt32LE_NaN 28 header;
  header ← writeUInt16LE blockAlign 32 header;
  header ← writeUInt16LE (inject_Z bitsPerSample) 34 header;
  (* data sub-chunk *)
  let header := Buffer_write (bytes "data") 36 header in
  header ← writeUInt32LE (inject_Z dataLength) 40 header;
  Ok header.

End GenericFunctions.

(** ** nodes/CambAi/GenericFunctions.ts (the earlier snapshot) *)

Module LegacyFunctions.

Definition BASE_URL : string := "https://client.camb.ai/apis".

(** [cambAiApiRequest.call(this, method, endpoint, body, qs, options)]:
    always against [BASE_URL], always authenticated. *)
Definition cambAiApiRequest (method : string) (endpoint : JsValue)
    (body qs options : IDataObject) : M JsValue :=
  let requestOptions : IDataObject :=
    <["method" := JStr method]>
      (<["url" := JStr (BASE_URL +:+ toString endpoint)]>
         (<["json" := JBool true]> ∅)) in
  let requestOptions :=
    if (0 <? size body)%nat then <["body" := JObj body]> requestOptions
    else requestOptions in
  let requestOptions :=
    if (0 <? size qs)%nat then <["qs" := JObj qs]> requestOptions
    else requestOptions in
  (* Apply additional options (timeout, encoding, etc.) *)
  let requestOptions := options ∪ requestOptions in
  try_catch
    (httpRequestWithAuthentication "cambAiApi" requestOptions)
    (fun error =>
       (* Enhance error messages for common cases *)
       h ← host;
       let err_statusCode := statusCode_of h error in
       let err_message := message_of h error in
       if bool_decide (err_statusCode = Some 401) then
         throwM (NodeApiError error
                   (Some "Invalid API key. Please check your Camb.ai credentials."))
       else if bool_decide (err_statusCode = Some 429) then
         throwM (NodeApiError error
                   (Some "Rate limit exceeded. Please wait before making more requests."))
       else if bool_decide (err_statusCode = Some 400) then
         throwM (NodeApiError error
                   (Some ("Bad request: "
                          +:+ toString (js_or err_message (JStr "Invalid parameters")))))
       else throwM (NodeApiError error None)).

(** The default of the [sampleRate] parameter of [generateWavHeader]. *)
Definition default_sampleRate : Z := 24000.

(** [generateWavHeader(dataLength, sampleRate, numChannels, bitsPerSample)],
    the same text as in the later snapshot. *)
Definition generateWavHeader
    (dataLength sampleRate numChannels bitsPerSample : Z)
  : Outcome (list byte) :=
  let byteRate : Q :=
    (inject_Z sampleRate * inject_Z numChannels
     * (inject_Z bitsPerSample / inject_Z 8))%Q in
  let blockAlign : Q :=
    (inject_Z numChannels * (inject_Z bitsPerSample / inject_Z 8))%Q in
  let fileSize := 36 + dataLength in
  let header := Buffer_alloc 44 in
  let header := Buffer_write (bytes "RIFF") 0 header in
  header ← writeUInt32LE (inject_Z fileSize) 4 header;
  let header := Buffer_write (bytes "WAVE") 8 header in
  let header := Buffer_write (bytes "fmt ") 12 header in
  header ← writeUInt32LE (inject_Z 16) 16 header;
  header ← writeUInt16LE (inject_Z 1) 20 header;
  header ← writeUInt16LE (inject_Z numChannels) 22 header;
  header ← writeUInt32LE (inject_Z sampleRate) 24 header;
  header ← writeUInt32LE byteRate 28 header;
  header ← writeUInt16LE blockAlign 32 header;
  header ← writeUInt16LE (inject_Z bitsPerSample) 34 header;
  let header := Buffer_write (bytes "data") 36 header in
  header ← writeUInt32LE (inject_Z dataLength) 40 header;
  Ok header.

End LegacyFunctions.

(** ** CambAi.node.ts (the nine operations) *)

Module CambAiNode.

Import GenericFunctions.

(** Sample rates per model *)
Definition MODEL_SAMPLE_RATES : gmap string Z :=
  list_to_map [("mars-flash", 22050); ("mars-pro", 48000); ("mars-instruct", 22050)].

(** The names every object inherits from [Object.prototype]: a table
    written as an object literal answers them with a function (with the
    prototype itself for [__proto__]), not with [undefined]. *)
Definition Object_prototype_names : list string :=
  ["constructor"; "hasOwnProperty"; "isPrototypeOf"; "propertyIsEnumerable";
   "toLocaleString"; "toString"; "valueOf"; "__defineGetter__";
   "__defineSetter__"; "__lookupGetter__"; "__lookupSetter__"; "__proto__"].

(** What a lookup in a table of rates hands on: a rate, or an inherited
    member, which is not a number. *)
Inductive SampleRate : Type :=
| Hz (rate : Z)
| not_a_number.

(** [MODEL_SAMPLE_RATES[model] || 22050]: an own key gives its rate; an
    inherited name gives a function or an object, which is truthy, so [||]
    keeps it; any other key gives [undefined] and so 22050. *)
Definition sampleRate_for (model : JsValue) : SampleRate :=
  match MODEL_SAMPLE_RATES !! toString model with
  | Some rate => if truthy (JNum rate) then Hz rate else Hz 22050
  | None =>
      if bool_decide (toString model ∈ Object_prototype_names)
      then not_a_number
      else Hz 22050
  end.

(** [generateWavHeader(dataLength, sampleRate, numChannels, bitsPerSample)]
    with the sample rate the lookup gave. *)
Definition generateWavHeader_at (dataLength : Z) (sampleRate : SampleRate)
    (numChannels bitsPerSample : Z) : Outcome (list byte) :=
  match sampleRate with
  | Hz rate => generateWavHeader dataLength rate numChannels bitsPerSample
  | not_a_number => generateWavHeader_NaN dataLength numChannels bitsPerSample
  end.

Definition mimeTypes : gmap string string :=
  list_to_map [("wav", "audio/wav"); ("flac", "audio/flac");
               ("adts", "audio/aac"); ("pcm_s16le", "audio/wav")].

Definition extensions : gmap string string :=
  list_to_map [("wav", "wav"); ("flac", "flac"); ("adts", "aac");
               ("pcm_s16le", "wav")].

(** [table[key] || fallback] on a table of strings, own keys only. *)
Definition lookup_or (table : gmap string string) (key : JsValue)
    (fallback : string) : JsValue :=
  js_or (match table !! toString key with
         | Some v => JStr v
         | None => JUndefined
         end) (JStr fallback).

(** The options of a binary download. *)
Definition binary_options : IDataObject :=
  object [("encoding", JStr "arraybuffer"); ("returnFullResponse", JBool true);
          ("json", JBool false)].

(** The same, against an absolute URL. *)
Definition external_binary_options : IDataObject :=
  object [("encoding", JStr "arraybuffer"); ("returnFullResponse", JBool true);
          ("json", JBool false); ("baseURL", JStr "")].

(** AUDIO: SYNTHESIZE *)
Definition synthesize (i : nat) : M unit :=
  text ← getNodeParameter "text" i None;
  voiceId ← getNodeParameter "voiceId" i None;
  language ← getNodeParameter "language" i None;
  model ← getNodeParameter "model" i None;
  outputFormat ← getNodeParameter "outputFormat" i None;
  binaryPropertyName ← getNodeParameter "binaryPropertyName" i None;
  options ← getNodeParameter "options" i None;
  text_length ← lift (get text "length");
  (if js_lt text_length 3 || js_gt text_length 3000 then
     throwM (NodeOperationError "Text must be between 3 and 3000 characters" i)
   else mret tt);;
  options_enhanceNamedEntities ← lift (get options "enhanceNamedEntities");
  let body : IDataObject :=
    object [("text", text); ("voice_id", voiceId); ("language", language);
            ("speech_model", model);
            ("enhance_named_entities_pronunciation",
              js_or options_enhanceNamedEntities (JBool false));
            ("output_configuration", JObj (object [("format", outputFormat)]))] in
  options_userInstructions ← lift (get options "userInstructions");
  let body :=
    if truthy options_userInstructions
    then <["user_instructions" := options_userInstructions]> body
    else body in
  response ← cambAiApiRequest "POST" (JStr "/tts-stream") body ∅
               (<["timeout" := JNum 60000]> binary_options);
  response_body ← lift (get response "body");
  audioBuffer ← lift (Buffer_from response_body);
  let sampleRate := sampleRate_for model in
  audioBuffer ←
    (if is_str outputFormat "pcm_s16le" then
       wavHeader ← lift (generateWavHeader_at (Z.of_nat (length audioBuffer))
                           sampleRate 1 16);
       mret (wavHeader ++ audioBuffer)%list
     else mret audioBuffer);
  let mimeType := lookup_or mimeTypes outputFormat "audio/wav" in
  let extension := lookup_or extensions outputFormat "wav" in
  options_fileName ← lift (get options "fileName");
  let fileName :=
    js_or options_fileName (JStr ("tts_output." +:+ toString extension)) in
  binaryData ← helpers_prepareBinaryData audioBuffer fileName mimeType;
  push {| json := JObj (object [("text", text); ("voiceId", voiceId);
                                ("language", language); ("model", model);
                                ("outputFormat", outputFormat);
                                ("fileName", fileName);
                                ("size", JNum (Z.of_nat (length audioBuffer)))]);
          binary := Some {[ toString binaryPropertyName := binaryData ]};
          pairedItem := i |}.

(** AUDIO: TRANSLATED TTS *)
Definition translatedTts (fuel : nat) (i : nat) : M unit :=
  text ← getNodeParameter "text" i None;
  sourceLanguage ← getNodeParameter "sourceLanguage" i None;
  targetLanguage ← getNodeParameter "targetLanguage" i None;
  voiceId ← getNodeParameter "voiceId" i None;
  binaryPropertyName ← getNodeParameter "binaryPropertyName" i None;
  let body : IDataObject :=
    object [("text", text); ("source_language", sourceLanguage);
            ("target_language", targetLanguage)] in
  (* voice_id is optional *)
  let body := if truthy voiceId then <["voice_id" := voiceId]> body else body in
  response ← cambAiApiRequest "POST" (JStr "/translated-tts") body ∅ ∅;
  taskId ← lift (get response "task_id");
  (* Poll for completion *)
  result ← pollForResult fuel (JStr ("/translated-tts/" +:+ toString taskId))
             default_interval;
  runId ← lift (get result "run_id");
  (* Fetch the audio using run_id *)
  audioResponse ← cambAiApiRequest "GET"
                    (JStr ("/tts-result/" +:+ toString runId)) ∅ ∅ binary_options;
  audioResponse_body ← lift (get audioResponse "body");
  audioBuffer ← lift (Buffer_from audioResponse_body);
  let fileName := JStr ("translated_tts_" +:+ toString taskId +:+ ".wav") in
  binaryData ← helpers_prepareBinaryData audioBuffer fileName (JStr "audio/wav");
  push {| json := JObj (object [("taskId", taskId); ("runId", runId);
                                ("text", text);
                                ("sourceLanguage", sourceLanguage);
                                ("targetLanguage", targetLanguage);
                                ("size", JNum (Z.of_nat (length audioBuffer)))]);
          binary := Some {[ toString binaryPropertyName := binaryData ]};
          pairedItem := i |}.

(** AUDIO: GENERATE SOUND *)
Definition generateSound (fuel : nat) (i : nat) : M unit :=
  prompt ← getNodeParameter "prompt" i None;
  audioType ← getNodeParameter "audioType" i None;
  duration ← getNodeParameter "duration" i None;
  outputFormat ← getNodeParameter "outputFormat" i None;
  binaryPropertyName ← getNodeParameter "binaryPropertyName" i None;
  let body : IDataObject :=
    object [("prompt", prompt); ("audio_type", audioType);
            ("duration", duration)] in
  response ← cambAiApiRequest "POST" (JStr "/text-to-sound") body ∅ ∅;
  taskId ← lift (get response "task_id");
  (* Poll for result - returns run_id when SUCCESS *)
  result ← pollForResult fuel (JStr ("/text-to-sound/" +:+ toString taskId))
             default_interval;
  runId ← lift (get result "run_id");
  (* Fetch the actual audio using run_id *)
  audioResponse ← cambAiApiRequest "GET"
                    (JStr ("/text-to-sound-result/" +:+ toString runId)) ∅ ∅
                    binary_options;
  audioResponse_body ← lift (get audioResponse "body");
  audioBuffer ← lift (Buffer_from audioResponse_body);
  let mimeType := lookup_or mimeTypes outputFormat "audio/wav" in
  let extension := lookup_or extensions outputFormat "wav" in
  let fileName :=
    JStr ("sound_" +:+ toString taskId +:+ "." +:+ toString extension) in
  binaryData ← helpers_prepareBinaryData audioBuffer fileName mimeType;
  push {| json := JObj (object [("taskId", taskId); ("runId", runId);
                                ("prompt", prompt); ("audioType", audioType);
                                ("duration", duration);
                                ("size", JNum (Z.of_nat (length audioBuffer)))]);
          binary := Some {[ toString binaryPropertyName := binaryData ]};
          pairedItem := i |}.

(** [formData.append('name', buffer, { filename, contentType })] with the
    file taken from an input binary field. *)
Definition file_part (name : string) (buffer : list byte)
    (binaryData : IBinaryData) (fallbackName : string)
  : string * JsValue * IDataObject :=
  (name, JBuffer buffer,
   object [("filename", js_or (fileName binaryData) (JStr fallbackName));
           ("contentType", mimeType binaryData)]).

(** [formData.append('name', value)] *)
Definition text_part (name : string) (value : string)
  : string * JsValue * IDataObject :=
  (name, JStr value, ∅).

(** AUDIO: SEPARATE AUDIO *)
Definition separateAudio (fuel : nat) (i : nat) : M unit :=
  inputBinaryField ← getNodeParameter "inputBinaryField" i None;
  binaryPropertyName ← getNodeParameter "binaryPropertyName" i None;
  binaryData ← helpers_assertBinaryData i inputBinaryField;
  buffer ← helpers_getBinaryDataBuffer i inputBinaryField;
  let formData := JFormData [file_part "media_file" buffer binaryData "audio.wav"] in
  response ← cambAiApiRequest "POST" (JStr "/audio-separation") ∅ ∅
               (object [("formData", formData)]);
  taskId ← lift (get response "task_id");
  (* Poll for result - returns run_id when SUCCESS *)
  result ← pollForResult fuel (JStr ("/audio-separation/" +:+ toString taskId))
             default_interval;
  runId ← lift (get result "run_id");
  (* Fetch the audio URLs *)
  audioResult ← cambAiApiRequest "GET"
                  (JStr ("/audio-separation-result/" +:+ toString runId)) ∅ ∅ ∅;
  (* Download foreground audio *)
  foregroundUrl ← lift (get audioResult "foreground_audio_url");
  backgroundUrl ← lift (get audioResult "background_audio_url");
  (* Fetch the foreground audio *)
  foregroundResponse ← cambAiApiRequest "GET" foregroundUrl ∅ ∅
                         external_binary_options;
  foregroundResponse_body ← lift (get foregroundResponse "body");
  foregroundBuffer ← lift (Buffer_from foregroundResponse_body);
  foregroundBinary ← helpers_prepareBinaryData foregroundBuffer
                       (JStr ("foreground_" +:+ toString taskId +:+ ".wav"))
                       (JStr "audio/wav");
  (* Fetch the background audio *)
  backgroundResponse ← cambAiApiRequest "GET" backgroundUrl ∅ ∅
                         external_binary_options;
  backgroundResponse_body ← lift (get backgroundResponse "body");
  backgroundBuffer ← lift (Buffer_from backgroundResponse_body);
  backgroundBinary ← helpers_prepareBinaryData backgroundBuffer
                       (JStr ("background_" +:+ toString taskId +:+ ".wav"))
                       (JStr "audio/wav");
  push {| json := JObj (object [("taskId", taskId); ("runId", runId);
                                ("foregroundUrl", foregroundUrl);
                                ("backgroundUrl", backgroundUrl)]);
          binary :=
            Some (<[toString binaryPropertyName +:+ "_background" := backgroundBinary]>
                    {[ toString binaryPropertyName := foregroundBinary ]});
          pairedItem := i |}.

(** [segments.map((s) => s.text)]: only an array has [map]. *)
Definition segment_texts (segments : JsValue) : Outcome (list JsValue) :=
  match segments with
  | JArr l => map_outcome (fun s => get s "text") l
  | _ => throw (TypeError "segments.map is not a function")
  end.

(** TEXT: TRANSCRIBE *)
Definition transcribe (fuel : nat) (i : nat) : M unit :=
  inputBinaryField ← getNodeParameter "inputBinaryField" i None;
  languageId ← getNodeParameter "languageId" i None;
  binaryData ← helpers_assertBinaryData i inputBinaryField;
  buffer ← helpers_getBinaryDataBuffer i inputBinaryField;
  let formData :=
    JFormData [file_part "media_file" buffer binaryData "audio.wav";
               text_part "language" (toString languageId)] in
  response ← cambAiApiRequest "POST" (JStr "/transcribe") ∅ ∅
               (object [("formData", formData)]);
  taskId ← lift (get response "task_id");
  (* Poll for result - get run_id when SUCCESS *)
  pollResult ← pollForResult fuel (JStr ("/transcribe/" +:+ toString taskId))
                 default_interval;
  runId ← lift (get pollResult "run_id");
  (* Fetch the actual transcription result *)
  transcriptResult ← cambAiApiRequest "GET"
                       (JStr ("/transcription-result/" +:+ toString runId)) ∅
                       (object [("data_type", JStr "json");
                                ("format_type", JStr "txt")]) ∅;
  (* API returns { transcript: [{ start, end, text, speaker }, ...] } *)
  transcriptResult_transcript ← lift (get transcriptResult "transcript");
  let segments := js_or transcriptResult_transcript (JArr []) in
  (* Combined plain text transcript *)
  texts ← lift (segment_texts segments);
  let transcript := JStr (join " " (map join_piece texts)) in
  push {| json := JObj (object [("taskId", taskId); ("runId", runId);
                                ("languageId", languageId);
                                ("transcript", transcript);
                                ("segments", segments)]);
          binary := None;
          pairedItem := i |}.

(** Parse texts - could be JSON array or single string *)
Definition parse_texts (textsInput : JsValue) : M JsValue :=
  try_catch
    (texts ← JSON_parse_text textsInput;
     if negb (Array_isArray texts) then mret (JArr [textsInput])
     else mret texts)
    (fun _ => mret (JArr [textsInput])).

(** TEXT: TRANSLATE *)
Definition translate (fuel : nat) (i : nat) : M unit :=
  textsInput ← getNodeParameter "texts" i None;
  sourceLanguage ← getNodeParameter "sourceLanguage" i None;
  targetLanguage ← getNodeParameter "targetLanguage" i None;
  options ← getNodeParameter "options" i None;
  texts ← parse_texts textsInput;
  let body : IDataObject :=
    object [("texts", texts); ("source_language", sourceLanguage);
            ("target_language", targetLanguage)] in
  options_formality ← lift (get options "formality");
  let body :=
    if truthy options_formality then <["formality" := options_formality]> body
    else body in
  response ← cambAiApiRequest "POST" (JStr "/translate") body ∅ ∅;
  taskId ← lift (get response "task_id");
  (* Poll for result - returns run_id when SUCCESS *)
  result ← pollForResult fuel (JStr ("/translate/" +:+ toString taskId))
             default_interval;
  runId ← lift (get result "run_id");
  (* Fetch the actual translation result *)
  translationResult ← cambAiApiRequest "GET"
                        (JStr ("/translation-result/" +:+ toString runId)) ∅ ∅ ∅;
  translatedTexts ← lift (get translationResult "texts");
  push {| json := JObj (object [("taskId", taskId); ("runId", runId);
                                ("sourceLanguage", sourceLanguage);
                                ("targetLanguage", targetLanguage);
                                ("originalTexts", texts);
                                ("translatedTexts", translatedTexts)]);
          binary := None;
          pairedItem := i |}.

(** VOICE: CREATE *)
Definition createVoice (fuel : nat) (i : nat) : M unit :=
  text ← getNodeParameter "text" i None;
  voiceDescription ← getNodeParameter "voiceDescription" i None;
  binaryPropertyName ← getNodeParameter "binaryPropertyName" i (Some (JStr "data"));
  voiceDescription_length ← lift (get voiceDescription "length");
  (if js_lt voiceDescription_length 100 then
     throwM (NodeOperationError
               "Voice description must be at least 100 characters (18+ words)" i)
   else mret tt);;
  let body : IDataObject :=
    object [("text", text); ("voice_description", voiceDescription)] in
  response ← cambAiApiRequest "POST" (JStr "/text-to-voice") body ∅ ∅;
  taskId ← lift (get response "task_id");
  (* Poll for result - returns run_id when SUCCESS *)
  result ← pollForResult fuel (JStr ("/text-to-voice/" +:+ toString taskId))
             default_interval;
  runId ← lift (get result "run_id");
  (* Fetch the preview URLs *)
  voiceResult ← cambAiApiRequest "GET"
                  (JStr ("/text-to-voice-result/" +:+ toString runId)) ∅ ∅ ∅;
  previews ← lift (get voiceResult "previews");
  (* Download preview 1 as binary *)
  previews_0 ← lift (get_index previews 0);
  preview1Response ← cambAiApiRequest "GET" previews_0 ∅ ∅
                       external_binary_options;
  preview1Response_body ← lift (get preview1Response "body");
  preview1Buffer ← lift (Buffer_from preview1Response_body);
  preview1Binary ← helpers_prepareBinaryData preview1Buffer
                     (JStr ("voice_preview_1_" +:+ toString runId +:+ ".mp3"))
                     (JStr "audio/mpeg");
  (* Download preview 2 as binary *)
  previews_1 ← lift (get_index previews 1);
  preview2Response ← cambAiApiRequest "GET" previews_1 ∅ ∅
                       external_binary_options;
  preview2Response_body ← lift (get preview2Response "body");
  preview2Buffer ← lift (Buffer_from preview2Response_body);
  preview2Binary ← helpers_prepareBinaryData preview2Buffer
                     (JStr ("voice_preview_2_" +:+ toString runId +:+ ".mp3"))
                     (JStr "audio/mpeg");
  push {| json := JObj (object [("taskId", taskId); ("runId", runId);
                                ("voiceDescription", voiceDescription);
                                ("previewUrls", previews)]);
          binary :=
            Some (<[toString binaryPropertyName +:+ "_preview2" := preview2Binary]>
                    {[ toString binaryPropertyName := preview1Binary ]});
          pairedItem := i |}.

(** [{ ...result }]: the entries an object spreads. *)
Definition spread (v : JsValue) : IDataObject :=
  match v with
  | JObj o => o
  | _ => ∅
  end.

(** VOICE: CLONE *)
Definition cloneVoice (i : nat) : M unit :=
  inputBinaryField ← getNodeParameter "inputBinaryField" i None;
  voiceName ← getNodeParameter "voiceName" i None;
  gender ← getNodeParameter "gender" i None;
  age ← getNodeParameter "age" i None;
  options ← getNodeParameter "options" i None;
  binaryData ← helpers_assertBinaryData i inputBinaryField;
  buffer ← helpers_getBinaryDataBuffer i inputBinaryField;
  let parts :=
    [file_part "file" buffer binaryData "voice_sample.wav";
     ("voice_name", voiceName, ∅);
     text_part "gender" (toString gender);
     text_part "age" (toString age)] in
  options_description ← lift (get options "description");
  let parts :=
    if truthy options_description
    then (parts ++ [text_part "description" (toString options_description)])%list
    else parts in
  options_language ← lift (get options "language");
  let parts :=
    if truthy options_language
    then (parts ++ [text_part "language" (toString options_language)])%list
    else parts in
  options_enhanceAudio ← lift (get options "enhanceAudio");
  let parts :=
    if is_defined options_enhanceAudio
    then (parts ++ [text_part "enhance_audio" (toString options_enhanceAudio)])%list
    else parts in
  let formData := JFormData parts in
  response ← cambAiApiRequest "POST" (JStr "/create-custom-voice") ∅ ∅
               (object [("formData", formData)]);
  let result := response in
  result_voice_id ← lift (get result "voice_id");
  push {| json := JObj (spread result
                        ∪ object [("voiceId", result_voice_id);
                                  ("voiceName", voiceName);
                                  ("gender", gender); ("age", age)]);
          binary := None;
          pairedItem := i |}.

(** VOICE: LIST *)
Definition listVoices (i : nat) : M unit :=
  voices ← cambAiApiRequest "GET" (JStr "/list-voices") ∅ ∅ ∅;
  match voices with
  | JArr l =>
      for_of l (fun voice =>
        push {| json := voice; binary := None; pairedItem := i |})
  | _ => mret tt
  end.

(** The body of the [try] of one item: the chain of
    [if (resource === ... && operation === ...)]. *)
Definition process_item (fuel : nat) (resource operation : JsValue) (i : nat)
  : M unit :=
  if is_str resource "audio" && is_str operation "synthesize" then
    synthesize i
  else if is_str resource "audio" && is_str operation "translatedTts" then
    translatedTts fuel i
  else if is_str resource "audio" && is_str operation "generateSound" then
    generateSound fuel i
  else if is_str resource "audio" && is_str operation "separateAudio" then
    separateAudio fuel i
  else if is_str resource "text" && is_str operation "transcribe" then
    transcribe fuel i
  else if is_str resource "text" && is_str operation "translate" then
    translate fuel i
  else if is_str resource "voice" && is_str operation "createVoice" then
    createVoice fuel i
  else if is_str resource "voice" && is_str operation "cloneVoice" then
    cloneVoice i
  else if is_str resource "voice" && is_str operation "listVoices" then
    listVoices i
  else mret tt.

(** The [catch] of one item. *)
Definition on_item_error (i : nat) (error : JsError) : M unit :=
  h ← host;
  continue_ ← this_continueOnFail;
  if (continue_ : bool) then
    push {| json := JObj (object [("error", message_of h error)]);
            binary := None;
            pairedItem := i |}
  else throwM error.

(** [execute()]: [fuel] bounds the rounds of each polling loop. *)
Definition execute (fuel : nat) : M (list (list INodeExecutionData)) :=
  h ← host;
  let items_length := inputData_length h in
  new_returnData;;
  resource ← getNodeParameter "resource" 0 None;
  operation ← getNodeParameter "operation" 0 None;
  for_range 0 items_length (fun i =>
    try_catch (process_item fuel resource operation i) (on_item_error i));;
  records ← read_returnData;
  mret [records].

End CambAiNode.

(** ** nodes/CambAi/CambAi.node.ts (the earlier snapshot: synthesize only) *)

Module LegacyNode.

Import LegacyFunctions.

Definition mimeTypes : gmap string string :=
  list_to_map [("wav", "audio/wav"); ("flac", "audio/flac");
               ("adts", "audio/aac"); ("pcm_s16le", "audio/wav")].

Definition extensions : gmap string string :=
  list_to_map [("wav", "wav"); ("flac", "flac"); ("adts", "aac");
               ("pcm_s16le", "wav")].

Definition lookup_or (table : gmap string string) (key : JsValue)
    (fallback : string) : JsValue :=
  js_or (match table !! toString key with
         | Some v => JStr v
         | None => JUndefined
         end) (JStr fallback).

Definition synthesize (i : nat) : M unit :=
  text ← getNodeParameter "text" i None;
  voice ← getNodeParameter "voice" i None;
  model ← getNodeParameter "model" i None;
  outputFormat ← getNodeParameter "outputFormat" i None;
  binaryPropertyName ← getNodeParameter "binaryPropertyName" i None;
  voiceOptions ← getNodeParameter "voiceOptions" i None;
  (* Validate text length *)
  text_length ← lift (get text "length");
  (if js_lt text_length 3 || js_gt text_length 3000 then
     throwM (NodeOperationError "Text must be between 3 and 3000 characters" i)
   else mret tt);;
  (* Build request body *)
  let body : IDataObject :=
    object [("text", text); ("voice", voice); ("model", model);
            ("output_format", outputFormat)] in
  (* Add optional voice parameters *)
  voiceOptions_speed ← lift (get voiceOptions "speed");
  let body :=
    if is_defined voiceOptions_speed then <["speed" := voiceOptions_speed]> body
    else body in
  voiceOptions_language ← lift (get voiceOptions "language");
  let body :=
    if truthy voiceOptions_language
    then <["language" := voiceOptions_language]> body
    else body in
  voiceOptions_userInstructions ← lift (get voiceOptions "userInstructions");
  let body :=
    if truthy voiceOptions_userInstructions
    then <["user_instructions" := voiceOptions_userInstructions]> body
    else body in
  (* Make TTS request with 60s timeout *)
  response ← cambAiApiRequest "POST" (JStr "/tts-stream") body ∅
               (object [("timeout", JNum 60000); ("encoding", JStr "arraybuffer");
                        ("returnFullResponse", JBool true);
                        ("json", JBool false)]);
  response_body ← lift (get response "body");
  audioBuffer ← lift (Buffer_from response_body);
  (* Generate WAV header for PCM output *)
  audioBuffer ←
    (if is_str outputFormat "pcm_s16le" then
       wavHeader ← lift (generateWavHeader (Z.of_nat (length audioBuffer))
                           24000 1 16);
       mret (wavHeader ++ audioBuffer)%list
     else mret audioBuffer);
  (* Determine MIME type and file extension *)
  let mimeType := lookup_or mimeTypes outputFormat "audio/wav" in
  let extension := lookup_or extensions outputFormat "wav" in
  voiceOptions_fileName ← lift (get voiceOptions "fileName");
  let fileName :=
    js_or voiceOptions_fileName (JStr ("tts_output." +:+ toString extension)) in
  (* Prepare binary data *)
  binaryData ← helpers_prepareBinaryData audioBuffer fileName mimeType;
  push {| json := JObj (object [("text", text); ("voice", voice);
                                ("model", model);
                                ("outputFormat", outputFormat);
                                ("fileName", fileName);
                                ("size", JNum (Z.of_nat (length audioBuffer)))]);
          binary := Some {[ toString binaryPropertyName := binaryData ]};
          pairedItem := i |}.

Definition process_item (operation : JsValue) (i : nat) : M unit :=
  if is_str operation "synthesize" then synthesize i else mret tt.

Definition on_item_error (i : nat) (error : JsError) : M unit :=
  h ← host;
  continue_ ← this_continueOnFail;
  if (continue_ : bool) then
    push {| json := JObj (object [("error", message_of h error)]);
            binary := None;
            pairedItem := i |}
  else throwM error.

Definition execute : M (list (list INodeExecutionData)) :=
  h ← host;
  let items_length := inputData_length h in
  new_returnData;;
  operation ← getNodeParameter "operation" 0 None;
  for_range 0 items_length (fun i =>
    try_catch (process_item operation i) (on_item_error i));;
  records ← read_returnData;
  mret [records].

End LegacyNode.

(** ** Concrete hosts, for running the code *)

(** A remote side that answers the [n]-th request with the [n]-th entry of
    a script, and refuses the connection once the script is used up. *)
Definition scripted (answers : list (JsError + JsValue))
  : nat -> option string -> IDataObject -> JsError + JsValue :=
  fun n _ _ =>
    default (inl (TransportError None (Some "connect ECONNREFUSED")))
            (answers !! n).

(** Parameters given as a table, the same for every item. *)
Definition parameters (table : list (string * JsValue))
  : string -> nat -> option JsValue :=
  fun name _ => (list_to_map table : gmap string JsValue) !! name.

(** A host with [n] input items and no input binary data, whose
    [NodeApiError] is the library's: it has no [statusCode], and its
    message is the [message] option when given, the cause's message
    otherwise. *)
Definition simple_host (n : nat) (table : list (string * JsValue))
    (continue_ : bool) (answers : list (JsError + JsValue)) : Host :=
  {| inputData_length := n;
     nodeParameter := parameters table;
     continueOnFail := continue_;
     assertBinaryData := fun i _ =>
       inl (NodeOperationError "This operation expects the node's input data to contain a binary file" i);
     getBinaryDataBuffer := fun i _ =>
       inl (NodeOperationError "This operation expects the node's input data to contain a binary file" i);
     remote := scripted answers;
     JSON_parse := fun _ => None;
     NodeApiError_statusCode := fun _ _ => None;
     NodeApiError_message := fun cause m =>
       match m, cause with
       | Some s, _ => JStr s
       | None, TransportError _ (Some s) => JStr s
       | None, _ => JUndefined
       end |}.

(** Running a program from the empty store. *)
Definition run {A : Type} (h : Host) (m : M A) : Outcome A * Store :=
  m h empty_store.

(** A poll that answers pending, then processing, then
    payment_required. *)
Definition payment_required_host : Host :=
  simple_host 1 [] false
    [inr (JObj (object [("status", JStr "pending")]));
     inr (JObj (object [("status", JStr "processing")]));
     inr (JObj (object [("status", JStr "payment_required")]))].

(** A status request that is rejected as not found once; a second one
    would be answered SUCCESS. *)
Definition not_found_once_host : Host :=
  simple_host 1 [] false
    [inl (TransportError (Some 404) (Some "Not Found"));
     inr (JObj (object [("status", JStr "SUCCESS"); ("run_id", JStr "r1")]))].

(** A text of [n] characters. *)
Definition text_of_length (n : nat) : string :=
  string_of_list_ascii (repeat "a"%char n).

(** One item for the synthesize operation. *)
Definition synthesize_parameters (text fmt : string) : list (string * JsValue) :=
  [("resource", JStr "audio"); ("operation", JStr "synthesize");
   ("text", JStr text); ("voiceId", JNum 20303); ("language", JStr "en-us");
   ("model", JStr "mars-pro"); ("outputFormat", JStr fmt);
   ("binaryPropertyName", JStr "data"); ("options", JObj ∅)].

(** The same for the earlier snapshot. *)
Definition legacy_synthesize_parameters (text fmt : string)
  : list (string * JsValue) :=
  [("operation", JStr "synthesize"); ("text", JStr text);
   ("voice", JStr "20303"); ("model", JStr "mars-8-flash");
   ("outputFormat", JStr fmt); ("binaryPropertyName", JStr "data");
   ("voiceOptions", JObj ∅)].

(** A full response whose body is the given payload. *)
Definition audio_response (payload : list byte) : JsValue :=
  JObj (object [("body", JBuffer payload)]).

(** A host with one synthesize item, answered with [payload]. *)
Definition synthesize_host (text fmt : string) (payload : list byte) : Host :=
  simple_host 1 (synthesize_parameters text fmt) false
    [inr (audio_response payload)].

Definition legacy_synthesize_host (text fmt : string) (payload : list byte)
  : Host :=
  simple_host 1 (legacy_synthesize_parameters text fmt) false
    [inr (audio_response payload)].

(** The same host with a JSON parser given as a table of the texts it
    accepts; every other text is a syntax error. *)
Definition with_JSON_parse (table : list (string * JsValue)) (h : Host) : Host :=
  {| inputData_length := inputData_length h;
     nodeParameter := nodeParameter h;
     continueOnFail := continueOnFail h;
     assertBinaryData := assertBinaryData h;
     getBinaryDataBuffer := getBinaryDataBuffer h;
     remote := remote h;
     JSON_parse := fun text => (list_to_map table : gmap string JsValue) !! text;
     NodeApiError_statusCode := NodeApiError_statusCode h;
     NodeApiError_message := NodeApiError_message h |}.

(** The parser's table used in the runs below: an array, and a number. *)
Definition json_table : list (string * JsValue) :=
  [("[1,2]", JArr [JNum 1; JNum 2]); ("42", JNum 42)].

(** One item for the translate operation. *)
Definition translate_parameters (texts : string) : list (string * JsValue) :=
  [("resource", JStr "text"); ("operation", JStr "translate");
   ("texts", JStr texts); ("sourceLanguage", JNum 1);
   ("targetLanguage", JNum 54); ("options", JObj ∅)].

(** A host with one translate item whose task succeeds at the second poll. *)
Definition translate_host (texts : string) : Host :=
  with_JSON_parse json_table
    (simple_host 1 (translate_parameters texts) false
       [inr (JObj (object [("task_id", JStr "t1")]));
        inr (JObj (object [("status", JStr "pending")]));
        inr (JObj (object [("status", JStr "SUCCESS"); ("run_id", JStr "r1")]));
        inr (JObj (object [("texts", JArr [JStr "uno"; JStr "dos"])]))]).

(** Two synthesize items; the first request is rejected with status 401,
    the second is answered with three bytes. *)
Definition failing_first_host (continue_ : bool) : Host :=
  simple_host 2 (synthesize_parameters "Hello" "wav") continue_
    [inl (TransportError (Some 401) (Some "Unauthorized"));
     inr (audio_response ["001"%byte; "002"%byte; "003"%byte])].

Definition legacy_failing_first_host (continue_ : bool) : Host :=
  simple_host 2 (legacy_synthesize_parameters "Hello" "wav") continue_
    [inl (TransportError (Some 401) (Some "Unauthorized"));
     inr (audio_response ["001"%byte; "002"%byte; "003"%byte])].

(** A voice description of a hundred characters. *)
Definition long_description : string := text_of_length 100.

(** One item for the createVoice operation. *)
Definition createVoice_parameters : list (string * JsValue) :=
  [("resource", JStr "voice"); ("operation", JStr "createVoice");
   ("text", JStr "Hello"); ("voiceDescription", JStr long_description)].

(** A remote side that rejects a request whose URL is [undefined] and
    answers the others from a script. *)
Definition scripted_urls (answers : list (JsError + JsValue))
  : nat -> option string -> IDataObject -> JsError + JsValue :=
  fun n cred req =>
    match req !! "url" with
    | Some JUndefined => inl (TransportError None (Some "Invalid URL"))
    | _ => scripted answers n cred req
    end.

(** A host with one createVoice item: the task succeeds at the first poll
    and the result lists the given previews; each download is answered with
    three bytes. *)
Definition createVoice_host (previews : list JsValue) : Host :=
  {| inputData_length := 1;
     nodeParameter := parameters createVoice_parameters;
     continueOnFail := false;
     assertBinaryData := fun i _ =>
       inl (NodeOperationError "This operation expects the node's input data to contain a binary file" i);
     getBinaryDataBuffer := fun i _ =>
       inl (NodeOperationError "This operation expects the node's input data to contain a binary file" i);
     remote := scripted_urls
       [inr (JObj (object [("task_id", JStr "t1")]));
        inr (JObj (object [("status", JStr "SUCCESS"); ("run_id", JStr "r1")]));
        inr (JObj (object [("previews", JArr previews)]));
        inr (audio_response ["001"%byte; "002"%byte; "003"%byte]);
        inr (audio_response ["004"%byte; "005"%byte; "006"%byte])];
     JSON_parse := fun _ => None;
     NodeApiError_statusCode := fun _ _ => None;
     NodeApiError_message := fun cause m =>
       match m, cause with
       | Some s, _ => JStr s
       | None, TransportError _ (Some s) => JStr s
       | None, _ => JUndefined
       end |}.


(** ** Notions used to state the properties *)

(** The layout of a 44-byte WAV header, field by field. The two quotients
    by 8 are integer quotients (the integer part of the exact value). *)
Definition wav_layout (header : list byte)
    (dataLength sampleRate numChannels bitsPerSample : Z) : Prop :=
  length header = 44%nat
  /\ ascii_at header 0 4 = "RIFF"
  /\ readUInt32LE header 4 = Some (36 + dataLength)
  /\ ascii_at header 8 4 = "WAVE"
  /\ ascii_at header 12 4 = "fmt "
  /\ readUInt32LE header 16 = Some 16
  /\ readUInt16LE header 20 = Some 1
  /\ readUInt16LE header 22 = Some numChannels
  /\ readUInt32LE header 24 = Some sampleRate
  /\ readUInt32LE header 28 = Some (sampleRate * numChannels * bitsPerSample / 8)
  /\ readUInt16LE header 32 = Some (numChannels * bitsPerSample / 8)
  /\ readUInt16LE header 34 = Some bitsPerSample
  /\ ascii_at header 36 4 = "data"
  /\ readUInt32LE header 40 = Some dataLength.

(** The number of requests issued so far: the index of the next one. *)
Definition requests_so_far (s : Store) : nat :=
  length (filter (fun e => is_request e = true) (events s)).

(** The base a call resolves to:
    [options.baseURL !== undefined ? options.baseURL : BASE_URL]. *)
Definition resolved_baseURL (options : IDataObject) : JsValue :=
  if is_defined (prop options "baseURL") then prop options "baseURL"
  else JStr GenericFunctions.BASE_URL.

(** The credential and the final request options of a call, as far as
    [options.baseURL] decides them, and the body it carries when the
    options bring neither a body nor form data of their own. *)
Definition request_shape (endpoint : JsValue) (body options : IDataObject)
    (cred : option string) (req : IDataObject) : Prop :=
  cred = (if is_str (resolved_baseURL options) "" then None else Some "cambAiApi")
  /\ req !! "baseURL" = None
  /\ (options !! "url" = None ->
      req !! "url"
      = Some (if is_str (resolved_baseURL options) "" then endpoint
              else JStr (toString (resolved_baseURL options) +:+ toString endpoint)))
  /\ (body <> ∅ -> options !! "body" = None -> options !! "formData" = None ->
      req !! "body" = Some (JObj body)).

(** What [cambAiApiRequest] throws for a failed call, by status code. *)
Definition classified (h : Host) (cause : JsError) (message : option string)
  : Prop :=
  (statusCode_of h cause = Some 401 ->
   message = Some "Invalid API key. Please check your Camb.ai credentials.")
  /\ (statusCode_of h cause = Some 429 ->
      message = Some "Rate limit exceeded. Please wait before making more requests.")
  /\ (statusCode_of h cause = Some 400 ->
      message = Some ("Bad request: "
                      +:+ (if truthy (message_of h cause)
                           then toString (message_of h cause)
                           else "Invalid parameters")))
  /\ (statusCode_of h cause <> Some 401 ->
      statusCode_of h cause <> Some 429 ->
      statusCode_of h cause <> Some 400 ->
      message = None).


(** A program [m] satisfies [sat R P] when every run relates the store
    before to the store after by [R] and throws only errors in [P]. *)
Definition sat {A : Type} (R : Store -> Store -> Prop) (P : JsError -> Prop)
    (m : M A) : Prop :=
  forall h s, R s (snd (m h s)) /\ forall e, fst (m h s) = Throw e -> P e.

(** Relations on stores that every logged event respects. *)
Class Tracked (R : Store -> Store -> Prop) : Prop := {
  tracked_refl : forall s, R s s;
  tracked_trans : forall a b c, R a b -> R b c -> R a c;
  tracked_log : forall e s, R s (log e s);
}.

(** Sets of errors that contain what the code itself throws. *)
Class Covers (P : JsError -> Prop) : Prop := {
  covers_api : forall cause m, P (NodeApiError cause m);
  covers_type : forall m, P (TypeError m);
  covers_range : forall m, P (RangeError m);
  covers_error : forall m, P (Error m);
  covers_syntax : forall m, P (SyntaxError m);
}.

(** The events of [s'] continue those of [s]. *)
Definition events_extend (s s' : Store) : Prop :=
  exists more : list Event, events s' = (events s ++ more)%list.

(** [s'] has the records of [s] followed by records paired with item [i],
    and nothing else. *)
Definition pushes_for (i : nat) (s s' : Store) : Prop :=
  exists new : list INodeExecutionData,
    returnData s' = (returnData s ++ new)%list
    /\ Forall (fun r => pairedItem r = i) new.

(** Every error but the operation errors of input validation. *)
Definition not_operation_error (e : JsError) : Prop :=
  match e with
  | NodeOperationError _ _ => False
  | _ => True
  end.

(** Every error. *)
Definition any_error (e : JsError) : Prop := True.

(** The record the [catch] of [execute] pushes for item [i]: the message
    of the error and the item's index, nothing else. *)
Definition error_record (h : Host) (i : nat) (e : JsError) : INodeExecutionData :=
  {| json := JObj {[ "error" := message_of h e ]};
     binary := None;
     pairedItem := i |}.


(** The loop body of [execute] for item [i], in the two snapshots. *)
Definition item_step (fuel : nat) (resource operation : JsValue) (i : nat)
  : M unit :=
  try_catch (CambAiNode.process_item fuel resource operation i)
            (CambAiNode.on_item_error i).

Definition legacy_item_step (operation : JsValue) (i : nat) : M unit :=
  try_catch (LegacyNode.process_item operation i) (LegacyNode.on_item_error i).

(** A download: a request issued without the credential. *)
Definition is_download (e : Event) : bool :=
  match e with
  | HttpRequest None _ => true
  | _ => false
  end.

(** From [s] to [s'] only authenticated requests and sleeps were added. *)
Definition api_only (s s' : Store) : Prop :=
  exists more : list Event,
    events s' = (events s ++ more)%list
    /\ Forall (fun e => is_download e = false) more.

(** From [s] to [s'] no record was pushed. *)
Definition same_records (s s' : Store) : Prop := returnData s' = returnData s.

(** Request number [n] was the download of [url], made without the
    credential, and [b] holds the bytes of the body it was answered with,
    as [Buffer.from] reads them. *)
Definition downloaded (h : Host) (n : nat) (req : IDataObject) (url : JsValue)
    (b : IBinaryData) : Prop :=
  req !! "url" = Some url
  /\ exists response body : JsValue,
       remote h n None req = inr response
       /\ get response "body" = Ok body
       /\ Buffer_from body = Ok (data b).


(** ** Further notions: the poller's trace *)

(** The request options of a status request of the poller: a plain
    authenticated GET of the endpoint under the fixed base. *)
Definition status_request (endpoint : JsValue) : IDataObject :=
  <["method" := JStr "GET"]>
    (<["url" := JStr (GenericFunctions.BASE_URL +:+ toString endpoint)]>
       (<["json" := JBool true]> ∅)).

(** The status request as an event. *)
Definition status_call (endpoint : JsValue) : Event :=
  HttpRequest (Some "cambAiApi") (status_request endpoint).

(** One round of polling that goes on: the status request, then the wait. *)
Definition poll_round (endpoint : JsValue) (interval : Z) : list Event :=
  [status_call endpoint; Sleep interval].

(** What a status request was answered with is the reason to go round
    again: an answer whose status is none of the five terminal ones. A
    rejection is not one. *)
Definition non_terminal (answer : JsError + JsValue) : Prop :=
  match answer with
  | inr v =>
      exists st, get v "status" = Ok st
      /\ GenericFunctions.status_of st <> "SUCCESS"
      /\ GenericFunctions.status_of st <> "ERROR"
      /\ GenericFunctions.status_of st <> "FAILED"
      /\ GenericFunctions.status_of st <> "TIMEOUT"
      /\ GenericFunctions.status_of st <> "PAYMENT_REQUIRED"
  | inl _ => False
  end.

(** The [NodeApiError] of the host is the library's: reading [statusCode]
    on it gives [undefined]. *)
Definition library_NodeApiError (h : Host) : Prop :=
  forall cause message, NodeApiError_statusCode h cause message = None.

(** The request options of a call that passes no options: method, URL under
    the fixed base and the JSON flag, with the body and the query only when
    they have entries. *)
Definition plain_request (method : string) (endpoint : JsValue)
    (body qs : IDataObject) : IDataObject :=
  let r : IDataObject :=
    <["method" := JStr method]>
      (<["url" := JStr (GenericFunctions.BASE_URL +:+ toString endpoint)]>
         (<["json" := JBool true]> ∅)) in
  let r := if (0 <? size body)%nat then <["body" := JObj body]> r else r in
  if (0 <? size qs)%nat then <["qs" := JObj qs]> r else r.

(** A status request answered pending, then processing, then SUCCESS. *)
Definition slow_task_host : Host :=
  simple_host 1 [] false
    [inr (JObj (object [("status", JStr "pending")]));
     inr (JObj (object [("status", JStr "processing")]));
     inr (JObj (object [("status", JStr "success"); ("run_id", JStr "r1")]))].

(** ** Further notions: the WAV header's fields *)

(** Every field of the header fits its width: the two lengths and the
    sample rate in 32 bits, the channel count and the sample width in 16
    bits, and so do the byte rate and the block alignment computed from
    them. *)
Definition header_fits (dataLength sampleRate numChannels bitsPerSample : Z)
  : Prop :=
  0 <= dataLength <= 4294967259
  /\ 0 <= sampleRate <= 4294967295
  /\ 0 <= numChannels <= 65535
  /\ 0 <= bitsPerSample <= 65535
  /\ sampleRate * numChannels * bitsPerSample <= 8 * 4294967295
  /\ numChannels * bitsPerSample <= 8 * 65535.

(** The rate a header made for [sampleRate] carries: NaN is written as
    zero. *)
Definition written_rate (sampleRate : CambAiNode.SampleRate) : Z :=
  match sampleRate with
  | CambAiNode.Hz rate => rate
  | CambAiNode.not_a_number => 0
  end.

(** The message of the range error of a buffer write. *)
Definition range_message : string := "The value of 'value' is out of range.".

(** ** Further notions: the request client *)

(** [formData instanceof FormData] *)
Definition is_FormData (v : JsValue) : bool :=
  match v with
  | JFormData _ => true
  | _ => false
  end.

(** ** Further notions: the records of a batch *)

(** The operations that end with one [returnData.push]: all but
    [listVoices]. *)
Definition single_record_operation (resource operation : JsValue) : bool :=
  (is_str resource "audio"
   && (is_str operation "synthesize" || is_str operation "translatedTts"
       || is_str operation "generateSound" || is_str operation "separateAudio"))
  || (is_str resource "text"
      && (is_str operation "transcribe" || is_str operation "translate"))
  || (is_str resource "voice"
      && (is_str operation "createVoice" || is_str operation "cloneVoice")).

(** A program that pushes exactly one record, paired with item [i], when it
    ends normally, and none when it does not. *)
Definition one_record_or_none {A : Type} (i : nat) (m : M A) : Prop :=
  forall h s,
    match fst (m h s) with
    | Ok _ =>
        exists r, returnData (snd (m h s)) = (returnData s ++ [r])%list
                  /\ pairedItem r = i
    | _ => returnData (snd (m h s)) = returnData s
    end.

(** One record per input item, the [k]-th paired with item [start + k]. *)
Definition one_per_item (start n : nat) (records : list INodeExecutionData)
  : Prop :=
  length records = n
  /\ forall k rec, records !! k = Some rec -> pairedItem rec = (start + k)%nat.

(** ** Further notions: what a program adds to the log *)

(** Every run of [m] relates the store before to the store after by [R]. *)
Definition keeps {A : Type} (R : Store -> Store -> Prop) (m : M A) : Prop :=
  forall h s, R s (snd (m h s)).

(** From [s] to [s'] only events in [E] were added. *)
Definition adds (E : Event -> Prop) (s s' : Store) : Prop :=
  exists more : list Event,
    events s' = (events s ++ more)%list /\ Forall E more.

(** An event that keeps the credential where it belongs: a request that
    carries a credential carries the one named [cambAiApi] and goes to a URL
    under the fixed base. *)
Definition credential_confined (e : Event) : Prop :=
  match e with
  | HttpRequest (Some credential) req =>
      credential = "cambAiApi"
      /\ exists path,
           req !! "url" = Some (JStr (GenericFunctions.BASE_URL +:+ path))
  | _ => True
  end.

(** An event that is not a download: a wait, or a request made with the
    credential. *)
Definition with_credential (e : Event) : Prop := is_download e = false.

(** The two operations that fetch result files from URLs the service names:
    Separate Audio and Create Voice. *)
Definition downloads_files (resource operation : JsValue) : bool :=
  (is_str resource "audio" && is_str operation "separateAudio")
  || (is_str resource "voice" && is_str operation "createVoice").

(** ** The node's description: its parameters *)

(** [INodePropertyOptions]: one entry of a list of choices. *)
Record INodePropertyOptions : Type := choice {
  option_name : string;
  option_value : JsValue;
}.

(** [INodeProperties]: one parameter of the node, as far as it decides
    which parameters exist for a resource and an operation and what they
    hold: label, name, type, default, whether it is required, the
    conditions of [displayOptions.show], and its [options]: the choices of
    a parameter of type [options], the fields of a [collection]. Help
    texts, placeholders and the editor's own settings ([typeOptions],
    [noDataExpression]) are left out. *)
Inductive INodeProperties : Type :=
| NodeProperty (displayName name type : string) (default_value : JsValue)
    (required : bool) (show : list (string * list string))
    (options : list INodePropertyOptions) (fields : list INodeProperties).

Definition property_name (p : INodeProperties) : string :=
  match p with
  | NodeProperty _ name _ _ _ _ _ _ => name
  end.

Definition property_show (p : INodeProperties) : list (string * list string) :=
  match p with
  | NodeProperty _ _ _ _ _ show _ _ => show
  end.

Definition property_options (p : INodeProperties) : list INodePropertyOptions :=
  match p with
  | NodeProperty _ _ _ _ _ _ options _ => options
  end.

(** [description.properties] of CambAi.node.ts (the nine operations). *)
Module CambAiDescription.

(** [description.credentials] *)
Definition credentials : list (string * bool) := [("cambAiApi", true)].

Definition properties : list INodeProperties :=
  [NodeProperty "Resource" "resource" "options" (JStr "audio") false
     []
     [choice "Audio" (JStr "audio");
      choice "Text" (JStr "text");
      choice "Voice" (JStr "voice")]
     [];
   NodeProperty "Operation" "operation" "options" (JStr "synthesize") false
     [("resource", ["audio"])]
     [choice "Synthesize (TTS)" (JStr "synthesize");
      choice "Translated TTS" (JStr "translatedTts");
      choice "Generate Sound" (JStr "generateSound");
      choice "Separate Audio" (JStr "separateAudio")]
     [];
   NodeProperty "Operation" "operation" "options" (JStr "transcribe") false
     [("resource", ["text"])]
     [choice "Transcribe" (JStr "transcribe");
      choice "Translate" (JStr "translate")]
     [];
   NodeProperty "Operation" "operation" "options" (JStr "listVoices") false
     [("resource", ["voice"])]
     [choice "Clone Voice" (JStr "cloneVoice");
      choice "Create From Description" (JStr "createVoice");
      choice "List Voices" (JStr "listVoices")]
     [];
   NodeProperty "Text" "text" "string" (JStr "") true
     [("resource", ["audio"]); ("operation", ["synthesize"])]
     []
     [];
   NodeProperty "Voice ID" "voiceId" "number" (JNum 147320) true
     [("resource", ["audio"]); ("operation", ["synthesize"])]
     []
     [];
   NodeProperty "Language" "language" "string" (JStr "en-us") true
     [("resource", ["audio"]); ("operation", ["synthesize"])]
     []
     [];
   NodeProperty "Model" "model" "options" (JStr "mars-flash") false
     [("resource", ["audio"]); ("operation", ["synthesize"])]
     [choice "MARS Flash" (JStr "mars-flash");
      choice "MARS Pro" (JStr "mars-pro");
      choice "MARS Instruct" (JStr "mars-instruct")]
     [];
   NodeProperty "Output Format" "outputFormat" "options" (JStr "wav") false
     [("resource", ["audio"]); ("operation", ["synthesize"; "generateSound"])]
     [choice "WAV" (JStr "wav");
      choice "FLAC" (JStr "flac");
      choice "AAC (ADTS)" (JStr "adts");
      choice "PCM 16-Bit" (JStr "pcm_s16le")]
     [];
   NodeProperty "Put Output in Field" "binaryPropertyName" "string" (JStr "data") true
     [("resource", ["audio"]); ("operation", ["synthesize"; "translatedTts"; "generateSound"; "separateAudio"])]
     []
     [];
   NodeProperty "Options" "options" "collection" (JObj ∅) false
     [("resource", ["audio"]); ("operation", ["synthesize"])]
     []
     [NodeProperty "User Instructions" "userInstructions" "string" (JStr "") false
         []
         []
         [];
      NodeProperty "Enhance Named Entities" "enhanceNamedEntities" "boolean" (JBool false) false
         []
         []
         [];
      NodeProperty "File Name" "fileName" "string" (JStr "") false
         []
         []
         []];
   NodeProperty "Text" "text" "string" (JStr "") true
     [("resource", ["audio"]); ("operation", ["translatedTts"])]
     []
     [];
   NodeProperty "Source Language ID" "sourceLanguage" "number" (JNum 1) true
     [("resource", ["audio"]); ("operation", ["translatedTts"])]
     []
     [];
   NodeProperty "Target Language ID" "targetLanguage" "number" (JNum 1) true
     [("resource", ["audio"]); ("operation", ["translatedTts"])]
     []
     [];
   NodeProperty "Voice ID" "voiceId" "number" (JNum 147320) true
     [("resource", ["audio"]); ("operation", ["translatedTts"])]
     []
     [];
   NodeProperty "Prompt" "prompt" "string" (JStr "") true
     [("resource", ["audio"]); ("operation", ["generateSound"])]
     []
     [];
   NodeProperty "Audio Type" "audioType" "options" (JStr "sound") false
     [("resource", ["audio"]); ("operation", ["generateSound"])]
     [choice "Sound Effect" (JStr "sound");
      choice "Music" (JStr "music")]
     [];
   NodeProperty "Duration (Seconds)" "duration" "number" (JNum 8) false
     [("resource", ["audio"]); ("operation", ["generateSound"])]
     []
     [];
   NodeProperty "Input Binary Field" "inputBinaryField" "string" (JStr "data") true
     [("resource", ["audio"]); ("operation", ["separateAudio"])]
     []
     [];
   NodeProperty "Input Binary Field" "inputBinaryField" "string" (JStr "data") true
     [("resource", ["text"]); ("operation", ["transcribe"])]
     []
     [];
   NodeProperty "Language ID" "languageId" "number" (JNum 1) true
     [("resource", ["text"]); ("operation", ["transcribe"])]
     []
     [];
   NodeProperty "Text(s)" "texts" "string" (JStr "") true
     [("resource", ["text"]); ("operation", ["translate"])]
     []
     [];
   NodeProperty "Source Language ID" "sourceLanguage" "number" (JNum 1) true
     [("resource", ["text"]); ("operation", ["translate"])]
     []
     [];
   NodeProperty "Target Language ID" "targetLanguage" "number" (JNum 1) true
     [("resource", ["text"]); ("operation", ["translate"])]
     []
     [];
   NodeProperty "Options" "options" "collection" (JObj ∅) false
     [("resource", ["text"]); ("operation", ["translate"])]
     []
     [NodeProperty "Formality" "formality" "options" (JNum 1) false
         []
         [choice "Formal" (JNum 1);
          choice "Informal" (JNum 2)]
         []];
   NodeProperty "Sample Text" "text" "string" (JStr "") true
     [("resource", ["voice"]); ("operation", ["createVoice"])]
     []
     [];
   NodeProperty "Voice Description" "voiceDescription" "string" (JStr "") true
     [("resource", ["voice"]); ("operation", ["createVoice"])]
     []
     [];
   NodeProperty "Put Output in Field" "binaryPropertyName" "string" (JStr "data") true
     [("resource", ["voice"]); ("operation", ["createVoice"])]
     []
     [];
   NodeProperty "Input Binary Field" "inputBinaryField" "string" (JStr "data") true
     [("resource", ["voice"]); ("operation", ["cloneVoice"])]
     []
     [];
   NodeProperty "Voice Name" "voiceName" "string" (JStr "") true
     [("resource", ["voice"]); ("operation", ["cloneVoice"])]
     []
     [];
   NodeProperty "Gender" "gender" "options" (JNum 1) true
     [("resource", ["voice"]); ("operation", ["cloneVoice"])]
     [choice "Male" (JNum 1);
      choice "Female" (JNum 2)]
     [];
   NodeProperty "Age" "age" "number" (JNum 30) true
     [("resource", ["voice"]); ("operation", ["cloneVoice"])]
     []
     [];
   NodeProperty "Options" "options" "collection" (JObj ∅) false
     [("resource", ["voice"]); ("operation", ["cloneVoice"])]
     []
     [NodeProperty "Description" "description" "string" (JStr "") false
         []
         []
         [];
      NodeProperty "Language ID" "language" "number" (JNum 1) false
         []
         []
         [];
      NodeProperty "Enhance Audio" "enhanceAudio" "boolean" (JBool true) false
         []
         []
         []]].

End CambAiDescription.

(** [description.properties] of the earlier snapshot. *)
Module LegacyDescription.

Definition credentials : list (string * bool) := [("cambAiApi", true)].

Definition properties : list INodeProperties :=
  [NodeProperty "Operation" "operation" "options" (JStr "synthesize") false
     []
     [choice "Synthesize" (JStr "synthesize")]
     [];
   NodeProperty "Text" "text" "string" (JStr "") true
     [("operation", ["synthesize"])]
     []
     [];
   NodeProperty "Voice Name or ID" "voice" "options" (JStr "") true
     [("operation", ["synthesize"])]
     []
     [];
   NodeProperty "Model" "model" "options" (JStr "mars-8-flash") false
     [("operation", ["synthesize"])]
     [choice "MARS-8" (JStr "mars-8");
      choice "MARS-8 Flash" (JStr "mars-8-flash");
      choice "MARS-8 Instruct" (JStr "mars-8-instruct")]
     [];
   NodeProperty "Output Format" "outputFormat" "options" (JStr "wav") false
     [("operation", ["synthesize"])]
     [choice "WAV" (JStr "wav");
      choice "FLAC" (JStr "flac");
      choice "AAC (ADTS)" (JStr "adts");
      choice "PCM (Raw)" (JStr "pcm_s16le")]
     [];
   NodeProperty "Put Output in Field" "binaryPropertyName" "string" (JStr "data") true
     [("operation", ["synthesize"])]
     []
     [];
   NodeProperty "Voice Options" "voiceOptions" "collection" (JObj ∅) false
     [("operation", ["synthesize"])]
     []
     [NodeProperty "Speed" "speed" "number" (JNum 1) false
         []
         []
         [];
      NodeProperty "Language" "language" "string" (JStr "") false
         []
         []
         [];
      NodeProperty "User Instructions" "userInstructions" "string" (JStr "") false
         []
         []
         [];
      NodeProperty "File Name" "fileName" "string" (JStr "") false
         []
         []
         []]].

End LegacyDescription.

(** Whether a parameter is displayed, given the current values of the
    parameters its conditions name: each condition must list the current
    value of its parameter. *)
Definition displayed (current : string -> JsValue) (p : INodeProperties) : bool :=
  forallb (fun condition : string * list string =>
             existsb (is_str (current (fst condition))) (snd condition))
          (property_show p).

(** The two parameters the conditions of both snapshots are about. *)
Definition selection (resource operation : JsValue) (param : string) : JsValue :=
  if String.eqb param "resource" then resource
  else if String.eqb param "operation" then operation
  else JUndefined.

(** A parameter of this name is displayed for the resource and operation. *)
Definition declared (properties : list INodeProperties)
    (resource operation : JsValue) (name : string) : bool :=
  existsb (fun p => String.eqb (property_name p) name
                    && displayed (selection resource operation) p)
          properties.

(** A choice holding this very string. *)
Definition is_choice (v : JsValue) (c : INodePropertyOptions) : bool :=
  match option_value c, v with
  | JStr a, JStr b => String.eqb a b
  | _, _ => false
  end.

(** The selector [name] is displayed and lists the value [v]. *)
Definition selectable (properties : list INodeProperties)
    (resource operation : JsValue) (name : string) (v : JsValue) : bool :=
  existsb (fun p => String.eqb (property_name p) name
                    && displayed (selection resource operation) p
                    && existsb (is_choice v) (property_options p))
          properties.

(** The pairs of a resource and an operation the user can select in the
    node with nine operations, and the operations the user can select in
    the earlier snapshot. *)
Definition offered (resource operation : JsValue) : bool :=
  selectable CambAiDescription.properties resource operation "resource" resource
  && selectable CambAiDescription.properties resource operation "operation"
       operation.

Definition legacy_offered (operation : JsValue) : bool :=
  selectable LegacyDescription.properties JUndefined operation "operation"
    operation.

(** The host [h] with other parameter values. *)
Definition with_nodeParameter (values : string -> nat -> option JsValue)
    (h : Host) : Host :=
  {| inputData_length := inputData_length h;
     nodeParameter := values;
     continueOnFail := continueOnFail h;
     assertBinaryData := assertBinaryData h;
     getBinaryDataBuffer := getBinaryDataBuffer h;
     remote := remote h;
     JSON_parse := JSON_parse h;
     NodeApiError_statusCode := NodeApiError_statusCode h;
     NodeApiError_message := NodeApiError_message h |}.

(** [m] runs the same on [h'] as on [h]. *)
Definition agrees {A : Type} (h h' : Host) (m : M A) : Prop :=
  forall s, m h' s = m h s.

(** The parameters of a host, with one more value under a name the
    translate operation does not declare. *)
Definition with_stray_parameter (h : Host) : string -> nat -> option JsValue :=
  fun name i =>
    if String.eqb name "voiceId" then Some (JNum 7) else nodeParameter h name i.

(** ** Further notions: List Voices *)

(** The request of the List Voices operation. *)
Definition list_voices_call : Event :=
  HttpRequest (Some "cambAiApi")
    (object [("method", JStr "GET");
             ("url", JStr "https://client.camb.ai/apis/list-voices");
             ("json", JBool true)]).

(** The record pushed for one voice of the answer. *)
Definition voice_record (i : nat) (voice : JsValue) : INodeExecutionData :=
  {| json := voice; binary := None; pairedItem := i |}.

(** ** Further notions: the record of a completed item *)

(** Every run of [m] that ends normally has pushed one record, which
    satisfies [Q]. *)
Definition ends_with {A : Type} (Q : INodeExecutionData -> Prop) (m : M A)
  : Prop :=
  forall h s s' a,
    m h s = (Ok a, s') ->
    exists r, returnData s' = (returnData s ++ [r])%list /\ Q r.

(** A record with one binary output whose [size] is the length in bytes of
    that output. *)
Definition reports_its_size (r : INodeExecutionData) : Prop :=
  exists (name : string) (b : IBinaryData) (j : IDataObject),
    binary r = Some {[ name := b ]}
    /\ json r = JObj j
    /\ j !! "size" = Some (JNum (Z.of_nat (length (data b)))).

(** What a completed Separate Audio item has done, from store [s] to [s'].
    Its last three requests, numbers [n], [n + 1] and [n + 2], were the
    authenticated fetch of the result and the downloads of the foreground
    and of the background file, in this order and without credential, from
    the two URLs the answer to that fetch names; every request before them
    carried the credential. It pushed one record for item [i], which names
    the two URLs and has exactly two binary outputs: the foreground
    download under the chosen name, the background download under that
    name followed by [_background]. *)
Definition separateAudio_outcome (h : Host) (s s' : Store) (i : nat) : Prop :=
  exists (binaryPropertyName audioResult foregroundUrl backgroundUrl : JsValue)
         (fetch req0 req1 : IDataObject) (api : list Event) (n : nat)
         (b1 b2 : IBinaryData) (rec : INodeExecutionData) (j : IDataObject)
         (bin : gmap string IBinaryData),
    nodeParameter h "binaryPropertyName" i = Some binaryPropertyName
    /\ events s'
       = (events s ++ api
          ++ [HttpRequest (Some "cambAiApi") fetch;
              HttpRequest None req0; HttpRequest None req1])%list
    /\ Forall (fun e => is_download e = false) api
    /\ requests_so_far s' = S (S (S n))
    /\ remote h n (Some "cambAiApi") fetch = inr audioResult
    /\ get audioResult "foreground_audio_url" = Ok foregroundUrl
    /\ get audioResult "background_audio_url" = Ok backgroundUrl
    /\ downloaded h (S n) req0 foregroundUrl b1
    /\ downloaded h (S (S n)) req1 backgroundUrl b2
    /\ returnData s' = (returnData s ++ [rec])%list
    /\ pairedItem rec = i
    /\ json rec = JObj j
    /\ j !! "foregroundUrl" = Some foregroundUrl
    /\ j !! "backgroundUrl" = Some backgroundUrl
    /\ binary rec = Some bin
    /\ size bin = 2%nat
    /\ bin !! toString binaryPropertyName = Some b1
    /\ bin !! (toString binaryPropertyName +:+ "_background") = Some b2.

(** One item for the Separate Audio operation. *)
Definition separateAudio_parameters : list (string * JsValue) :=
  [("resource", JStr "audio"); ("operation", JStr "separateAudio");
   ("inputBinaryField", JStr "data"); ("binaryPropertyName", JStr "stems")].

(** A host with one Separate Audio item whose input holds a three-byte
    file: the task succeeds at the first poll, the result names two URLs,
    and each download is answered with three bytes. *)
Definition separateAudio_host : Host :=
  {| inputData_length := 1;
     nodeParameter := parameters separateAudio_parameters;
     continueOnFail := false;
     assertBinaryData := fun _ _ =>
       inr {| data := []; fileName := JStr "song.wav";
              mimeType := JStr "audio/wav" |};
     getBinaryDataBuffer := fun _ _ => inr ["001"; "002"; "003"]%byte;
     remote := scripted
       [inr (JObj (object [("task_id", JStr "t1")]));
        inr (JObj (object [("status", JStr "SUCCESS"); ("run_id", JStr "r1")]));
        inr (JObj (object [("foreground_audio_url", JStr "https://cdn.camb.ai/fg.wav");
                           ("background_audio_url", JStr "https://cdn.camb.ai/bg.wav")]));
        inr (audio_response ["001"%byte; "002"%byte; "003"%byte]);
        inr (audio_response ["004"%byte; "005"%byte; "006"%byte])];
     JSON_parse := fun _ => None;
     NodeApiError_statusCode := fun _ _ => None;
     NodeApiError_message := fun cause m =>
       match m, cause with
       | Some s, _ => JStr s
       | None, TransportError _ (Some s) => JStr s
       | None, _ => JUndefined
       end |}.

(** ** nodes/CambAi/CambAi.node.ts: [methods.loadOptions] *)

Module LegacyLoadOptions.

(** [(voice) => ({ name: voice.name, value: voice.id })] *)
Definition voice_option (voice : JsValue) : Outcome JsValue :=
  voice_name ← get voice "name";
  voice_id ← get voice "id";
  Ok (JObj (object [("name", voice_name); ("value", voice_id)])).

(** [voices.map(f)]: only an array has [map]; on [undefined] and [null]
    the property read itself throws. *)
Definition voices_map (voices : JsValue) (f : JsValue -> Outcome JsValue)
  : Outcome (list JsValue) :=
  match voices with
  | JArr l => map_outcome f l
  | JUndefined =>
      throw (TypeError "Cannot read properties of undefined (reading 'map')")
  | JNull => throw (TypeError "Cannot read properties of null (reading 'map')")
  | _ => throw (TypeError "voices.map is not a function")
  end.

(** [getVoices()]: the choices of the voice parameter. *)
Definition getVoices : M JsValue :=
  voices ← LegacyFunctions.cambAiApiRequest "GET" (JStr "/list-voices") ∅ ∅ ∅;
  options ← lift (voices_map voices voice_option);
  mret (JArr options).

End LegacyLoadOptions.

(** ** Further notions: the life of a task *)

(** What an operation that runs a task has done to the log, from store [s]
    to [s']: the POST under [post_path] that creates the task; the polls of
    its status, under the same path followed by the task id that the
    answer to the POST carried; the fetch of the result under
    [result_path] followed by the run id of the envelope that the remote
    side gave to the last of these polls, an envelope with status SUCCESS;
    then [rest]. All of these but [rest] carry the credential. *)
Definition task_lifecycle (post_path result_path : string) (h : Host)
    (s s' : Store) (rest : list Event) : Prop :=
  exists (post fetch : IDataObject) (response taskId runId : JsValue)
         (envelope : IDataObject) (rounds : nat),
    events s'
    = (events s ++ [HttpRequest (Some "cambAiApi") post]
       ++ concat (replicate rounds
                    (poll_round (JStr (post_path +:+ "/" +:+ toString taskId))
                       GenericFunctions.default_interval))
       ++ [status_call (JStr (post_path +:+ "/" +:+ toString taskId));
           HttpRequest (Some "cambAiApi") fetch]
       ++ rest)%list
    /\ post !! "method" = Some (JStr "POST")
    /\ post !! "url" = Some (JStr (GenericFunctions.BASE_URL +:+ post_path))
    /\ remote h (requests_so_far s) (Some "cambAiApi") post = inr response
    /\ get response "task_id" = Ok taskId
    /\ remote h (requests_so_far s + S rounds) (Some "cambAiApi")
         (status_request (JStr (post_path +:+ "/" +:+ toString taskId)))
       = inr (JObj envelope)
    /\ GenericFunctions.status_of (prop envelope "status") = "SUCCESS"
    /\ prop envelope "run_id" = runId
    /\ fetch !! "method" = Some (JStr "GET")
    /\ fetch !! "url"
       = Some (JStr (GenericFunctions.BASE_URL +:+ result_path +:+ "/"
                     +:+ toString runId)).

(** A record without binary output whose [transcript] is the text of its
    [segments], in order, joined with single spaces; a segment without a
    text counts as the empty piece. *)
Definition transcript_of_segments (r : INodeExecutionData) : Prop :=
  exists (j : IDataObject) (segments texts : list JsValue),
    json r = JObj j
    /\ binary r = None
    /\ j !! "segments" = Some (JArr segments)
    /\ length texts = length segments
    /\ (forall k segment, segments !! k = Some segment ->
        exists text, get segment "text" = Ok text /\ texts !! k = Some text)
    /\ j !! "transcript" = Some (JStr (join " " (map join_piece texts))).

(** What a completed Generate Sound or Translated TTS item delivers: the
    body that was posted is [sent]; the bytes of the only binary output
    are the body of the answer to the last request, as [Buffer.from] reads
    it, with nothing put before or after; the output is labelled with the
    MIME type [mime]. *)
Definition delivers_as_received (h : Host) (s s' : Store) (sent : IDataObject)
    (mime : JsValue) : Prop :=
  exists (post fetch : IDataObject) (more : list Event) (n : nat)
         (audioResponse body : JsValue) (raw : list byte)
         (rec : INodeExecutionData) (name : string) (b : IBinaryData),
    events s'
    = (events s ++ HttpRequest (Some "cambAiApi") post :: more
       ++ [HttpRequest (Some "cambAiApi") fetch])%list
    /\ post !! "body" = Some (JObj sent)
    /\ remote h n (Some "cambAiApi") fetch = inr audioResponse
    /\ get audioResponse "body" = Ok body
    /\ Buffer_from body = Ok raw
    /\ returnData s' = (returnData s ++ [rec])%list
    /\ binary rec = Some {[ name := b ]}
    /\ data b = raw
    /\ mimeType b = mime.

(** ** credentials/CambAiApi.credentials.ts *)

Module CambAiApi.

Definition name : string := "cambAiApi".

Definition displayName : string := "Camb.ai API".

Definition documentationUrl : string := "https://docs.camb.ai".

Definition properties : list INodeProperties :=
  [NodeProperty "API Key" "apiKey" "string" (JStr "") true [] [] []].

(** [authenticate]: of type [generic], the key goes into a header. *)
Definition authenticate : IDataObject :=
  object [("type", JStr "generic");
          ("properties",
            JObj (object [("headers",
                            JObj (object [("x-api-key",
                                            JStr "={{$credentials.apiKey}}")]))]))].

(** [test.request] *)
Definition test_request : IDataObject :=
  object [("baseURL", JStr "https://client.camb.ai/apis");
          ("url", JStr "/list-voices");
          ("method", JStr "GET")].

End CambAiApi.

(** A request that carries a credential carries the one the credential
    class defines, and the description of the node lists it as required. *)
Definition declared_credential (credentials : list (string * bool)) (e : Event)
  : Prop :=
  match e with
  | HttpRequest (Some credential) _ =>
      credential = CambAiApi.name /\ In (credential, true) credentials
  | _ => True
  end.

(** A remote side that lists two voices. *)
Definition two_voices_host : Host :=
  simple_host 0 [] false
    [inr (JArr [JObj (object [("id", JNum 20303); ("name", JStr "Ada")]);
                JObj (object [("id", JNum 20305); ("name", JStr "Grace");
                              ("gender", JNum 2)])])].

(** One Generate Sound item that asks for raw PCM: the task succeeds at the
    first poll and the result is three bytes. *)
Definition generateSound_host : Host :=
  simple_host 1
    [("resource", JStr "audio"); ("operation", JStr "generateSound");
     ("prompt", JStr "rain on a tin roof"); ("audioType", JStr "sound");
     ("duration", JNum 5); ("outputFormat", JStr "pcm_s16le");
     ("binaryPropertyName", JStr "data")]
    false
    [inr (JObj (object [("task_id", JStr "t1")]));
     inr (JObj (object [("status", JStr "SUCCESS"); ("run_id", JStr "r1")]));
     inr (audio_response ["001"%byte; "002"%byte; "003"%byte])].

(** * Properties *)

(** ** Bytes and little-endian fields *)

#[local] Arguments to_uint8 : simpl never.
#[local] Arguments ushr : simpl never.
#[local] Arguments truncate : simpl never.
#[local] Arguments Qfloor : simpl never.

Lemma to_uint8_value (v : Z) : Z.of_N (Byte.to_N (to_uint8 v)) = v mod 256.
Proof.
  unfold to_uint8.
  assert (Hr : 0 <= v mod 256 < 256) by (apply Z.mod_pos_bound; lia).
  destruct (Byte.of_N (Z.to_N (v mod 256))) as [b|] eqn:E.
  - apply Byte.to_of_N in E. simpl. rewrite E. lia.
  - apply Byte.of_N_None_iff in E. lia.
Qed.

Lemma le32_value (n : Z) :
  0 <= n <= 4294967295 ->
  n mod 256 + (ushr n 8 mod 256) * 2 ^ 8
  + (ushr (ushr n 8) 8 mod 256) * 2 ^ 16
  + (ushr (ushr (ushr n 8) 8) 8 mod 256) * 2 ^ 24 = n.
Proof.
  intros Hn. unfold ushr.
  rewrite !Z.shiftr_div_pow2 by lia.
  change (2 ^ 32) with 4294967296. change (2 ^ 8) with 256.
  change (2 ^ 16) with 65536. change (2 ^ 24) with 16777216.
  rewrite (Z.mod_small n 4294967296) by lia.
  assert (H1 : 0 <= n / 256 < 16777216)
    by (split; [apply Z.div_pos; lia | apply Z.div_lt_upper_bound; lia]).
  rewrite (Z.mod_small (n / 256) 4294967296) by lia.
  assert (H2 : 0 <= n / 256 / 256 < 65536)
    by (split; [apply Z.div_pos; lia | apply Z.div_lt_upper_bound; lia]).
  rewrite (Z.mod_small (n / 256 / 256) 4294967296) by lia.
  assert (H3 : 0 <= n / 256 / 256 / 256 < 256)
    by (split; [apply Z.div_pos; lia | apply Z.div_lt_upper_bound; lia]).
  rewrite (Z.mod_small (n / 256 / 256 / 256) 256) by lia.
  pose proof (Z.div_mod n 256 ltac:(lia)).
  pose proof (Z.div_mod (n / 256) 256 ltac:(lia)).
  pose proof (Z.div_mod (n / 256 / 256) 256 ltac:(lia)).
  lia.
Qed.

Lemma le16_value (n : Z) :
  0 <= n <= 65535 -> n mod 256 + (ushr n 8 mod 256) * 2 ^ 8 = n.
Proof.
  intros Hn. unfold ushr.
  rewrite !Z.shiftr_div_pow2 by lia.
  change (2 ^ 32) with 4294967296. change (2 ^ 8) with 256.
  rewrite (Z.mod_small n 4294967296) by lia.
  assert (H1 : 0 <= n / 256 < 256)
    by (split; [apply Z.div_pos; lia | apply Z.div_lt_upper_bound; lia]).
  rewrite (Z.mod_small (n / 256) 256) by lia.
  pose proof (Z.div_mod n 256 ltac:(lia)). lia.
Qed.

Lemma read32_of_bytes (n : Z) (b0 b1 b2 b3 : byte) :
  0 <= n <= 4294967295 ->
  b0 = to_uint8 n -> b1 = to_uint8 (ushr n 8) ->
  b2 = to_uint8 (ushr (ushr n 8) 8) ->
  b3 = to_uint8 (ushr (ushr (ushr n 8) 8) 8) ->
  Z.of_N (Byte.to_N b0) + Z.of_N (Byte.to_N b1) * 2 ^ 8
  + Z.of_N (Byte.to_N b2) * 2 ^ 16 + Z.of_N (Byte.to_N b3) * 2 ^ 24 = n.
Proof.
  intros Hn -> -> -> ->. rewrite !to_uint8_value. now apply le32_value.
Qed.

Lemma read16_of_bytes (n : Z) (b0 b1 : byte) :
  0 <= n <= 65535 ->
  b0 = to_uint8 n -> b1 = to_uint8 (ushr n 8) ->
  Z.of_N (Byte.to_N b0) + Z.of_N (Byte.to_N b1) * 2 ^ 8 = n.
Proof.
  intros Hn -> ->. rewrite !to_uint8_value. now apply le16_value.
Qed.

(** ** Buffer writes *)

Lemma checkInt_ok (q max : Q) (buf : list byte) (off len : nat) :
  (0 <= q)%Q -> (q <= max)%Q -> (off + len < length buf)%nat ->
  checkInt q 0 max buf off len = Ok tt.
Proof.
  intros H0 H1 Hb. unfold checkInt.
  apply Qle_bool_iff in H0. apply Qle_bool_iff in H1.
  rewrite H0, H1. simpl.
  destruct (Nat.ltb_spec (off + len) (length buf)); [reflexivity | lia].
Qed.

Lemma checkInt_throws (q min max : Q) (buf : list byte) (off len : nat) e :
  checkInt q min max buf off len = Throw e -> exists m, e = RangeError m.
Proof.
  unfold checkInt, throw. intros H.
  destruct (negb (Qle_bool q max) || negb (Qle_bool min q)).
  - inversion H. eauto.
  - destruct (off + len <? length buf)%nat; [discriminate |].
    inversion H. eauto.
Qed.

Lemma checkInt_not_pending (q min max : Q) (buf : list byte) (off len : nat) :
  checkInt q min max buf off len <> Pending.
Proof.
  unfold checkInt, throw.
  destruct (negb (Qle_bool q max) || negb (Qle_bool min q)); [discriminate |].
  destruct (off + len <? length buf)%nat; discriminate.
Qed.

Lemma truncate_nonneg (q : Q) : (0 <= q)%Q -> truncate q = Qfloor q.
Proof.
  intros H. unfold truncate. apply Qle_bool_iff in H. now rewrite H.
Qed.

Lemma writeUInt32LE_ok (q : Q) (off : nat) (buf : list byte) :
  (0 <= q)%Q -> (q <= inject_Z 4294967295)%Q -> (off + 3 < length buf)%nat ->
  writeUInt32LE q off buf
  = Ok (<[(off + 3)%nat := to_uint8 (ushr (ushr (ushr (Qfloor q) 8) 8) 8)]>
          (<[(off + 2)%nat := to_uint8 (ushr (ushr (Qfloor q) 8) 8)]>
             (<[(off + 1)%nat := to_uint8 (ushr (Qfloor q) 8)]>
                (<[off := to_uint8 (Qfloor q)]> buf)))).
Proof.
  intros H0 H1 Hb. unfold writeUInt32LE.
  rewrite checkInt_ok by assumption.
  rewrite truncate_nonneg by assumption. reflexivity.
Qed.

Lemma writeUInt16LE_ok (q : Q) (off : nat) (buf : list byte) :
  (0 <= q)%Q -> (q <= inject_Z 65535)%Q -> (off + 1 < length buf)%nat ->
  writeUInt16LE q off buf
  = Ok (<[(off + 1)%nat := to_uint8 (ushr (Qfloor q) 8)]>
          (<[off := to_uint8 (Qfloor q)]> buf)).
Proof.
  intros H0 H1 Hb. unfold writeUInt16LE.
  rewrite checkInt_ok by assumption.
  rewrite truncate_nonneg by assumption. reflexivity.
Qed.

Lemma inject_Z_nonneg (z : Z) : 0 <= z -> (0 <= inject_Z z)%Q.
Proof. intros H. change 0%Q with (inject_Z 0). now rewrite <- Zle_Qle. Qed.

Lemma inject_Z_le (a b : Z) : a <= b -> (inject_Z a <= inject_Z b)%Q.
Proof. intros H. now rewrite <- Zle_Qle. Qed.

(** The exact value [n * (b / 8)] is the fraction [n * b / 8]. *)
Lemma eighths_eq (n b : Z) :
  (inject_Z n * (inject_Z b / inject_Z 8) == (n * b) # 8)%Q.
Proof. unfold Qeq, Qmult, Qdiv, Qinv, inject_Z. simpl. lia. Qed.

Lemma eighths_floor (n b : Z) :
  Qfloor (inject_Z n * (inject_Z b / inject_Z 8)) = (n * b) / 8.
Proof. rewrite eighths_eq. reflexivity. Qed.

Lemma eighths_nonneg (n b : Z) :
  0 <= n * b -> (0 <= inject_Z n * (inject_Z b / inject_Z 8))%Q.
Proof. intros H. rewrite eighths_eq. unfold Qle. simpl. lia. Qed.

Lemma eighths_le (n b m : Z) :
  n * b <= 8 * m -> (inject_Z n * (inject_Z b / inject_Z 8) <= inject_Z m)%Q.
Proof. intros H. rewrite eighths_eq. unfold Qle. simpl. lia. Qed.

Lemma writeUInt32LE_Z (n : Z) (off : nat) (buf : list byte) :
  0 <= n <= 4294967295 -> (off + 3 < length buf)%nat ->
  writeUInt32LE (inject_Z n) off buf
  = Ok (<[(off + 3)%nat := to_uint8 (ushr (ushr (ushr n 8) 8) 8)]>
          (<[(off + 2)%nat := to_uint8 (ushr (ushr n 8) 8)]>
             (<[(off + 1)%nat := to_uint8 (ushr n 8)]>
                (<[off := to_uint8 n]> buf)))).
Proof.
  intros Hn Hb. rewrite writeUInt32LE_ok;
    [| apply inject_Z_nonneg; lia | apply inject_Z_le; lia | assumption].
  now rewrite Qfloor_Z.
Qed.

Lemma writeUInt16LE_Z (n : Z) (off : nat) (buf : list byte) :
  0 <= n <= 65535 -> (off + 1 < length buf)%nat ->
  writeUInt16LE (inject_Z n) off buf
  = Ok (<[(off + 1)%nat := to_uint8 (ushr n 8)]> (<[off := to_uint8 n]> buf)).
Proof.
  intros Hn Hb. rewrite writeUInt16LE_ok;
    [| apply inject_Z_nonneg; lia | apply inject_Z_le; lia | assumption].
  now rewrite Qfloor_Z.
Qed.

Lemma writeUInt32LE_eighths (n b : Z) (off : nat) (buf : list byte) :
  0 <= n * b <= 8 * 4294967295 -> (off + 3 < length buf)%nat ->
  writeUInt32LE (inject_Z n * (inject_Z b / inject_Z 8)) off buf
  = Ok (<[(off + 3)%nat := to_uint8 (ushr (ushr (ushr (n * b / 8) 8) 8) 8)]>
          (<[(off + 2)%nat := to_uint8 (ushr (ushr (n * b / 8) 8) 8)]>
             (<[(off + 1)%nat := to_uint8 (ushr (n * b / 8) 8)]>
                (<[off := to_uint8 (n * b / 8)]> buf)))).
Proof.
  intros Hn Hb. rewrite writeUInt32LE_ok;
    [| apply eighths_nonneg; lia | apply eighths_le; lia | assumption].
  now rewrite eighths_floor.
Qed.

Lemma writeUInt16LE_eighths (n b : Z) (off : nat) (buf : list byte) :
  0 <= n * b <= 8 * 65535 -> (off + 1 < length buf)%nat ->
  writeUInt16LE (inject_Z n * (inject_Z b / inject_Z 8)) off buf
  = Ok (<[(off + 1)%nat := to_uint8 (ushr (n * b / 8) 8)]>
          (<[off := to_uint8 (n * b / 8)]> buf)).
Proof.
  intros Hn Hb. rewrite writeUInt16LE_ok;
    [| apply eighths_nonneg; lia | apply eighths_le; lia | assumption].
  now rewrite eighths_floor.
Qed.

(** ** The WAV header *)

Ltac field32 :=
  apply (f_equal Some); apply read32_of_bytes; [lia | reflexivity ..].
Ltac field16 :=
  apply (f_equal Some); apply read16_of_bytes; [lia | reflexivity ..].

Lemma generateWavHeader_layout
    (dataLength sampleRate numChannels bitsPerSample : Z) :
  0 <= dataLength -> 0 < sampleRate -> 0 < numChannels -> 0 < bitsPerSample ->
  36 + dataLength <= 4294967295 ->
  sampleRate <= 4294967295 ->
  numChannels <= 65535 ->
  bitsPerSample <= 65535 ->
  sampleRate * numChannels * bitsPerSample <= 8 * 4294967295 ->
  numChannels * bitsPerSample <= 8 * 65535 ->
  exists header,
    GenericFunctions.generateWavHeader
      dataLength sampleRate numChannels bitsPerSample = Ok header
    /\ wav_layout header dataLength sampleRate numChannels bitsPerSample.
Proof.
  intros Hd Hs Hc Hb Hfile Hrate Hch Hbits Hbr Hba.
  unfold GenericFunctions.generateWavHeader.
  rewrite <- inject_Z_mult.
  set (h0 := Buffer_write (bytes "RIFF") 0 (Buffer_alloc 44)).
  vm_compute in h0. subst h0.
  rewrite writeUInt32LE_Z; [| lia | simpl; lia]. simpl.
  rewrite writeUInt16LE_Z; [| lia | simpl; lia]. simpl.
  rewrite writeUInt32LE_Z; [| lia | simpl; lia]. simpl.
  rewrite writeUInt32LE_eighths; [| nia | simpl; lia]. simpl.
  rewrite writeUInt16LE_eighths; [| nia | simpl; lia]. simpl.
  rewrite writeUInt16LE_Z; [| lia | simpl; lia]. simpl.
  rewrite writeUInt32LE_Z; [| lia | simpl; lia]. simpl.
  eexists. split; [reflexivity |].
  assert (Hq1 : 0 <= sampleRate * numChannels * bitsPerSample / 8 <= 4294967295).
  { split; [apply Z.div_pos; nia | apply Z.div_le_upper_bound; lia]. }
  assert (Hq2 : 0 <= numChannels * bitsPerSample / 8 <= 65535).
  { split; [apply Z.div_pos; nia | apply Z.div_le_upper_bound; lia]. }
  unfold wav_layout.
  cbv [readUInt32LE readUInt16LE byte_at ascii_at mbind option_bind lookup
       list_lookup Nat.add take drop length].
  split; [reflexivity |].
  split; [reflexivity |].
  split; [field32 |].
  split; [reflexivity |].
  split; [reflexivity |].
  split; [field32 |].
  split; [field16 |].
  split; [field16 |].
  split; [field32 |].
  split; [field32 |].
  split; [field16 |].
  split; [field16 |].
  split; [reflexivity |].
  field32.
Qed.

(** The two snapshots carry the same function. *)
Lemma generateWavHeader_same :
  LegacyFunctions.generateWavHeader = GenericFunctions.generateWavHeader.
Proof. reflexivity. Qed.

(** A header is never [Pending], and what it throws is a range error. *)
Lemma writeUInt32LE_throws q off buf e :
  writeUInt32LE q off buf = Throw e -> exists m, e = RangeError m.
Proof.
  unfold writeUInt32LE. intros H.
  destruct (checkInt q 0 (inject_Z 4294967295) buf off 3) eqn:E;
    simpl in H; try discriminate.
  inversion H; subst. eapply checkInt_throws; eauto.
Qed.

Lemma writeUInt16LE_throws q off buf e :
  writeUInt16LE q off buf = Throw e -> exists m, e = RangeError m.
Proof.
  unfold writeUInt16LE. intros H.
  destruct (checkInt q 0 (inject_Z 65535) buf off 1) eqn:E;
    simpl in H; try discriminate.
  inversion H; subst. eapply checkInt_throws; eauto.
Qed.

Lemma writeUInt32LE_not_pending q off buf : writeUInt32LE q off buf <> Pending.
Proof.
  unfold writeUInt32LE.
  destruct (checkInt q 0 (inject_Z 4294967295) buf off 3) eqn:E;
    simpl; try discriminate.
  now apply checkInt_not_pending in E.
Qed.

Lemma writeUInt16LE_not_pending q off buf : writeUInt16LE q off buf <> Pending.
Proof.
  unfold writeUInt16LE.
  destruct (checkInt q 0 (inject_Z 65535) buf off 1) eqn:E;
    simpl; try discriminate.
  now apply checkInt_not_pending in E.
Qed.

Ltac wav_write H :=
  match type of H with
  | (writeUInt32LE ?q ?o ?b ≫= _) = _ =>
      let E := fresh "E" in
      destruct (writeUInt32LE q o b) eqn:E; simpl in H;
      [ | inversion H; subst; eapply writeUInt32LE_throws; eassumption
        | exfalso; eapply writeUInt32LE_not_pending; eassumption ]
  | (writeUInt16LE ?q ?o ?b ≫= _) = _ =>
      let E := fresh "E" in
      destruct (writeUInt16LE q o b) eqn:E; simpl in H;
      [ | inversion H; subst; eapply writeUInt16LE_throws; eassumption
        | exfalso; eapply writeUInt16LE_not_pending; eassumption ]
  end.

Lemma generateWavHeader_throws dl sr ch b e :
  GenericFunctions.generateWavHeader dl sr ch b = Throw e ->
  exists m, e = RangeError m.
Proof.
  unfold GenericFunctions.generateWavHeader. intros H.
  repeat wav_write H. discriminate.
Qed.

Lemma generateWavHeader_not_pending dl sr ch b :
  GenericFunctions.generateWavHeader dl sr ch b <> Pending.
Proof.
  unfold GenericFunctions.generateWavHeader. intros H.
  repeat (match type of H with
          | (writeUInt32LE ?q ?o ?b ≫= _) = _ =>
              let E := fresh "E" in
              destruct (writeUInt32LE q o b) eqn:E; simpl in H;
              [ | discriminate
                | eapply writeUInt32LE_not_pending; eassumption ]
          | (writeUInt16LE ?q ?o ?b ≫= _) = _ =>
              let E := fresh "E" in
              destruct (writeUInt16LE q o b) eqn:E; simpl in H;
              [ | discriminate
                | eapply writeUInt16LE_not_pending; eassumption ]
          end).
  discriminate.
Qed.

(** C3 (counterexample): a payload of 4294967260 bytes with the node's own
    settings (22050 Hz, mono, 16 bits) meets every premise of the claim, yet
    no header is returned: the RIFF size 36 + 4294967260 does not fit the
    32-bit field and the write throws a range error. *)
Lemma C3_large_payload_has_no_header :
  0 <= 4294967260 /\ 0 < 22050 /\ 0 < 1 /\ 0 < 16
  /\ GenericFunctions.generateWavHeader 4294967260 22050 1 16
     = Throw (RangeError "The value of 'value' is out of range.")
  /\ LegacyFunctions.generateWavHeader 4294967260 22050 1 16
     = Throw (RangeError "The value of 'value' is out of range.").
Proof. repeat split; try lia; vm_compute; reflexivity. Qed.

(** C3 (amended): for every dataLength >= 0 and positive sampleRate,
    numChannels and bitsPerSample whose fields fit their widths (36 +
    dataLength and sampleRate at most 2^32 - 1, numChannels and
    bitsPerSample at most 65535, the exact byteRate at most 2^32 - 1 and the
    exact blockAlign at most 65535), generateWavHeader of either snapshot
    returns a buffer of exactly 44 bytes laid out little-endian as: 'RIFF'
    at 0, u32 36 + dataLength at 4, 'WAVE' at 8, 'fmt ' at 12, u32 16 at 16,
    u16 1 at 20, u16 numChannels at 22, u32 sampleRate at 24, u32 byteRate
    (sampleRate * numChannels * bitsPerSample / 8, integer part) at 28, u16
    blockAlign (numChannels * bitsPerSample / 8, integer part) at 32, u16
    bitsPerSample at 34, 'data' at 36 and u32 dataLength at 40. *)
Theorem C3_generateWavHeader_layout
    (dataLength sampleRate numChannels bitsPerSample : Z) :
  0 <= dataLength -> 0 < sampleRate -> 0 < numChannels -> 0 < bitsPerSample ->
  36 + dataLength <= 4294967295 ->
  sampleRate <= 4294967295 ->
  numChannels <= 65535 ->
  bitsPerSample <= 65535 ->
  sampleRate * numChannels * bitsPerSample <= 8 * 4294967295 ->
  numChannels * bitsPerSample <= 8 * 65535 ->
  exists header,
    GenericFunctions.generateWavHeader
      dataLength sampleRate numChannels bitsPerSample = Ok header
    /\ LegacyFunctions.generateWavHeader
         dataLength sampleRate numChannels bitsPerSample = Ok header
    /\ wav_layout header dataLength sampleRate numChannels bitsPerSample.
Proof.
  intros Hd Hs Hc Hb Hfile Hrate Hch Hbits Hbr Hba.
  destruct (generateWavHeader_layout dataLength sampleRate numChannels
              bitsPerSample) as (header & Hgen & Hlay); try assumption.
  exists header. rewrite generateWavHeader_same. auto.
Qed.

Lemma C3_generateWavHeader_layout_witness :
  exists header,
    GenericFunctions.generateWavHeader 1000 24000 1 16 = Ok header
    /\ LegacyFunctions.generateWavHeader 1000 24000 1 16 = Ok header
    /\ wav_layout header 1000 24000 1 16.
Proof. apply (C3_generateWavHeader_layout 1000 24000 1 16); lia. Defined.
(** ** A sample rate that is not a number *)

(** Writing NaN leaves what writing zero leaves. *)
Lemma writeUInt32LE_zero (q : Q) (off : nat) (buf : list byte) :
  (q == 0)%Q -> writeUInt32LE q off buf = writeUInt32LE_NaN off buf.
Proof.
  intros Hq. unfold writeUInt32LE, writeUInt32LE_NaN, checkInt, checkInt_NaN.
  assert (H1 : Qle_bool q (inject_Z 4294967295) = true).
  { apply Qle_bool_iff. rewrite Hq. discriminate. }
  assert (H2 : Qle_bool 0 q = true).
  { apply Qle_bool_iff. rewrite Hq. apply Qle_refl. }
  rewrite H1, H2. cbn [negb orb].
  assert (H3 : truncate q = 0).
  { unfold truncate. rewrite H2. rewrite (Qfloor_comp _ _ Hq). reflexivity. }
  rewrite H3. reflexivity.
Qed.

Lemma generateWavHeader_NaN_zero (dataLength numChannels bitsPerSample : Z) :
  GenericFunctions.generateWavHeader_NaN dataLength numChannels bitsPerSample
  = GenericFunctions.generateWavHeader dataLength 0 numChannels bitsPerSample.
Proof.
  unfold GenericFunctions.generateWavHeader_NaN,
    GenericFunctions.generateWavHeader.
  cbv zeta.
  repeat match goal with
         | |- (?w ≫= _) = (?w ≫= _) =>
             destruct w; cbn [mbind Outcome_bind]; [| reflexivity ..]
         | |- (writeUInt32LE_NaN ?o ?b ≫= _) = (writeUInt32LE ?q ?o ?b ≫= _) =>
             rewrite (writeUInt32LE_zero q o b) by (simpl; ring)
         end.
  reflexivity.
Qed.

(** The layout of the header, for a sample rate that may be zero. *)
Lemma generateWavHeader_layout_fits
    (dataLength sampleRate numChannels bitsPerSample : Z) :
  header_fits dataLength sampleRate numChannels bitsPerSample ->
  exists header,
    GenericFunctions.generateWavHeader
      dataLength sampleRate numChannels bitsPerSample = Ok header
    /\ wav_layout header dataLength sampleRate numChannels bitsPerSample.
Proof.
  intros (Hd & Hs & Hc & Hb & Hbr & Hba).
  unfold GenericFunctions.generateWavHeader.
  rewrite <- inject_Z_mult.
  set (h0 := Buffer_write (bytes "RIFF") 0 (Buffer_alloc 44)).
  vm_compute in h0. subst h0.
  rewrite writeUInt32LE_Z; [| lia | simpl; lia]. simpl.
  rewrite writeUInt16LE_Z; [| lia | simpl; lia]. simpl.
  rewrite writeUInt32LE_Z; [| lia | simpl; lia]. simpl.
  rewrite writeUInt32LE_eighths; [| nia | simpl; lia]. simpl.
  rewrite writeUInt16LE_eighths; [| nia | simpl; lia]. simpl.
  rewrite writeUInt16LE_Z; [| lia | simpl; lia]. simpl.
  rewrite writeUInt32LE_Z; [| lia | simpl; lia]. simpl.
  eexists. split; [reflexivity |].
  assert (Hq1 : 0 <= sampleRate * numChannels * bitsPerSample / 8 <= 4294967295).
  { split; [apply Z.div_pos; nia | apply Z.div_le_upper_bound; lia]. }
  assert (Hq2 : 0 <= numChannels * bitsPerSample / 8 <= 65535).
  { split; [apply Z.div_pos; nia | apply Z.div_le_upper_bound; lia]. }
  unfold wav_layout.
  cbv [readUInt32LE readUInt16LE byte_at ascii_at mbind option_bind lookup
       list_lookup Nat.add take drop length].
  split; [reflexivity |].
  split; [reflexivity |].
  split; [field32 |].
  split; [reflexivity |].
  split; [reflexivity |].
  split; [field32 |].
  split; [field16 |].
  split; [field16 |].
  split; [field32 |].
  split; [field32 |].
  split; [field16 |].
  split; [field16 |].
  split; [reflexivity |].
  field32.
Qed.

Lemma generateWavHeader_at_written dataLength sampleRate numChannels bitsPerSample :
  CambAiNode.generateWavHeader_at dataLength sampleRate numChannels bitsPerSample
  = GenericFunctions.generateWavHeader dataLength (written_rate sampleRate)
      numChannels bitsPerSample.
Proof.
  destruct sampleRate; [reflexivity | apply generateWavHeader_NaN_zero].
Qed.


(** ** Running effectful code *)

Lemma bind_unfold {A B : Type} (m : M A) (f : A -> M B) (h : Host) (s : Store) :
  (m ≫= f) h s
  = match m h s with
    | (Ok a, s') => f a h s'
    | (Throw e, s') => (Throw e, s')
    | (Pending, s') => (Pending, s')
    end.
Proof. reflexivity. Qed.

Lemma bind_ok {A B : Type} (m : M A) (f : A -> M B) h s a s' :
  m h s = (Ok a, s') -> (m ≫= f) h s = f a h s'.
Proof. intros H. rewrite bind_unfold, H. reflexivity. Qed.

Lemma bind_throw {A B : Type} (m : M A) (f : A -> M B) h s e s' :
  m h s = (Throw e, s') -> (m ≫= f) h s = (Throw e, s').
Proof. intros H. rewrite bind_unfold, H. reflexivity. Qed.

Lemma bind_pending {A B : Type} (m : M A) (f : A -> M B) h s s' :
  m h s = (Pending, s') -> (m ≫= f) h s = (Pending, s').
Proof. intros H. rewrite bind_unfold, H. reflexivity. Qed.

Lemma try_catch_unfold {A : Type} (body : M A) (handler : JsError -> M A) h s :
  try_catch body handler h s
  = match body h s with
    | (Throw e, s') => handler e h s'
    | r => r
    end.
Proof. reflexivity. Qed.

Lemma request_unfold cred req h s :
  request cred req h s
  = (match remote h (requests_so_far s) cred req with
     | inl e => Throw e
     | inr v => Ok v
     end, log (HttpRequest cred req) s).
Proof.
  unfold request, requests_so_far.
  destruct (remote h _ cred req); reflexivity.
Qed.

(** ** The request client *)

Lemma classify_handler (h : Host) (s : Store) (cause : JsError) :
  exists message,
    (h0 ← host;
     if bool_decide (statusCode_of h0 cause = Some 401) then
       throwM (NodeApiError cause
                 (Some "Invalid API key. Please check your Camb.ai credentials."))
     else if bool_decide (statusCode_of h0 cause = Some 429) then
       throwM (NodeApiError cause
                 (Some "Rate limit exceeded. Please wait before making more requests."))
     else if bool_decide (statusCode_of h0 cause = Some 400) then
       throwM (NodeApiError cause
                 (Some ("Bad request: "
                        +:+ toString (js_or (message_of h0 cause)
                                            (JStr "Invalid parameters")))))
     else throwM (NodeApiError cause None) : M JsValue) h s
    = (Throw (NodeApiError cause message), s)
    /\ classified h cause message.
Proof.
  rewrite bind_unfold. unfold host. cbn beta iota zeta.
  unfold classified.
  repeat case_bool_decide; eexists; (split; [reflexivity |]);
    repeat split; intros; try congruence.
  unfold js_or. destruct (truthy (message_of h cause)); reflexivity.
Qed.

Lemma built_request_lookup (method : string) (url : JsValue)
    (body qs options : IDataObject) :
  let requestOptions : IDataObject :=
    <["method" := JStr method]> (<["url" := url]> (<["json" := JBool true]> ∅)) in
  let requestOptions :=
    if (0 <? size body)%nat then <["body" := JObj body]> requestOptions
    else requestOptions in
  let requestOptions :=
    if (0 <? size qs)%nat then <["qs" := JObj qs]> requestOptions
    else requestOptions in
  let formData := prop (delete "baseURL" options) "formData" in
  let restOptions := delete "formData" (delete "baseURL" options) in
  let requestOptions := restOptions ∪ requestOptions in
  let requestOptions :=
    if truthy formData && (match formData with JFormData _ => true | _ => false end)
    then <["body" := formData]> (<["json" := JBool false]> (delete "body" requestOptions))
    else requestOptions in
  requestOptions !! "baseURL" = None
  /\ (options !! "url" = None -> requestOptions !! "url" = Some url)
  /\ (body <> ∅ -> options !! "body" = None -> options !! "formData" = None ->
      requestOptions !! "body" = Some (JObj body)).
Proof.
  cbv zeta.
  split; [| split].
  3: {
    intros Hne Hb Hf.
    assert (Hsize : (0 <? size body)%nat = true).
    { apply Nat.ltb_lt. destruct (size body) eqn:E; [| lia].
      apply map_size_empty_iff in E. contradiction. }
    rewrite Hsize.
    assert (Hfd : prop (delete "baseURL" options) "formData" = JUndefined).
    { unfold prop. rewrite lookup_delete_ne by done. rewrite Hf. reflexivity. }
    rewrite Hfd. cbn [truthy andb].
    rewrite lookup_union_r by (rewrite !lookup_delete_ne by done; exact Hb).
    destruct (0 <? size qs)%nat;
      repeat (first [ rewrite lookup_insert_ne by done
                    | rewrite lookup_insert_eq ]); reflexivity. }
  all: destruct (0 <? size body)%nat, (0 <? size qs)%nat;
    destruct (truthy _ && _); intros;
    repeat (first [ rewrite lookup_insert_ne by done
                  | rewrite lookup_delete_ne by done
                  | rewrite lookup_insert_eq
                  | rewrite lookup_delete_eq
                  | rewrite lookup_empty ]).
  all: try (apply lookup_union_None; split).
  all: repeat (first [ rewrite lookup_insert_ne by done
                     | rewrite lookup_delete_ne by done
                     | rewrite lookup_insert_eq
                     | rewrite lookup_delete_eq
                     | rewrite lookup_empty ]); try done.
  all: rewrite lookup_union_r by (rewrite !lookup_delete_ne by done; done).
  all: repeat (first [ rewrite lookup_insert_ne by done
                     | rewrite lookup_delete_ne by done
                     | rewrite lookup_insert_eq
                     | rewrite lookup_delete_eq
                     | rewrite lookup_empty ]); try done.
Qed.

(** One call of [cambAiApiRequest]: exactly one request is logged, with the
    credential and URL that [options.baseURL] selects; a response is
    returned as it is, a rejection is rethrown classified. *)
Lemma cambAiApiRequest_run method endpoint body qs options h s :
  exists cred req,
    request_shape endpoint body options cred req
    /\ snd (GenericFunctions.cambAiApiRequest method endpoint body qs options h s)
       = log (HttpRequest cred req) s
    /\ (forall v, remote h (requests_so_far s) cred req = inr v ->
        fst (GenericFunctions.cambAiApiRequest method endpoint body qs options h s)
        = Ok v)
    /\ (forall cause, remote h (requests_so_far s) cred req = inl cause ->
        exists message,
          fst (GenericFunctions.cambAiApiRequest method endpoint body qs options h s)
          = Throw (NodeApiError cause message)
          /\ classified h cause message).
Proof.
  unfold GenericFunctions.cambAiApiRequest, request_shape.
  fold (resolved_baseURL options).
  cbv zeta.
  set (baseURL := resolved_baseURL options).
  set (url := if is_str baseURL "" then endpoint
              else JStr (toString baseURL +:+ toString endpoint)).
  pose proof (built_request_lookup method url body qs options) as Hb.
  cbv zeta in Hb.
  match type of Hb with
  | ?r !! "baseURL" = None /\ _ => set (req := r) in *
  end.
  exists (if is_str baseURL "" then None else Some "cambAiApi"), req.
  split; [destruct Hb as (? & ? & ?); auto |].
  clearbody req. clear Hb.
  rewrite try_catch_unfold.
  destruct (is_str baseURL "");
    unfold httpRequest, httpRequestWithAuthentication;
    rewrite request_unfold;
    match goal with
    | |- context [remote ?h0 ?n ?c ?r] => destruct (remote h0 n c r) as [cause | v]
    end;
    cbn beta iota.
  all: try (split; [reflexivity | split; [intros ? [= <-]; reflexivity | intros ? [=]]]).
  all: match goal with
       | |- context [(host ≫= ?k) ?h0 ?s1] =>
           destruct (classify_handler h0 s1 cause) as (message & Hrun & Hcls)
       end;
       rewrite Hrun; cbn [fst snd];
       (split; [reflexivity | split; [intros ? [=] | intros ? [= <-]; eauto]]).
Qed.

(** The earlier snapshot: always [BASE_URL], always the credential. *)
Lemma legacy_cambAiApiRequest_run method endpoint body qs options h s :
  exists req,
    snd (LegacyFunctions.cambAiApiRequest method endpoint body qs options h s)
    = log (HttpRequest (Some "cambAiApi") req) s
    /\ (forall v, remote h (requests_so_far s) (Some "cambAiApi") req = inr v ->
        fst (LegacyFunctions.cambAiApiRequest method endpoint body qs options h s)
        = Ok v)
    /\ (forall cause,
        remote h (requests_so_far s) (Some "cambAiApi") req = inl cause ->
        exists message,
          fst (LegacyFunctions.cambAiApiRequest method endpoint body qs options h s)
          = Throw (NodeApiError cause message)
          /\ classified h cause message).
Proof.
  unfold LegacyFunctions.cambAiApiRequest.
  cbv zeta.
  match goal with
  | |- context [try_catch (httpRequestWithAuthentication _ ?r) _] => exists r
  end.
  rewrite try_catch_unfold.
  unfold httpRequestWithAuthentication.
  rewrite request_unfold.
  match goal with
  | |- context [remote ?h0 ?n ?c ?r] => destruct (remote h0 n c r) as [cause | v]
  end;
    cbn beta iota.
  2: split; [reflexivity | split; [intros ? [= <-]; reflexivity | intros ? [=]]].
  match goal with
  | |- context [(host ≫= ?k) ?h0 ?s1] =>
      destruct (classify_handler h0 s1 cause) as (message & Hrun & Hcls)
  end.
  rewrite Hrun; cbn [fst snd].
  split; [reflexivity | split; [intros ? [=] | intros ? [= <-]; eauto]].
Qed.

(** C4: whenever the underlying HTTP call fails, cambAiApiRequest (in both
    snapshots) raises a classified error and never retries: exactly one
    request is issued, and its rejection is rethrown at once as a
    NodeApiError wrapping the original error, with the invalid-credentials
    message for status 401, the rate-limit message for 429, a bad-request
    message that includes the upstream message (or a generic text when it is
    absent) for 400, and no message of its own for any other failure. *)
Theorem C4_failed_request_is_classified_not_retried
    (method : string) (endpoint : JsValue) (body qs options : IDataObject)
    (h : Host) (s : Store) :
  (exists cred req,
      snd (GenericFunctions.cambAiApiRequest method endpoint body qs options h s)
      = log (HttpRequest cred req) s
      /\ forall cause, remote h (requests_so_far s) cred req = inl cause ->
         exists message,
           fst (GenericFunctions.cambAiApiRequest method endpoint body qs options h s)
           = Throw (NodeApiError cause message)
           /\ classified h cause message)
  /\ (exists req,
      snd (LegacyFunctions.cambAiApiRequest method endpoint body qs options h s)
      = log (HttpRequest (Some "cambAiApi") req) s
      /\ forall cause,
         remote h (requests_so_far s) (Some "cambAiApi") req = inl cause ->
         exists message,
           fst (LegacyFunctions.cambAiApiRequest method endpoint body qs options h s)
           = Throw (NodeApiError cause message)
           /\ classified h cause message).
Proof.
  split.
  - destruct (cambAiApiRequest_run method endpoint body qs options h s)
      as (cred & req & _ & Hlog & _ & Herr).
    exists cred, req. auto.
  - destruct (legacy_cambAiApiRequest_run method endpoint body qs options h s)
      as (req & Hlog & _ & Herr).
    exists req. auto.
Qed.

(** What the code does with a [baseURL] that is neither absent nor empty,
    against the comment above the computation ("Otherwise use the default
    BASE_URL"): the endpoint is appended to the supplied value and the
    request still carries the credential. No caller in the node passes such
    a value. *)
Example other_baseURL_is_used :
  exists req,
    events (snd (run (simple_host 1 [] false [])
                   (GenericFunctions.cambAiApiRequest "GET" (JStr "/list-voices") ∅ ∅
                      {[ "baseURL" := JStr "https://example.org" ]})))
    = [HttpRequest (Some "cambAiApi") req]
    /\ req !! "url" = Some (JStr "https://example.org/list-voices").
Proof. eexists. split; vm_compute; reflexivity. Qed.

(** C5 (counterexample): a url entry in the caller's options replaces the
    URL the client computed, since the options are copied over the request
    last: with the empty-base option and such an entry, the endpoint is not
    the URL of the request. *)
Lemma C5_url_option_replaces_the_endpoint :
  exists req,
    events (snd (run (simple_host 1 [] false [])
                   (GenericFunctions.cambAiApiRequest "GET" (JStr "https://a/1.mp3") ∅ ∅
                      (<["url" := JStr "https://b/2.mp3"]>
                         {[ "baseURL" := JStr "" ]}))))
    = [HttpRequest None req]
    /\ req !! "url" = Some (JStr "https://b/2.mp3")
    /\ req !! "url" <> Some (JStr "https://a/1.mp3").
Proof.
  eexists. split; [vm_compute; reflexivity |].
  split; [vm_compute; reflexivity |].
  vm_compute. discriminate.
Qed.

(** C5 (amended): for every request issued through cambAiApiRequest whose
    options carry no url entry of their own: when options.baseURL is the
    empty string the endpoint is used verbatim as the URL and the request is
    issued without the cambAiApi credential; when options.baseURL is absent
    (or undefined) the endpoint is appended to the fixed base endpoint
    'https://client.camb.ai/apis' and the request is authenticated with the
    credential; in both cases exactly this one request is issued and its
    options carry no baseURL entry. *)
Theorem C5_target_and_authentication
    (method : string) (endpoint : JsValue) (body qs options : IDataObject)
    (h : Host) (s : Store) :
  options !! "url" = None ->
  exists cred req,
    snd (GenericFunctions.cambAiApiRequest method endpoint body qs options h s)
    = log (HttpRequest cred req) s
    /\ req !! "baseURL" = None
    /\ (prop options "baseURL" = JStr "" ->
        cred = None /\ req !! "url" = Some endpoint)
    /\ (prop options "baseURL" = JUndefined ->
        cred = Some "cambAiApi"
        /\ req !! "url"
           = Some (JStr (GenericFunctions.BASE_URL +:+ toString endpoint))).
Proof.
  intros Hurl.
  destruct (cambAiApiRequest_run method endpoint body qs options h s)
    as (cred & req & (Hcred & Hbase & Hu & _) & Hlog & _).
  specialize (Hu Hurl).
  exists cred, req. split; [exact Hlog |]. split; [exact Hbase |].
  unfold resolved_baseURL in *.
  split.
  - intros Hb. rewrite Hb in *. simpl in *. auto.
  - intros Hb. rewrite Hb in *. simpl in *. auto.
Qed.

Lemma C5_target_and_authentication_witness :
  exists cred req,
    snd (GenericFunctions.cambAiApiRequest "GET" (JStr "https://a/1.mp3") ∅ ∅
           {[ "baseURL" := JStr "" ]} (simple_host 1 [] false []) empty_store)
    = log (HttpRequest cred req) empty_store
    /\ req !! "baseURL" = None
    /\ (prop {[ "baseURL" := JStr "" ]} "baseURL" = JStr "" ->
        cred = None /\ req !! "url" = Some (JStr "https://a/1.mp3"))
    /\ (prop {[ "baseURL" := JStr "" ]} "baseURL" = JUndefined ->
        cred = Some "cambAiApi"
        /\ req !! "url"
           = Some (JStr (GenericFunctions.BASE_URL +:+ toString (JStr "https://a/1.mp3")))).
Proof.
  apply (C5_target_and_authentication "GET" (JStr "https://a/1.mp3") ∅ ∅
           {[ "baseURL" := JStr "" ]} (simple_host 1 [] false []) empty_store).
  vm_compute. reflexivity.
Defined.


(** ** The task poller *)

Lemma pollForResult_unfold fuel endpoint interval h s :
  GenericFunctions.pollForResult (S fuel) endpoint interval h s
  = match GenericFunctions.pollIteration endpoint interval h s with
    | (Ok (Return result), s') => (Ok result, s')
    | (Ok Continue, s') =>
        GenericFunctions.pollForResult fuel endpoint interval h s'
    | (Throw e, s') => (Throw e, s')
    | (Pending, s') => (Pending, s')
    end.
Proof.
  simpl. rewrite bind_unfold.
  destruct (GenericFunctions.pollIteration endpoint interval h s) as [[[|r]|e|] s'];
    reflexivity.
Qed.

(** One round on a successful status request. *)
Lemma pollIteration_response endpoint interval h s s' (result : IDataObject) :
  GenericFunctions.cambAiApiRequest "GET" endpoint ∅ ∅ ∅ h s
  = (Ok (JObj result), s') ->
  GenericFunctions.pollIteration endpoint interval h s
  = let status := GenericFunctions.status_of (prop result "status") in
    if String.eqb status "SUCCESS" then (Ok (Return (JObj result)), s')
    else if String.eqb status "ERROR" || String.eqb status "FAILED" then
      (Throw (Error ("Task failed: "
                     +:+ toString (js_or (js_or (prop result "message")
                                                (prop result "error"))
                                         (JStr "Unknown error")))), s')
    else if String.eqb status "TIMEOUT" then
      (Throw (Error "Task timed out on the server. Try again or use smaller input."), s')
    else if String.eqb status "PAYMENT_REQUIRED" then
      (Throw (Error "Insufficient credits. Please check your Camb.ai account balance."), s')
    else (Ok Continue, log (Sleep interval) s').
Proof.
  intros Hreq. unfold GenericFunctions.pollIteration.
  rewrite try_catch_unfold, bind_unfold, Hreq.
  cbn beta iota zeta.
  rewrite bind_unfold. unfold lift at 1. cbn [get]. cbn beta iota.
  destruct (String.eqb _ "SUCCESS"); [reflexivity |].
  destruct (String.eqb _ "ERROR" || String.eqb _ "FAILED"); [reflexivity |].
  destruct (String.eqb _ "TIMEOUT"); [reflexivity |].
  destruct (String.eqb _ "PAYMENT_REQUIRED"); reflexivity.
Qed.

(** One round on a failed status request. *)
Lemma pollIteration_failure endpoint interval h s s' e :
  GenericFunctions.cambAiApiRequest "GET" endpoint ∅ ∅ ∅ h s = (Throw e, s') ->
  GenericFunctions.pollIteration endpoint interval h s
  = if bool_decide (statusCode_of h e = Some 404)
    then (Ok Continue, log (Sleep interval) s')
    else (Throw e, s').
Proof.
  intros Hreq. unfold GenericFunctions.pollIteration.
  rewrite try_catch_unfold, bind_unfold, Hreq.
  cbn beta iota zeta.
  rewrite bind_unfold. unfold host at 1. cbn beta iota.
  case_bool_decide; reflexivity.
Qed.

(** C1: on every poll iteration whose status request succeeds with an
    object, the status field is uppercased and dispatched: SUCCESS returns
    the full envelope; ERROR and FAILED raise an error carrying the failure
    reason of the payload (message, else error, else a generic text);
    TIMEOUT raises the server-timeout error; PAYMENT_REQUIRED raises the
    insufficient-credits error; any other status, a missing status field
    included, is non-terminal: the poller sleeps one interval and polls
    again. The store [s] is arbitrary, so this holds whatever was polled
    before. *)
Theorem C1_poll_status_dispatch
    (h : Host) (s s' : Store) (endpoint : JsValue) (interval : Z) (fuel : nat)
    (result : IDataObject) :
  GenericFunctions.cambAiApiRequest "GET" endpoint ∅ ∅ ∅ h s
  = (Ok (JObj result), s') ->
  let status := GenericFunctions.status_of (prop result "status") in
  (status = "SUCCESS" ->
   GenericFunctions.pollForResult (S fuel) endpoint interval h s
   = (Ok (JObj result), s'))
  /\ (status = "ERROR" \/ status = "FAILED" ->
      GenericFunctions.pollForResult (S fuel) endpoint interval h s
      = (Throw (Error ("Task failed: "
                       +:+ toString (js_or (js_or (prop result "message")
                                                  (prop result "error"))
                                           (JStr "Unknown error")))), s'))
  /\ (status = "TIMEOUT" ->
      GenericFunctions.pollForResult (S fuel) endpoint interval h s
      = (Throw (Error "Task timed out on the server. Try again or use smaller input."),
         s'))
  /\ (status = "PAYMENT_REQUIRED" ->
      GenericFunctions.pollForResult (S fuel) endpoint interval h s
      = (Throw (Error "Insufficient credits. Please check your Camb.ai account balance."),
         s'))
  /\ (status <> "SUCCESS" -> status <> "ERROR" -> status <> "FAILED" ->
      status <> "TIMEOUT" -> status <> "PAYMENT_REQUIRED" ->
      GenericFunctions.pollIteration endpoint interval h s
      = (Ok Continue, log (Sleep interval) s')
      /\ GenericFunctions.pollForResult (S fuel) endpoint interval h s
         = GenericFunctions.pollForResult fuel endpoint interval h
             (log (Sleep interval) s'))
  /\ (result !! "status" = None -> status = "").
Proof.
  intros Hreq status.
  pose proof (pollIteration_response endpoint interval h s s' result Hreq) as Hit.
  cbv zeta in Hit. fold status in Hit.
  repeat split.
  - intros E. rewrite pollForResult_unfold, Hit, E. reflexivity.
  - intros [E | E]; rewrite pollForResult_unfold, Hit, E; reflexivity.
  - intros E. rewrite pollForResult_unfold, Hit, E. reflexivity.
  - intros E. rewrite pollForResult_unfold, Hit, E. reflexivity.
  - apply String.eqb_neq in H, H0, H1, H2, H3.
    rewrite Hit, H, H0, H1, H2, H3. reflexivity.
  - apply String.eqb_neq in H, H0, H1, H2, H3.
    rewrite pollForResult_unfold, Hit, H, H0, H1, H2, H3. reflexivity.
  - intros E. subst status. unfold prop. rewrite E. reflexivity.
Qed.

Lemma C1_poll_status_dispatch_witness :
  GenericFunctions.pollForResult 1 (JStr "/translate/t1") 3000
    payment_required_host
    (snd (run payment_required_host
            (GenericFunctions.pollForResult 2 (JStr "/translate/t1") 3000)))
  = (Throw (Error "Insufficient credits. Please check your Camb.ai account balance."),
     snd (run payment_required_host
            (GenericFunctions.pollForResult 3 (JStr "/translate/t1") 3000))).
Proof.
  apply (C1_poll_status_dispatch payment_required_host _ _ (JStr "/translate/t1")
           3000 0 (object [("status", JStr "payment_required")])).
  - vm_compute. reflexivity.
  - vm_compute. reflexivity.
Defined.

(** What the poller sees of a rejected status request is the [NodeApiError]
    built by [cambAiApiRequest]: the round is retried exactly when the
    workflow library shows status code 404 on that error. *)
Lemma poll_rejected_request endpoint interval h s :
  exists cred req,
    forall cause, remote h (requests_so_far s) cred req = inl cause ->
    exists message,
      classified h cause message
      /\ GenericFunctions.pollIteration endpoint interval h s
         = if bool_decide (NodeApiError_statusCode h cause message = Some 404)
           then (Ok Continue, log (Sleep interval) (log (HttpRequest cred req) s))
           else (Throw (NodeApiError cause message), log (HttpRequest cred req) s).
Proof.
  destruct (cambAiApiRequest_run "GET" endpoint ∅ ∅ ∅ h s)
    as (cred & req & _ & Hlog & _ & Herr).
  exists cred, req. intros cause Hc.
  destruct (Herr cause Hc) as (message & Hthrow & Hcls).
  exists message. split; [exact Hcls |].
  rewrite (pollIteration_failure endpoint interval h s
             (log (HttpRequest cred req) s) (NodeApiError cause message)).
  - reflexivity.
  - rewrite <- Hlog, <- Hthrow. apply surjective_pairing.
Qed.

(** ** Stepping through a program *)

Lemma bind_assoc {A B C : Type} (m : M A) (g : A -> M B) (f : B -> M C) h s :
  ((m ≫= g) ≫= f) h s = (m ≫= (fun a => g a ≫= f)) h s.
Proof.
  rewrite !bind_unfold. destruct (m h s) as [[a | e |] s1]; reflexivity.
Qed.

Lemma bind_mret {A B : Type} (a : A) (f : A -> M B) h s :
  (mret a ≫= f) h s = f a h s.
Proof. reflexivity. Qed.

Lemma bind_lift_ok {A B : Type} (a : A) (f : A -> M B) h s :
  (lift (Ok a) ≫= f) h s = f a h s.
Proof. reflexivity. Qed.

Lemma bind_lift_throw {A B : Type} (e : JsError) (f : A -> M B) h s :
  (lift (Throw e) ≫= f) h s = (Throw e, s).
Proof. reflexivity. Qed.

Lemma bind_throwM {A B : Type} (e : JsError) (f : A -> M B) h s :
  (throwM e ≫= f) h s = (Throw e, s).
Proof. reflexivity. Qed.

Lemma bind_host {B : Type} (f : Host -> M B) h s : (host ≫= f) h s = f h h s.
Proof. reflexivity. Qed.

Lemma getNodeParameter_set name i fb v h s :
  nodeParameter h name i = Some v ->
  getNodeParameter name i fb h s = (Ok v, s).
Proof.
  intros H. unfold getNodeParameter. rewrite bind_host, H. reflexivity.
Qed.

Lemma bind_getNodeParameter {B : Type} name i fb v (f : JsValue -> M B) h s :
  nodeParameter h name i = Some v ->
  (getNodeParameter name i fb ≫= f) h s = f v h s.
Proof.
  intros H. rewrite bind_unfold, (getNodeParameter_set _ _ _ v) by assumption.
  reflexivity.
Qed.

Lemma bind_push {B : Type} (r : INodeExecutionData) (f : unit -> M B) h s :
  (push r ≫= f) h s
  = f tt h {| events := events s; returnData := (returnData s ++ [r])%list |}.
Proof. reflexivity. Qed.

Lemma bind_prepareBinaryData {B : Type} buf name mime (f : IBinaryData -> M B) h s :
  (helpers_prepareBinaryData buf name mime ≫= f) h s
  = f {| data := buf; fileName := name; mimeType := mime |} h s.
Proof. reflexivity. Qed.

(** ** What a program does to the store, and what it throws *)

#[global] Instance events_extend_tracked : Tracked events_extend.
Proof.
  split.
  - intros s. exists []. now rewrite app_nil_r.
  - intros a b c [m1 H1] [m2 H2]. exists (m1 ++ m2)%list.
    now rewrite H2, H1, app_assoc.
  - intros e s. exists [e]. reflexivity.
Qed.

#[global] Instance pushes_for_tracked (i : nat) : Tracked (pushes_for i).
Proof.
  split.
  - intros s. exists []. split; [now rewrite app_nil_r | constructor].
  - intros a b c (n1 & H1 & F1) (n2 & H2 & F2). exists (n1 ++ n2)%list. split.
    + now rewrite H2, H1, app_assoc.
    + apply Forall_app. auto.
  - intros e s. exists []. split; [simpl; now rewrite app_nil_r | constructor].
Qed.

#[global] Instance not_operation_error_covers : Covers not_operation_error.
Proof. split; intros; exact I. Qed.

#[global] Instance any_error_covers : Covers any_error.
Proof. split; intros; exact I. Qed.

Section Sat.

Context (R : Store -> Store -> Prop) (P : JsError -> Prop).
Context `{!Tracked R} `{!Covers P}.

Lemma sat_ret {A : Type} (a : A) : sat R P (mret a).
Proof. intros h s. split; [apply tracked_refl | intros e [=]]. Qed.

Lemma sat_bind {A B : Type} (m : M A) (f : A -> M B) :
  sat R P m -> (forall a, sat R P (f a)) -> sat R P (m ≫= f).
Proof.
  intros Hm Hf h s. rewrite bind_unfold.
  destruct (Hm h s) as [HR HP].
  destruct (m h s) as [[a | e |] s1]; cbn [fst snd] in *.
  - destruct (Hf a h s1) as [HR' HP']. split; [| exact HP'].
    eapply tracked_trans; eauto.
  - split; [exact HR | intros e' [= <-]; apply HP; reflexivity].
  - split; [exact HR | intros e [=]].
Qed.

Lemma sat_lift {A : Type} (o : Outcome A) :
  (forall e, o = Throw e -> P e) -> sat R P (lift o).
Proof. intros H h s. split; [apply tracked_refl | exact H]. Qed.

Lemma sat_throwM {A : Type} (e : JsError) : P e -> sat R P (throwM e : M A).
Proof. intros H h s. split; [apply tracked_refl | intros e' [= <-]; exact H]. Qed.

Lemma sat_host : sat R P host.
Proof. intros h s. split; [apply tracked_refl | intros e [=]]. Qed.

Lemma sat_try_catch {A : Type} (Q : JsError -> Prop) (body : M A)
    (handler : JsError -> M A) :
  sat R Q body -> (forall e, Q e -> sat R P (handler e)) ->
  sat R P (try_catch body handler).
Proof.
  intros Hb Hh h s. rewrite try_catch_unfold.
  destruct (Hb h s) as [HR HQ].
  destruct (body h s) as [[a | e |] s1]; cbn [fst snd] in *.
  - split; [exact HR | intros e [=]].
  - destruct (Hh e (HQ e eq_refl) h s1) as [HR' HP']. split; [| exact HP'].
    eapply tracked_trans; eauto.
  - split; [exact HR | intros e [=]].
Qed.

Lemma sat_get (v : JsValue) (k : string) : sat R P (lift (get v k)).
Proof.
  apply sat_lift. intros e H.
  destruct v; simpl in H; inversion H; apply covers_type.
Qed.

Lemma sat_get_index (v : JsValue) (i : nat) : sat R P (lift (get_index v i)).
Proof.
  apply sat_lift. intros e H.
  destruct v; simpl in H; inversion H; apply covers_type.
Qed.

Lemma sat_Buffer_from (v : JsValue) : sat R P (lift (Buffer_from v)).
Proof.
  apply sat_lift. intros e H.
  destruct v; simpl in H; inversion H; apply covers_type.
Qed.

Lemma sat_generateWavHeader dl sr ch b :
  sat R P (lift (GenericFunctions.generateWavHeader dl sr ch b)).
Proof.
  apply sat_lift. intros e H.
  destruct (generateWavHeader_throws _ _ _ _ _ H) as [m ->].
  apply covers_range.
Qed.

Lemma sat_generateWavHeader_at dl sr ch b :
  sat R P (lift (CambAiNode.generateWavHeader_at dl sr ch b)).
Proof. rewrite generateWavHeader_at_written. apply sat_generateWavHeader. Qed.

Lemma sat_legacy_generateWavHeader dl sr ch b :
  sat R P (lift (LegacyFunctions.generateWavHeader dl sr ch b)).
Proof. rewrite generateWavHeader_same. apply sat_generateWavHeader. Qed.

Lemma sat_sleep (ms : Z) : sat R P (sleep ms).
Proof. intros h s. split; [apply tracked_log | intros e [=]]. Qed.

Lemma sat_prepareBinaryData buf name mime :
  sat R P (helpers_prepareBinaryData buf name mime).
Proof. apply sat_ret. Qed.

Lemma sat_getNodeParameter name i fb : sat R P (getNodeParameter name i fb).
Proof.
  intros h s. unfold getNodeParameter. rewrite bind_host.
  destruct (nodeParameter h name i) as [v |]; [| destruct fb as [d |]].
  - apply sat_ret.
  - apply sat_ret.
  - apply sat_throwM. apply covers_error.
Qed.

Lemma sat_push (r : INodeExecutionData) :
  (forall s, R s {| events := events s; returnData := (returnData s ++ [r])%list |}) ->
  sat R P (push r).
Proof. intros H h s. split; [apply H | intros e [=]]. Qed.

Lemma sat_cambAiApiRequest method endpoint body qs options :
  sat R P (GenericFunctions.cambAiApiRequest method endpoint body qs options).
Proof.
  intros h s.
  destruct (cambAiApiRequest_run method endpoint body qs options h s)
    as (cred & req & _ & Hlog & Hok & Herr).
  split.
  - rewrite Hlog. apply tracked_log.
  - intros e He.
    destruct (remote h (requests_so_far s) cred req) as [cause | v] eqn:E.
    + destruct (Herr cause eq_refl) as (m & Hm & _).
      rewrite Hm in He. inversion He. apply covers_api.
    + rewrite (Hok v eq_refl) in He. discriminate.
Qed.

Lemma sat_legacy_cambAiApiRequest method endpoint body qs options :
  sat R P (LegacyFunctions.cambAiApiRequest method endpoint body qs options).
Proof.
  intros h s.
  destruct (legacy_cambAiApiRequest_run method endpoint body qs options h s)
    as (req & Hlog & Hok & Herr).
  split.
  - rewrite Hlog. apply tracked_log.
  - intros e He.
    destruct (remote h (requests_so_far s) (Some "cambAiApi") req)
      as [cause | v] eqn:E.
    + destruct (Herr cause eq_refl) as (m & Hm & _).
      rewrite Hm in He. inversion He. apply covers_api.
    + rewrite (Hok v eq_refl) in He. discriminate.
Qed.

Lemma sat_pollIteration endpoint interval :
  sat R P (GenericFunctions.pollIteration endpoint interval).
Proof.
  unfold GenericFunctions.pollIteration.
  apply (sat_try_catch P).
  - apply sat_bind; [apply sat_cambAiApiRequest | intros response].
    apply sat_bind; [apply sat_get | intros result_status].
    destruct (String.eqb _ "SUCCESS"); [apply sat_ret |].
    destruct (String.eqb _ "ERROR" || String.eqb _ "FAILED").
    { apply sat_bind; [apply sat_get | intros m].
      apply sat_bind; [apply sat_get | intros e].
      apply sat_throwM, covers_error. }
    destruct (String.eqb _ "TIMEOUT"); [apply sat_throwM, covers_error |].
    destruct (String.eqb _ "PAYMENT_REQUIRED"); [apply sat_throwM, covers_error |].
    apply sat_bind; [apply sat_sleep | intros []; apply sat_ret].
  - intros e He. apply sat_bind; [apply sat_host | intros h0].
    case_bool_decide.
    + apply sat_bind; [apply sat_sleep | intros []; apply sat_ret].
    + apply sat_throwM, He.
Qed.

Lemma sat_pollForResult fuel endpoint interval :
  sat R P (GenericFunctions.pollForResult fuel endpoint interval).
Proof.
  induction fuel as [| fuel IH]; simpl.
  - apply sat_lift. intros e [=].
  - apply sat_bind; [apply sat_pollIteration | intros [| result]].
    + exact IH.
    + apply sat_ret.
Qed.

Lemma sat_for_of {A : Type} (l : list A) (body : A -> M unit) :
  (forall x, sat R P (body x)) -> sat R P (for_of l body).
Proof.
  intros Hb. induction l as [| x l IH]; simpl.
  - apply sat_ret.
  - apply sat_bind; [apply Hb | intros _; exact IH].
Qed.

Lemma sat_segment_texts (segments : JsValue) :
  sat R P (lift (CambAiNode.segment_texts segments)).
Proof.
  apply sat_lift. intros e H.
  destruct segments; simpl in H; try (inversion H; apply covers_type).
  revert e H. induction l as [| x l IH]; simpl; intros e H; [discriminate |].
  destruct (get x "text") as [y | e1 |] eqn:Ex; simpl in H.
  - destruct (map_outcome _ l) as [ys | e2 |]; simpl in H; try discriminate.
    inversion H; subst. now apply IH.
  - inversion H; subst.
    destruct x; simpl in Ex; inversion Ex; apply covers_type.
  - discriminate.
Qed.

Lemma sat_parse_texts (textsInput : JsValue) :
  sat R P (CambAiNode.parse_texts textsInput).
Proof.
  intros h s. unfold CambAiNode.parse_texts, JSON_parse_text.
  rewrite try_catch_unfold, bind_unfold, bind_host.
  destruct (JSON_parse h (toString textsInput)) as [v |]; cbn.
  - destruct (Array_isArray v); cbn; (split; [apply tracked_refl | intros e [=]]).
  - split; [apply tracked_refl | intros e [=]].
Qed.

(** The two input-binary helpers throw what the host hands them. *)
Lemma sat_assertBinaryData i name :
  (forall e, P e) -> sat R P (helpers_assertBinaryData i name).
Proof.
  intros HP h s. unfold helpers_assertBinaryData. rewrite bind_host.
  destruct (assertBinaryData h i name); cbn;
    (split; [apply tracked_refl | intros e' [=]; subst; apply HP]).
Qed.

Lemma sat_getBinaryDataBuffer i name :
  (forall e, P e) -> sat R P (helpers_getBinaryDataBuffer i name).
Proof.
  intros HP h s. unfold helpers_getBinaryDataBuffer. rewrite bind_host.
  destruct (getBinaryDataBuffer h i name); cbn;
    (split; [apply tracked_refl | intros e' [=]; subst; apply HP]).
Qed.

End Sat.

Ltac sat_step :=
  lazymatch goal with
  | |- sat _ _ (_ ≫= _) => apply sat_bind; try typeclasses eauto; [ | intro ]
  | |- sat _ _ (mret _) => apply sat_ret
  | |- sat _ _ (lift (get _ _)) => apply sat_get
  | |- sat _ _ (lift (get_index _ _)) => apply sat_get_index
  | |- sat _ _ (lift (Buffer_from _)) => apply sat_Buffer_from
  | |- sat _ _ (lift (GenericFunctions.generateWavHeader _ _ _ _)) =>
      apply sat_generateWavHeader
  | |- sat _ _ (lift (CambAiNode.generateWavHeader_at _ _ _ _)) =>
      apply sat_generateWavHeader_at
  | |- sat _ _ (lift (LegacyFunctions.generateWavHeader _ _ _ _)) =>
      apply sat_legacy_generateWavHeader
  | |- sat _ _ (lift (CambAiNode.segment_texts _)) => apply sat_segment_texts
  | |- sat _ _ (getNodeParameter _ _ _) => apply sat_getNodeParameter
  | |- sat _ _ (GenericFunctions.cambAiApiRequest _ _ _ _ _) =>
      apply sat_cambAiApiRequest
  | |- sat _ _ (LegacyFunctions.cambAiApiRequest _ _ _ _ _) =>
      apply sat_legacy_cambAiApiRequest
  | |- sat _ _ (GenericFunctions.pollForResult _ _ _) =>
      apply sat_pollForResult
  | |- sat _ _ (CambAiNode.parse_texts _) => apply sat_parse_texts
  | |- sat _ _ (helpers_prepareBinaryData _ _ _) => apply sat_prepareBinaryData
  | |- sat _ _ (helpers_assertBinaryData _ _) =>
      apply sat_assertBinaryData; try typeclasses eauto; intros; exact I
  | |- sat _ _ (helpers_getBinaryDataBuffer _ _) =>
      apply sat_getBinaryDataBuffer; try typeclasses eauto; intros; exact I
  | |- sat _ _ (for_of _ _) => apply sat_for_of; try typeclasses eauto; intro
  | |- sat _ _ (throwM _) => apply sat_throwM; try typeclasses eauto; exact I
  | |- sat _ _ (sleep _) => apply sat_sleep
  | |- sat _ _ (if ?c then _ else _) => destruct c
  | |- sat _ _ (match ?v with _ => _ end) => destruct v
  end; try typeclasses eauto.

Lemma events_extend_push s r :
  events_extend s
    {| events := events s; returnData := (returnData s ++ [r])%list |}.
Proof. exists []. simpl. now rewrite app_nil_r. Qed.

Ltac sat_events :=
  repeat first
    [ sat_step
    | apply sat_push; try typeclasses eauto; intros; apply events_extend_push ].

(** After [m], the rest of a program only adds events, and throws what [m]
    throws or what the rest may throw. *)
Lemma bind_continues {A B : Type} (m : M A) (f : A -> M B)
    (P : JsError -> Prop) h s :
  (forall a, sat events_extend P (f a)) ->
  events_extend (snd (m h s)) (snd ((m ≫= f) h s))
  /\ (forall e, fst ((m ≫= f) h s) = Throw e ->
      fst (m h s) = Throw e \/ P e).
Proof.
  intros Hf. rewrite bind_unfold.
  destruct (m h s) as [[a | e |] s1]; cbn [fst snd].
  - destruct (Hf a h s1) as [HR HP]. split; [exact HR | auto].
  - split; [apply tracked_refl | intros e' [= <-]; auto].
  - split; [apply tracked_refl | intros e' [=]].
Qed.

(** A call whose request the remote side answers. *)
Lemma cambAiApiRequest_answered method endpoint body qs options h s v :
  (forall cred req, remote h (requests_so_far s) cred req = inr v) ->
  exists cred req,
    GenericFunctions.cambAiApiRequest method endpoint body qs options h s
    = (Ok v, log (HttpRequest cred req) s).
Proof.
  intros Hans.
  destruct (cambAiApiRequest_run method endpoint body qs options h s)
    as (cred & req & _ & Hlog & Hok & _).
  exists cred, req. rewrite <- Hlog, <- (Hok v (Hans cred req)).
  apply surjective_pairing.
Qed.

Lemma legacy_cambAiApiRequest_answered method endpoint body qs options h s v :
  (forall cred req, remote h (requests_so_far s) cred req = inr v) ->
  exists req,
    LegacyFunctions.cambAiApiRequest method endpoint body qs options h s
    = (Ok v, log (HttpRequest (Some "cambAiApi") req) s).
Proof.
  intros Hans.
  destruct (legacy_cambAiApiRequest_run method endpoint body qs options h s)
    as (req & Hlog & Hok & _).
  exists req. rewrite <- Hlog, <- (Hok v (Hans _ req)).
  apply surjective_pairing.
Qed.

(** ** Synthesize: validation *)

Lemma synthesize_validation (h : Host) (s : Store) (i : nat) (text : string)
    (voiceId language model outputFormat binaryPropertyName options : JsValue) :
  nodeParameter h "text" i = Some (JStr text) ->
  nodeParameter h "voiceId" i = Some voiceId ->
  nodeParameter h "language" i = Some language ->
  nodeParameter h "model" i = Some model ->
  nodeParameter h "outputFormat" i = Some outputFormat ->
  nodeParameter h "binaryPropertyName" i = Some binaryPropertyName ->
  nodeParameter h "options" i = Some options ->
  (Z.of_nat (String.length text) < 3 \/ 3000 < Z.of_nat (String.length text) ->
   CambAiNode.synthesize i h s
   = (Throw (NodeOperationError "Text must be between 3 and 3000 characters" i), s))
  /\ (3 <= Z.of_nat (String.length text) <= 3000 ->
      (forall m j,
          fst (CambAiNode.synthesize i h s) <> Throw (NodeOperationError m j))
      /\ (forall o, options = JObj o ->
          exists req more,
            events (snd (CambAiNode.synthesize i h s))
            = (events s ++ HttpRequest (Some "cambAiApi") req :: more)%list
            /\ req !! "url"
               = Some (JStr "https://client.camb.ai/apis/tts-stream"))).
Proof.
  intros Ht Hv Hl Hm Ho Hb Hopt.
  unfold CambAiNode.synthesize.
  rewrite (bind_getNodeParameter _ _ _ _ _ _ _ Ht).
  rewrite (bind_getNodeParameter _ _ _ _ _ _ _ Hv).
  rewrite (bind_getNodeParameter _ _ _ _ _ _ _ Hl).
  rewrite (bind_getNodeParameter _ _ _ _ _ _ _ Hm).
  rewrite (bind_getNodeParameter _ _ _ _ _ _ _ Ho).
  rewrite (bind_getNodeParameter _ _ _ _ _ _ _ Hb).
  rewrite (bind_getNodeParameter _ _ _ _ _ _ _ Hopt).
  change (get (JStr text) "length")
    with (Ok (JNum (Z.of_nat (String.length text)))).
  rewrite bind_lift_ok.
  cbn [js_lt js_gt].
  split.
  - intros Hbad.
    assert (Hc : (Z.of_nat (String.length text) <? 3)
                 || (3000 <? Z.of_nat (String.length text)) = true).
    { apply orb_true_iff. destruct Hbad; [left | right]; now apply Z.ltb_lt. }
    rewrite Hc. rewrite bind_throwM. reflexivity.
  - intros Hgood.
    assert (Hc : (Z.of_nat (String.length text) <? 3)
                 || (3000 <? Z.of_nat (String.length text)) = false).
    { apply orb_false_iff. split; apply Z.ltb_ge; lia. }
    rewrite Hc. rewrite bind_mret.
    split.
    + match goal with
      | |- context [fst (?k h s)] =>
          assert (Hsat : sat events_extend not_operation_error k) by sat_events
      end.
      intros m j Heq. apply (proj2 (Hsat h s)) in Heq. exact Heq.
    + intros o ->.
      change (get (JObj o) "enhanceNamedEntities")
        with (Ok (prop o "enhanceNamedEntities")).
      rewrite bind_lift_ok.
      change (get (JObj o) "userInstructions")
        with (Ok (prop o "userInstructions")).
      rewrite bind_lift_ok.
      match goal with
      | |- context [(GenericFunctions.cambAiApiRequest ?me ?en ?bo ?qs ?op ≫= ?k) h s] =>
          destruct (cambAiApiRequest_run me en bo qs op h s)
            as (cred & req & (Hcred & _ & Hurl & _) & Hlog & _ & _);
          destruct (bind_continues
                      (GenericFunctions.cambAiApiRequest me en bo qs op)
                      k any_error h s) as [[more Hmore] _];
            [intros; sat_events |]
      end.
      exists req, more. split.
      * rewrite Hmore, Hlog. simpl. rewrite <- app_assoc.
        vm_compute in Hcred. subst cred. reflexivity.
      * rewrite Hurl by (vm_compute; reflexivity). vm_compute. reflexivity.
Qed.

Lemma legacy_synthesize_validation (h : Host) (s : Store) (i : nat)
    (text : string)
    (voice model outputFormat binaryPropertyName voiceOptions : JsValue) :
  nodeParameter h "text" i = Some (JStr text) ->
  nodeParameter h "voice" i = Some voice ->
  nodeParameter h "model" i = Some model ->
  nodeParameter h "outputFormat" i = Some outputFormat ->
  nodeParameter h "binaryPropertyName" i = Some binaryPropertyName ->
  nodeParameter h "voiceOptions" i = Some voiceOptions ->
  (Z.of_nat (String.length text) < 3 \/ 3000 < Z.of_nat (String.length text) ->
   LegacyNode.synthesize i h s
   = (Throw (NodeOperationError "Text must be between 3 and 3000 characters" i), s))
  /\ (3 <= Z.of_nat (String.length text) <= 3000 ->
      (forall m j,
          fst (LegacyNode.synthesize i h s) <> Throw (NodeOperationError m j))
      /\ (forall o, voiceOptions = JObj o ->
          exists req more,
            events (snd (LegacyNode.synthesize i h s))
            = (events s ++ HttpRequest (Some "cambAiApi") req :: more)%list)).
Proof.
  intros Ht Hv Hm Ho Hb Hopt.
  unfold LegacyNode.synthesize.
  rewrite (bind_getNodeParameter _ _ _ _ _ _ _ Ht).
  rewrite (bind_getNodeParameter _ _ _ _ _ _ _ Hv).
  rewrite (bind_getNodeParameter _ _ _ _ _ _ _ Hm).
  rewrite (bind_getNodeParameter _ _ _ _ _ _ _ Ho).
  rewrite (bind_getNodeParameter _ _ _ _ _ _ _ Hb).
  rewrite (bind_getNodeParameter _ _ _ _ _ _ _ Hopt).
  change (get (JStr text) "length")
    with (Ok (JNum (Z.of_nat (String.length text)))).
  rewrite bind_lift_ok.
  cbn [js_lt js_gt].
  split.
  - intros Hbad.
    assert (Hc : (Z.of_nat (String.length text) <? 3)
                 || (3000 <? Z.of_nat (String.length text)) = true).
    { apply orb_true_iff. destruct Hbad; [left | right]; now apply Z.ltb_lt. }
    rewrite Hc. rewrite bind_throwM. reflexivity.
  - intros Hgood.
    assert (Hc : (Z.of_nat (String.length text) <? 3)
                 || (3000 <? Z.of_nat (String.length text)) = false).
    { apply orb_false_iff. split; apply Z.ltb_ge; lia. }
    rewrite Hc. rewrite bind_mret.
    split.
    + match goal with
      | |- context [fst (?k h s)] =>
          assert (Hsat : sat events_extend not_operation_error k) by sat_events
      end.
      intros m j Heq. apply (proj2 (Hsat h s)) in Heq. exact Heq.
    + intros o ->.
      change (get (JObj o) "speed") with (Ok (prop o "speed")).
      rewrite bind_lift_ok.
      change (get (JObj o) "language") with (Ok (prop o "language")).
      rewrite bind_lift_ok.
      change (get (JObj o) "userInstructions")
        with (Ok (prop o "userInstructions")).
      rewrite bind_lift_ok.
      match goal with
      | |- context [(LegacyFunctions.cambAiApiRequest ?me ?en ?bo ?qs ?op ≫= ?k) h s] =>
          destruct (legacy_cambAiApiRequest_run me en bo qs op h s)
            as (req & Hlog & _ & _);
          destruct (bind_continues
                      (LegacyFunctions.cambAiApiRequest me en bo qs op)
                      k any_error h s) as [[more Hmore] _];
            [intros; sat_events |]
      end.
      exists req, more.
      rewrite Hmore, Hlog. simpl. rewrite <- app_assoc. reflexivity.
Qed.

(** C7: for the synthesize operation (in both snapshots, with the item's
    parameters set), text validation comes before any network call: a text
    of fewer than 3 or more than 3000 characters raises the validation error
    at once, and the store is unchanged, so no request was issued and
    nothing was retried; a text of 3 to 3000 characters, both bounds
    included, raises no validation error, and the request is issued as soon
    as the options parameter is an object. *)
Theorem C7_text_validated_before_any_request :
  (forall (h : Host) (s : Store) (i : nat) (text : string)
          (voiceId language model outputFormat binaryPropertyName options : JsValue),
      nodeParameter h "text" i = Some (JStr text) ->
      nodeParameter h "voiceId" i = Some voiceId ->
      nodeParameter h "language" i = Some language ->
      nodeParameter h "model" i = Some model ->
      nodeParameter h "outputFormat" i = Some outputFormat ->
      nodeParameter h "binaryPropertyName" i = Some binaryPropertyName ->
      nodeParameter h "options" i = Some options ->
      (Z.of_nat (String.length text) < 3 \/ 3000 < Z.of_nat (String.length text) ->
       CambAiNode.synthesize i h s
       = (Throw (NodeOperationError "Text must be between 3 and 3000 characters" i),
          s))
      /\ (3 <= Z.of_nat (String.length text) <= 3000 ->
          (forall m j,
              fst (CambAiNode.synthesize i h s) <> Throw (NodeOperationError m j))
          /\ (forall o, options = JObj o ->
              exists req more,
                events (snd (CambAiNode.synthesize i h s))
                = (events s ++ HttpRequest (Some "cambAiApi") req :: more)%list
                /\ req !! "url"
                   = Some (JStr "https://client.camb.ai/apis/tts-stream"))))
  /\ (forall (h : Host) (s : Store) (i : nat) (text : string)
             (voice model outputFormat binaryPropertyName voiceOptions : JsValue),
      nodeParameter h "text" i = Some (JStr text) ->
      nodeParameter h "voice" i = Some voice ->
      nodeParameter h "model" i = Some model ->
      nodeParameter h "outputFormat" i = Some outputFormat ->
      nodeParameter h "binaryPropertyName" i = Some binaryPropertyName ->
      nodeParameter h "voiceOptions" i = Some voiceOptions ->
      (Z.of_nat (String.length text) < 3 \/ 3000 < Z.of_nat (String.length text) ->
       LegacyNode.synthesize i h s
       = (Throw (NodeOperationError "Text must be between 3 and 3000 characters" i),
          s))
      /\ (3 <= Z.of_nat (String.length text) <= 3000 ->
          (forall m j,
              fst (LegacyNode.synthesize i h s) <> Throw (NodeOperationError m j))
          /\ (forall o, voiceOptions = JObj o ->
              exists req more,
                events (snd (LegacyNode.synthesize i h s))
                = (events s ++ HttpRequest (Some "cambAiApi") req :: more)%list))).
Proof.
  split.
  - intros. now apply (synthesize_validation h s i text voiceId language model
                         outputFormat binaryPropertyName options).
  - intros. now apply (legacy_synthesize_validation h s i text voice model
                         outputFormat binaryPropertyName voiceOptions).
Qed.

Lemma C7_text_validated_before_any_request_witness :
  CambAiNode.synthesize 0 (synthesize_host "ab" "wav" []) empty_store
  = (Throw (NodeOperationError "Text must be between 3 and 3000 characters" 0),
     empty_store).
Proof.
  apply (proj1 C7_text_validated_before_any_request
           (synthesize_host "ab" "wav" []) empty_store 0%nat "ab"
           (JNum 20303) (JStr "en-us") (JStr "mars-pro") (JStr "wav")
           (JStr "data") (JObj ∅));
    try (vm_compute; reflexivity).
  left. vm_compute. reflexivity.
Defined.

(** The boundary cases of the validation, run: 2 and 3001 characters are
    rejected and nothing is requested; 3 and 3000 characters are accepted. *)
Example synthesize_text_length_2 :
  run (synthesize_host (text_of_length 2) "wav" []) (CambAiNode.execute 1)
  = (Throw (NodeOperationError "Text must be between 3 and 3000 characters" 0),
     empty_store).
Proof. vm_compute. reflexivity. Qed.

Example synthesize_text_length_3001 :
  run (synthesize_host (text_of_length 3001) "wav" []) (CambAiNode.execute 1)
  = (Throw (NodeOperationError "Text must be between 3 and 3000 characters" 0),
     empty_store).
Proof. vm_compute. reflexivity. Qed.

Example synthesize_text_length_3 :
  exists records s',
    run (synthesize_host (text_of_length 3) "wav" []) (CambAiNode.execute 1)
    = (Ok [records], s')
    /\ length records = 1%nat /\ length (events s') = 1%nat.
Proof. eexists _, _. split; [vm_compute; reflexivity | split; reflexivity]. Qed.

Example synthesize_text_length_3000 :
  exists records s',
    run (synthesize_host (text_of_length 3000) "wav" []) (CambAiNode.execute 1)
    = (Ok [records], s')
    /\ length records = 1%nat /\ length (events s') = 1%nat.
Proof. eexists _, _. split; [vm_compute; reflexivity | split; reflexivity]. Qed.

Example legacy_synthesize_text_lengths :
  fst (run (legacy_synthesize_host (text_of_length 2) "wav" []) LegacyNode.execute)
  = Throw (NodeOperationError "Text must be between 3 and 3000 characters" 0)
  /\ fst (run (legacy_synthesize_host (text_of_length 3001) "wav" [])
            LegacyNode.execute)
     = Throw (NodeOperationError "Text must be between 3 and 3000 characters" 0)
  /\ (exists r,
         fst (run (legacy_synthesize_host (text_of_length 3) "wav" [])
                LegacyNode.execute) = Ok [[r]])
  /\ (exists r,
         fst (run (legacy_synthesize_host (text_of_length 3000) "wav" [])
                LegacyNode.execute) = Ok [[r]]).
Proof.
  split; [vm_compute; reflexivity |].
  split; [vm_compute; reflexivity |].
  split; eexists; vm_compute; reflexivity.
Qed.

(** ** Synthesize: the payload *)

Lemma checkInt_above (q min max : Q) (buf : list byte) (off len : nat) :
  (max < q)%Q ->
  checkInt q min max buf off len
  = Throw (RangeError "The value of 'value' is out of range.").
Proof.
  intros H. unfold checkInt.
  destruct (Qle_bool q max) eqn:E.
  - apply Qle_bool_iff in E. exfalso. apply (Qlt_not_le _ _ H E).
  - reflexivity.
Qed.

Lemma writeUInt32LE_above (q : Q) (off : nat) (buf : list byte) :
  (inject_Z 4294967295 < q)%Q ->
  writeUInt32LE q off buf
  = Throw (RangeError "The value of 'value' is out of range.").
Proof.
  intros H. unfold writeUInt32LE. rewrite checkInt_above by assumption.
  reflexivity.
Qed.

Lemma generateWavHeader_too_long dl sr ch b :
  4294967259 < dl ->
  GenericFunctions.generateWavHeader dl sr ch b
  = Throw (RangeError "The value of 'value' is out of range.").
Proof.
  intros H. unfold GenericFunctions.generateWavHeader.
  cbv zeta.
  rewrite (writeUInt32LE_above (inject_Z (36 + dl))); [reflexivity |].
  rewrite <- Zlt_Qlt. lia.
Qed.

Lemma sampleRate_for_values model :
  CambAiNode.sampleRate_for model = CambAiNode.Hz 22050
  \/ CambAiNode.sampleRate_for model = CambAiNode.Hz 48000
  \/ CambAiNode.sampleRate_for model = CambAiNode.not_a_number.
Proof.
  unfold CambAiNode.sampleRate_for.
  destruct (CambAiNode.MODEL_SAMPLE_RATES !! toString model) as [rate |] eqn:E.
  - unfold CambAiNode.MODEL_SAMPLE_RATES in E.
    cbn [list_to_map foldr uncurry fst snd] in E.
    rewrite !lookup_insert, lookup_empty in E.
    repeat case_decide; simplify_eq; simpl; auto.
  - case_bool_decide; auto.
Qed.

Lemma wav_layout_prefix header raw dl sr ch b :
  wav_layout header dl sr ch b ->
  length (header ++ raw) = (44 + length raw)%nat
  /\ ascii_at (header ++ raw) 0 4 = "RIFF".
Proof.
  intros (Hlen & Hriff & _). split.
  - rewrite length_app, Hlen. reflexivity.
  - unfold ascii_at in *. rewrite drop_0 in *.
    rewrite take_app_le by lia. exact Hriff.
Qed.

(** The run of [synthesize] on a valid item whose request is answered with
    a buffer: the pushed payload is the fetched one, behind a WAV header
    when the format is [pcm_s16le]; a header that cannot be built fails the
    item. *)
Lemma synthesize_payload (h : Host) (s : Store) (i : nat) (text : string)
    (voiceId language model outputFormat binaryPropertyName : JsValue)
    (o response : IDataObject) (raw : list byte) :
  nodeParameter h "text" i = Some (JStr text) ->
  nodeParameter h "voiceId" i = Some voiceId ->
  nodeParameter h "language" i = Some language ->
  nodeParameter h "model" i = Some model ->
  nodeParameter h "outputFormat" i = Some outputFormat ->
  nodeParameter h "binaryPropertyName" i = Some binaryPropertyName ->
  nodeParameter h "options" i = Some (JObj o) ->
  3 <= Z.of_nat (String.length text) <= 3000 ->
  (forall cred req, remote h (requests_so_far s) cred req = inr (JObj response)) ->
  response !! "body" = Some (JBuffer raw) ->
  exists payload : Outcome (list byte),
    payload
    = (if is_str outputFormat "pcm_s16le"
       then wavHeader ← CambAiNode.generateWavHeader_at
                          (Z.of_nat (length raw))
                          (CambAiNode.sampleRate_for model) 1 16;
            Ok (wavHeader ++ raw)%list
       else Ok raw)
    /\ (forall audio, payload = Ok audio ->
        exists b rec,
          fst (CambAiNode.synthesize i h s) = Ok tt
          /\ returnData (snd (CambAiNode.synthesize i h s))
             = (returnData s ++ [rec])%list
          /\ pairedItem rec = i
          /\ binary rec = Some {[ toString binaryPropertyName := b ]}
          /\ data b = audio
          /\ mimeType b
             = CambAiNode.lookup_or CambAiNode.mimeTypes outputFormat "audio/wav")
    /\ (forall e, payload = Throw e ->
        fst (CambAiNode.synthesize i h s) = Throw e).
Proof.
  intros Ht Hv Hl Hm Ho Hb Hopt Hlen Hans Hbody.
  eexists. split; [reflexivity |].
  assert (Hc : (Z.of_nat (String.length text) <? 3)
               || (3000 <? Z.of_nat (String.length text)) = false).
  { apply orb_false_iff. split; apply Z.ltb_ge; lia. }
  assert (Hb' : get (JObj response) "body" = Ok (JBuffer raw)).
  { simpl. unfold prop. rewrite Hbody. reflexivity. }
  unfold CambAiNode.synthesize.
  rewrite (bind_getNodeParameter _ _ _ _ _ _ _ Ht).
  rewrite (bind_getNodeParameter _ _ _ _ _ _ _ Hv).
  rewrite (bind_getNodeParameter _ _ _ _ _ _ _ Hl).
  rewrite (bind_getNodeParameter _ _ _ _ _ _ _ Hm).
  rewrite (bind_getNodeParameter _ _ _ _ _ _ _ Ho).
  rewrite (bind_getNodeParameter _ _ _ _ _ _ _ Hb).
  rewrite (bind_getNodeParameter _ _ _ _ _ _ _ Hopt).
  change (get (JStr text) "length")
    with (Ok (JNum (Z.of_nat (String.length text)))).
  rewrite bind_lift_ok.
  cbn [js_lt js_gt].
  rewrite Hc. rewrite bind_mret.
  change (get (JObj o) "enhanceNamedEntities")
    with (Ok (prop o "enhanceNamedEntities")).
  rewrite bind_lift_ok.
  change (get (JObj o) "userInstructions") with (Ok (prop o "userInstructions")).
  rewrite bind_lift_ok.
  match goal with
  | |- context [(GenericFunctions.cambAiApiRequest ?me ?en ?bo ?qs ?op ≫= ?k) h s] =>
      destruct (cambAiApiRequest_answered me en bo qs op h s _ Hans)
        as (cred & req & Hreq);
      rewrite (bind_ok _ _ _ _ _ _ Hreq); cbn beta
  end.
  rewrite Hb'. rewrite bind_lift_ok. cbn beta.
  change (Buffer_from (JBuffer raw)) with (Ok raw).
  rewrite bind_lift_ok. cbn beta.
  destruct (is_str outputFormat "pcm_s16le").
  - destruct (CambAiNode.generateWavHeader_at _ _ _ _) as [header | e |] eqn:Eh.
    + split; [| intros e [=]].
      intros audio Haudio. simpl in Haudio. injection Haudio as <-.
      rewrite bind_assoc, bind_lift_ok, bind_mret. cbn beta.
      change (get (JObj o) "fileName") with (Ok (prop o "fileName")).
      rewrite bind_lift_ok, bind_prepareBinaryData. cbn beta.
      eexists _, _. unfold push.
      cbn [fst snd returnData pairedItem binary data mimeType].
      repeat split.
    + split; [intros audio [=] |].
      intros e' Hthrow. simpl in Hthrow. injection Hthrow as <-.
      rewrite bind_assoc, bind_lift_throw. reflexivity.
    + exfalso. rewrite generateWavHeader_at_written in Eh.
      eapply generateWavHeader_not_pending; eauto.
  - split; [| intros e [=]].
    intros audio Haudio. injection Haudio as <-.
    rewrite bind_mret. cbn beta.
    change (get (JObj o) "fileName") with (Ok (prop o "fileName")).
    rewrite bind_lift_ok, bind_prepareBinaryData. cbn beta.
    eexists _, _. unfold push.
    cbn [fst snd returnData pairedItem binary data mimeType].
    repeat split.
Qed.

Lemma legacy_synthesize_payload (h : Host) (s : Store) (i : nat) (text : string)
    (voice model outputFormat binaryPropertyName : JsValue)
    (o response : IDataObject) (raw : list byte) :
  nodeParameter h "text" i = Some (JStr text) ->
  nodeParameter h "voice" i = Some voice ->
  nodeParameter h "model" i = Some model ->
  nodeParameter h "outputFormat" i = Some outputFormat ->
  nodeParameter h "binaryPropertyName" i = Some binaryPropertyName ->
  nodeParameter h "voiceOptions" i = Some (JObj o) ->
  3 <= Z.of_nat (String.length text) <= 3000 ->
  (forall cred req, remote h (requests_so_far s) cred req = inr (JObj response)) ->
  response !! "body" = Some (JBuffer raw) ->
  exists payload : Outcome (list byte),
    payload
    = (if is_str outputFormat "pcm_s16le"
       then wavHeader ← LegacyFunctions.generateWavHeader
                          (Z.of_nat (length raw)) 24000 1 16;
            Ok (wavHeader ++ raw)%list
       else Ok raw)
    /\ (forall audio, payload = Ok audio ->
        exists b rec,
          fst (LegacyNode.synthesize i h s) = Ok tt
          /\ returnData (snd (LegacyNode.synthesize i h s))
             = (returnData s ++ [rec])%list
          /\ pairedItem rec = i
          /\ binary rec = Some {[ toString binaryPropertyName := b ]}
          /\ data b = audio
          /\ mimeType b
             = LegacyNode.lookup_or LegacyNode.mimeTypes outputFormat "audio/wav")
    /\ (forall e, payload = Throw e ->
        fst (LegacyNode.synthesize i h s) = Throw e).
Proof.
  intros Ht Hv Hm Ho Hb Hopt Hlen Hans Hbody.
  eexists. split; [reflexivity |].
  assert (Hc : (Z.of_nat (String.length text) <? 3)
               || (3000 <? Z.of_nat (String.length text)) = false).
  { apply orb_false_iff. split; apply Z.ltb_ge; lia. }
  assert (Hb' : get (JObj response) "body" = Ok (JBuffer raw)).
  { simpl. unfold prop. rewrite Hbody. reflexivity. }
  unfold LegacyNode.synthesize.
  rewrite (bind_getNodeParameter _ _ _ _ _ _ _ Ht).
  rewrite (bind_getNodeParameter _ _ _ _ _ _ _ Hv).
  rewrite (bind_getNodeParameter _ _ _ _ _ _ _ Hm).
  rewrite (bind_getNodeParameter _ _ _ _ _ _ _ Ho).
  rewrite (bind_getNodeParameter _ _ _ _ _ _ _ Hb).
  rewrite (bind_getNodeParameter _ _ _ _ _ _ _ Hopt).
  change (get (JStr text) "length")
    with (Ok (JNum (Z.of_nat (String.length text)))).
  rewrite bind_lift_ok.
  cbn [js_lt js_gt].
  rewrite Hc. rewrite bind_mret.
  change (get (JObj o) "speed") with (Ok (prop o "speed")).
  rewrite bind_lift_ok.
  change (get (JObj o) "language") with (Ok (prop o "language")).
  rewrite bind_lift_ok.
  change (get (JObj o) "userInstructions") with (Ok (prop o "userInstructions")).
  rewrite bind_lift_ok.
  match goal with
  | |- context [(LegacyFunctions.cambAiApiRequest ?me ?en ?bo ?qs ?op ≫= ?k) h s] =>
      destruct (legacy_cambAiApiRequest_answered me en bo qs op h s _ Hans)
        as (req & Hreq);
      rewrite (bind_ok _ _ _ _ _ _ Hreq); cbn beta
  end.
  rewrite Hb'. rewrite bind_lift_ok. cbn beta.
  change (Buffer_from (JBuffer raw)) with (Ok raw).
  rewrite bind_lift_ok. cbn beta.
  destruct (is_str outputFormat "pcm_s16le").
  - destruct (LegacyFunctions.generateWavHeader _ _ _ _) as [header | e |] eqn:Eh.
    + split; [| intros e [=]].
      intros audio Haudio. simpl in Haudio. injection Haudio as <-.
      rewrite bind_assoc, bind_lift_ok, bind_mret. cbn beta.
      change (get (JObj o) "fileName") with (Ok (prop o "fileName")).
      rewrite bind_lift_ok, bind_prepareBinaryData. cbn beta.
      eexists _, _. unfold push.
      cbn [fst snd returnData pairedItem binary data mimeType].
      repeat split.
    + split; [intros audio [=] |].
      intros e' Hthrow. simpl in Hthrow. injection Hthrow as <-.
      rewrite bind_assoc, bind_lift_throw. reflexivity.
    + exfalso. rewrite generateWavHeader_same in Eh.
      eapply generateWavHeader_not_pending; eauto.
  - split; [| intros e [=]].
    intros audio Haudio. injection Haudio as <-.
    rewrite bind_mret. cbn beta.
    change (get (JObj o) "fileName") with (Ok (prop o "fileName")).
    rewrite bind_lift_ok, bind_prepareBinaryData. cbn beta.
    eexists _, _. unfold push.
    cbn [fst snd returnData pairedItem binary data mimeType].
    repeat split.
Qed.

(** The header the node asks for exists as long as the payload fits. *)
Lemma node_header_exists (n sampleRate : Z) :
  0 <= n <= 4294967259 -> sampleRate = 22050 \/ sampleRate = 48000 \/ sampleRate = 24000 ->
  exists header,
    GenericFunctions.generateWavHeader n sampleRate 1 16 = Ok header
    /\ wav_layout header n sampleRate 1 16.
Proof.
  intros Hn Hs.
  apply generateWavHeader_layout; lia.
Qed.

(** So does the header for the rate of any model value: an inherited name
    gives a header whose rate fields are zero. *)
Lemma node_header_at_exists (n : Z) (model : JsValue) :
  0 <= n <= 4294967259 ->
  exists header,
    CambAiNode.generateWavHeader_at n (CambAiNode.sampleRate_for model) 1 16
    = Ok header
    /\ wav_layout header n (written_rate (CambAiNode.sampleRate_for model)) 1 16.
Proof.
  intros Hn. rewrite generateWavHeader_at_written.
  apply generateWavHeader_layout_fits. unfold header_fits.
  destruct (sampleRate_for_values model) as [-> | [-> | ->]]; simpl; lia.
Qed.


(** A payload too long for the RIFF size field fails the item. *)
Lemma oversized_pcm_payload (raw : list byte) :
  4294967259 < Z.of_nat (length raw) ->
  fst (CambAiNode.synthesize 0 (synthesize_host "Hello" "pcm_s16le" raw)
         empty_store)
  = Throw (RangeError "The value of 'value' is out of range.").
Proof.
  intros Hlong.
  destruct (synthesize_payload (synthesize_host "Hello" "pcm_s16le" raw)
              empty_store 0 "Hello" (JNum 20303) (JStr "en-us") (JStr "mars-pro")
              (JStr "pcm_s16le") (JStr "data") ∅
              (object [("body", JBuffer raw)]) raw)
    as (payload & Hpay & _ & Hthrow);
    try reflexivity.
  - simpl. lia.
  - apply Hthrow. rewrite Hpay.
    change (is_str (JStr "pcm_s16le") "pcm_s16le") with true. cbv iota.
    rewrite generateWavHeader_at_written, generateWavHeader_too_long;
      [reflexivity | exact Hlong].
Qed.

(** C6 (counterexample): with outputFormat 'pcm_s16le' and a raw payload of
    4294967260 bytes the item fails with a range error instead of yielding
    header ++ payload: the RIFF size 36 + 4294967260 does not fit the 32-bit
    field of the header. *)
Lemma C6_oversized_pcm_payload_fails :
  fst (CambAiNode.synthesize 0
         (synthesize_host "Hello" "pcm_s16le"
            (replicate (Z.to_nat 4294967260) "000"%byte))
         empty_store)
  = Throw (RangeError "The value of 'value' is out of range.").
Proof.
  apply oversized_pcm_payload.
  rewrite length_replicate, Z2Nat.id; lia.
Qed.

(** C6 (amended): for the synthesize operation (in both snapshots, on a
    valid item whose request is answered with a buffer) with outputFormat
    'pcm_s16le' and a raw payload of at most 4294967259 bytes, the final
    binary payload is the 44-byte WAV header concatenated with the raw
    response payload, so it is 44 bytes longer than the raw payload (1044
    bytes for 1000) and begins with ASCII 'RIFF', and it is reported with
    MIME type audio/wav; for every other output format the raw payload, of
    any size, is returned without a header being prepended. The header is
    the one [generateWavHeader] returns for the payload's length and the
    sample rate looked up for the model, whatever the model value is, the
    name of an inherited property included. *)
Theorem C6_pcm_payload_is_wrapped :
  (forall (h : Host) (s : Store) (i : nat) (text : string)
          (voiceId language model outputFormat binaryPropertyName : JsValue)
          (o response : IDataObject) (raw : list byte),
      nodeParameter h "text" i = Some (JStr text) ->
      nodeParameter h "voiceId" i = Some voiceId ->
      nodeParameter h "language" i = Some language ->
      nodeParameter h "model" i = Some model ->
      nodeParameter h "outputFormat" i = Some outputFormat ->
      nodeParameter h "binaryPropertyName" i = Some binaryPropertyName ->
      nodeParameter h "options" i = Some (JObj o) ->
      3 <= Z.of_nat (String.length text) <= 3000 ->
      (forall cred req,
          remote h (requests_so_far s) cred req = inr (JObj response)) ->
      response !! "body" = Some (JBuffer raw) ->
      (outputFormat = JStr "pcm_s16le" ->
       Z.of_nat (length raw) <= 4294967259 ->
       exists header b rec,
         CambAiNode.generateWavHeader_at (Z.of_nat (length raw))
           (CambAiNode.sampleRate_for model) 1 16 = Ok header
         /\ length header = 44%nat
         /\ fst (CambAiNode.synthesize i h s) = Ok tt
         /\ returnData (snd (CambAiNode.synthesize i h s))
            = (returnData s ++ [rec])%list
         /\ binary rec = Some {[ toString binaryPropertyName := b ]}
         /\ data b = (header ++ raw)%list
         /\ length (data b) = (44 + length raw)%nat
         /\ ascii_at (data b) 0 4 = "RIFF"
         /\ mimeType b = JStr "audio/wav")
      /\ (is_str outputFormat "pcm_s16le" = false ->
          exists b rec,
            fst (CambAiNode.synthesize i h s) = Ok tt
            /\ returnData (snd (CambAiNode.synthesize i h s))
               = (returnData s ++ [rec])%list
            /\ binary rec = Some {[ toString binaryPropertyName := b ]}
            /\ data b = raw))
  /\ (forall (h : Host) (s : Store) (i : nat) (text : string)
             (voice model outputFormat binaryPropertyName : JsValue)
             (o response : IDataObject) (raw : list byte),
      nodeParameter h "text" i = Some (JStr text) ->
      nodeParameter h "voice" i = Some voice ->
      nodeParameter h "model" i = Some model ->
      nodeParameter h "outputFormat" i = Some outputFormat ->
      nodeParameter h "binaryPropertyName" i = Some binaryPropertyName ->
      nodeParameter h "voiceOptions" i = Some (JObj o) ->
      3 <= Z.of_nat (String.length text) <= 3000 ->
      (forall cred req,
          remote h (requests_so_far s) cred req = inr (JObj response)) ->
      response !! "body" = Some (JBuffer raw) ->
      (outputFormat = JStr "pcm_s16le" ->
       Z.of_nat (length raw) <= 4294967259 ->
       exists header b rec,
         LegacyFunctions.generateWavHeader (Z.of_nat (length raw)) 24000 1 16
         = Ok header
         /\ length header = 44%nat
         /\ fst (LegacyNode.synthesize i h s) = Ok tt
         /\ returnData (snd (LegacyNode.synthesize i h s))
            = (returnData s ++ [rec])%list
         /\ binary rec = Some {[ toString binaryPropertyName := b ]}
         /\ data b = (header ++ raw)%list
         /\ length (data b) = (44 + length raw)%nat
         /\ ascii_at (data b) 0 4 = "RIFF"
         /\ mimeType b = JStr "audio/wav")
      /\ (is_str outputFormat "pcm_s16le" = false ->
          exists b rec,
            fst (LegacyNode.synthesize i h s) = Ok tt
            /\ returnData (snd (LegacyNode.synthesize i h s))
               = (returnData s ++ [rec])%list
            /\ binary rec = Some {[ toString binaryPropertyName := b ]}
            /\ data b = raw)).
Proof.
  split.
  - intros h s i text voiceId language model outputFormat binaryPropertyName
      o response raw Ht Hv Hl Hm Ho Hb Hopt Hlen Hans Hbody.
    destruct (synthesize_payload h s i text voiceId language model outputFormat
                binaryPropertyName o response raw)
      as (payload & Hpay & Hok & _); try assumption.
    split.
    + intros -> Hsize.
      destruct (node_header_at_exists (Z.of_nat (length raw)) model)
        as (header & Hgen & Hlay); [lia |].
      destruct (Hok (header ++ raw)%list) as (b & rec & H1 & H2 & _ & H4 & H5 & H6).
      { rewrite Hpay. change (is_str (JStr "pcm_s16le") "pcm_s16le") with true.
        cbv iota. rewrite Hgen. reflexivity. }
      destruct (wav_layout_prefix header raw _ _ _ _ Hlay) as [HL HR].
      exists header, b, rec.
      rewrite H5.
      split; [exact Hgen |]. split; [apply Hlay |]. split; [exact H1 |].
      split; [exact H2 |]. split; [exact H4 |]. split; [reflexivity |].
      split; [exact HL |]. split; [exact HR |].
      rewrite H6. reflexivity.
    + intros Hfmt.
      destruct (Hok raw) as (b & rec & H1 & H2 & _ & H4 & H5 & _).
      { rewrite Hpay, Hfmt. reflexivity. }
      exists b, rec. auto.
  - intros h s i text voice model outputFormat binaryPropertyName
      o response raw Ht Hv Hm Ho Hb Hopt Hlen Hans Hbody.
    destruct (legacy_synthesize_payload h s i text voice model outputFormat
                binaryPropertyName o response raw)
      as (payload & Hpay & Hok & _); try assumption.
    split.
    + intros -> Hsize.
      destruct (node_header_exists (Z.of_nat (length raw)) 24000)
        as (header & Hgen & Hlay); [lia | auto |].
      rewrite <- generateWavHeader_same in Hgen.
      destruct (Hok (header ++ raw)%list) as (b & rec & H1 & H2 & _ & H4 & H5 & H6).
      { rewrite Hpay. change (is_str (JStr "pcm_s16le") "pcm_s16le") with true.
        cbv iota. rewrite Hgen. reflexivity. }
      destruct (wav_layout_prefix header raw _ _ _ _ Hlay) as [HL HR].
      exists header, b, rec.
      rewrite H5.
      split; [exact Hgen |]. split; [apply Hlay |]. split; [exact H1 |].
      split; [exact H2 |]. split; [exact H4 |]. split; [reflexivity |].
      split; [exact HL |]. split; [exact HR |].
      rewrite H6. reflexivity.
    + intros Hfmt.
      destruct (Hok raw) as (b & rec & H1 & H2 & _ & H4 & H5 & _).
      { rewrite Hpay, Hfmt. reflexivity. }
      exists b, rec. auto.
Qed.

Lemma C6_pcm_payload_is_wrapped_witness :
  exists header b rec,
    CambAiNode.generateWavHeader_at
      (Z.of_nat (length (replicate 1000 "001"%byte)))
      (CambAiNode.sampleRate_for (JStr "mars-pro")) 1 16 = Ok header
    /\ length header = 44%nat
    /\ fst (CambAiNode.synthesize 0
              (synthesize_host "Hello" "pcm_s16le" (replicate 1000 "001"%byte))
              empty_store) = Ok tt
    /\ returnData (snd (CambAiNode.synthesize 0
                          (synthesize_host "Hello" "pcm_s16le"
                             (replicate 1000 "001"%byte))
                          empty_store))
       = (returnData empty_store ++ [rec])%list
    /\ binary rec = Some {[ toString (JStr "data") := b ]}
    /\ data b = (header ++ replicate 1000 "001"%byte)%list
    /\ length (data b) = (44 + length (replicate 1000 "001"%byte))%nat
    /\ ascii_at (data b) 0 4 = "RIFF"
    /\ mimeType b = JStr "audio/wav".
Proof.
  apply (proj1 C6_pcm_payload_is_wrapped
           (synthesize_host "Hello" "pcm_s16le" (replicate 1000 "001"%byte))
           empty_store 0%nat "Hello" (JNum 20303) (JStr "en-us") (JStr "mars-pro")
           (JStr "pcm_s16le") (JStr "data") ∅
           (object [("body", JBuffer (replicate 1000 "001"%byte))])
           (replicate 1000 "001"%byte));
    try (intros; vm_compute; reflexivity).
  - vm_compute. split; discriminate.
  - vm_compute. discriminate.
Defined.

(** The end-to-end scenario, run in both snapshots: 1000 raw bytes with
    'pcm_s16le' come out as 1044 bytes that begin with 'RIFF'. *)
Example synthesize_pcm_1000_bytes :
  exists rec b s',
    run (synthesize_host "Hello" "pcm_s16le" (replicate 1000 "001"%byte))
      (CambAiNode.execute 1) = (Ok [[rec]], s')
    /\ binary rec = Some {[ "data" := b ]}
    /\ length (data b) = 1044%nat
    /\ ascii_at (data b) 0 4 = "RIFF"
    /\ mimeType b = JStr "audio/wav"
    /\ pairedItem rec = 0%nat.
Proof.
  eexists _, _, _. split; [vm_compute; reflexivity |].
  repeat split; vm_compute; reflexivity.
Qed.

Example legacy_synthesize_pcm_1000_bytes :
  exists rec b s',
    run (legacy_synthesize_host "Hello" "pcm_s16le" (replicate 1000 "001"%byte))
      LegacyNode.execute = (Ok [[rec]], s')
    /\ binary rec = Some {[ "data" := b ]}
    /\ length (data b) = 1044%nat
    /\ ascii_at (data b) 0 4 = "RIFF"
    /\ mimeType b = JStr "audio/wav"
    /\ pairedItem rec = 0%nat.
Proof.
  eexists _, _, _. split; [vm_compute; reflexivity |].
  repeat split; vm_compute; reflexivity.
Qed.

Example synthesize_flac_1000_bytes :
  exists rec b s',
    run (synthesize_host "Hello" "flac" (replicate 1000 "001"%byte))
      (CambAiNode.execute 1) = (Ok [[rec]], s')
    /\ binary rec = Some {[ "data" := b ]}
    /\ data b = replicate 1000 "001"%byte
    /\ mimeType b = JStr "audio/flac".
Proof.
  eexists _, _, _. split; [vm_compute; reflexivity |].
  repeat split; vm_compute; reflexivity.
Qed.

(** ** Translate: the texts *)

Lemma parse_texts_run (h : Host) (s : Store) (textsInput : JsValue) :
  CambAiNode.parse_texts textsInput h s
  = (Ok (match JSON_parse h (toString textsInput) with
         | Some v => if Array_isArray v then v else JArr [textsInput]
         | None => JArr [textsInput]
         end), s).
Proof.
  unfold CambAiNode.parse_texts, JSON_parse_text.
  rewrite try_catch_unfold, bind_unfold, bind_host.
  destruct (JSON_parse h (toString textsInput)) as [v |]; [| reflexivity].
  cbn. destruct (Array_isArray v); reflexivity.
Qed.

(** C9: for the translate operation (with the item's parameters set), the
    texts submitted to the API are always an array: the parsed value exactly
    when the 'texts' input parses as a JSON array, and in every other case
    (a parse failure, or a parsed value that is not an array) the
    one-element list holding the raw input unchanged; this value is the
    texts entry of the body of the request that is issued. *)
Theorem C9_translate_texts_is_always_an_array
    (h : Host) (s : Store) (fuel i : nat)
    (textsInput sourceLanguage targetLanguage : JsValue) (o : IDataObject) :
  nodeParameter h "texts" i = Some textsInput ->
  nodeParameter h "sourceLanguage" i = Some sourceLanguage ->
  nodeParameter h "targetLanguage" i = Some targetLanguage ->
  nodeParameter h "options" i = Some (JObj o) ->
  exists texts req body more,
    CambAiNode.parse_texts textsInput h s = (Ok texts, s)
    /\ Array_isArray texts = true
    /\ (forall v, JSON_parse h (toString textsInput) = Some v ->
        Array_isArray v = true -> texts = v)
    /\ (forall v, JSON_parse h (toString textsInput) = Some v ->
        Array_isArray v = false -> texts = JArr [textsInput])
    /\ (JSON_parse h (toString textsInput) = None -> texts = JArr [textsInput])
    /\ events (snd (CambAiNode.translate fuel i h s))
       = (events s ++ HttpRequest (Some "cambAiApi") req :: more)%list
    /\ req !! "url" = Some (JStr "https://client.camb.ai/apis/translate")
    /\ req !! "body" = Some (JObj body)
    /\ body !! "texts" = Some texts.
Proof.
  intros Ht Hs Htl Hopt.
  pose proof (parse_texts_run h s textsInput) as Hparse.
  set (texts := match JSON_parse h (toString textsInput) with
                | Some v => if Array_isArray v then v else JArr [textsInput]
                | None => JArr [textsInput]
                end) in *.
  unfold CambAiNode.translate.
  rewrite (bind_getNodeParameter _ _ _ _ _ _ _ Ht).
  rewrite (bind_getNodeParameter _ _ _ _ _ _ _ Hs).
  rewrite (bind_getNodeParameter _ _ _ _ _ _ _ Htl).
  rewrite (bind_getNodeParameter _ _ _ _ _ _ _ Hopt).
  rewrite (bind_ok _ _ _ _ _ _ Hparse). cbn beta.
  change (get (JObj o) "formality") with (Ok (prop o "formality")).
  rewrite bind_lift_ok. cbn beta.
  match goal with
  | |- context [(GenericFunctions.cambAiApiRequest ?me ?en ?bo ?qs ?op ≫= ?k) h s] =>
      destruct (cambAiApiRequest_run me en bo qs op h s)
        as (cred & req & (Hcred & _ & Hurl & Hbody) & Hlog & _ & _);
      destruct (bind_continues
                  (GenericFunctions.cambAiApiRequest me en bo qs op)
                  k any_error h s) as [[more Hmore] _];
        [intros; sat_events |];
      set (body := bo) in *
  end.
  assert (Htexts : body !! "texts" = Some texts).
  { subst body. destruct (truthy (prop o "formality"));
      [rewrite lookup_insert_ne by done |]; reflexivity. }
  exists texts, req, body, more.
  split; [exact Hparse |].
  split; [subst texts; destruct (JSON_parse h (toString textsInput)) as [v |];
          [destruct (Array_isArray v) eqn:E; [exact E | reflexivity] | reflexivity] |].
  split; [intros v Hv Ha; subst texts; rewrite Hv, Ha; reflexivity |].
  split; [intros v Hv Ha; subst texts; rewrite Hv, Ha; reflexivity |].
  split; [intros Hv; subst texts; rewrite Hv; reflexivity |].
  split.
  { rewrite Hmore, Hlog. simpl. rewrite <- app_assoc.
    vm_compute in Hcred. subst cred. reflexivity. }
  split; [rewrite Hurl by reflexivity; vm_compute; reflexivity |].
  split; [| exact Htexts].
  apply Hbody; [| reflexivity | reflexivity].
  intros Hempty. rewrite Hempty in Htexts. discriminate.
Qed.

Lemma C9_translate_texts_is_always_an_array_witness :
  exists texts req body more,
    CambAiNode.parse_texts (JStr "[1,2]") (translate_host "[1,2]") empty_store
    = (Ok texts, empty_store)
    /\ Array_isArray texts = true
    /\ (forall v, JSON_parse (translate_host "[1,2]") (toString (JStr "[1,2]")) = Some v ->
        Array_isArray v = true -> texts = v)
    /\ (forall v, JSON_parse (translate_host "[1,2]") (toString (JStr "[1,2]")) = Some v ->
        Array_isArray v = false -> texts = JArr [JStr "[1,2]"])
    /\ (JSON_parse (translate_host "[1,2]") (toString (JStr "[1,2]")) = None ->
        texts = JArr [JStr "[1,2]"])
    /\ events (snd (CambAiNode.translate 5 0 (translate_host "[1,2]") empty_store))
       = (events empty_store ++ HttpRequest (Some "cambAiApi") req :: more)%list
    /\ req !! "url" = Some (JStr "https://client.camb.ai/apis/translate")
    /\ req !! "body" = Some (JObj body)
    /\ body !! "texts" = Some texts.
Proof.
  apply (C9_translate_texts_is_always_an_array (translate_host "[1,2]")
           empty_store 5 0 (JStr "[1,2]") (JNum 1) (JNum 54) ∅);
    vm_compute; reflexivity.
Defined.

(** The three cases, run: an input that parses as an array is submitted as
    that array; an input that parses as something else, and an input that
    does not parse, are submitted as the one-element list of the raw text. *)
Example translate_texts_cases :
  fst (run (translate_host "[1,2]") (CambAiNode.parse_texts (JStr "[1,2]")))
  = Ok (JArr [JNum 1; JNum 2])
  /\ fst (run (translate_host "42") (CambAiNode.parse_texts (JStr "42")))
     = Ok (JArr [JStr "42"])
  /\ fst (run (translate_host "Hello") (CambAiNode.parse_texts (JStr "Hello")))
     = Ok (JArr [JStr "Hello"]).
Proof. repeat split; vm_compute; reflexivity. Qed.

(** ** The batch loop of [execute] *)





(** One round of the loop: the item's own outcome, unless it threw; then
    either the error record is pushed and the round ends normally, or the
    error goes on. *)
Lemma item_step_run fuel resource operation i h s :
  item_step fuel resource operation i h s
  = match CambAiNode.process_item fuel resource operation i h s with
    | (Throw e, s1) =>
        if continueOnFail h
        then (Ok tt, {| events := events s1;
                        returnData := (returnData s1 ++ [error_record h i e])%list |})
        else (Throw e, s1)
    | r => r
    end.
Proof.
  unfold item_step. rewrite try_catch_unfold.
  destruct (CambAiNode.process_item fuel resource operation i h s)
    as [[[] | e |] s1]; try reflexivity.
  unfold CambAiNode.on_item_error, this_continueOnFail.
  rewrite bind_host, bind_assoc, bind_host, bind_mret.
  destruct (continueOnFail h); [| reflexivity].
  unfold push, error_record, object. cbn [list_to_map foldr uncurry].
  rewrite insert_empty. reflexivity.
Qed.

Lemma legacy_item_step_run operation i h s :
  legacy_item_step operation i h s
  = match LegacyNode.process_item operation i h s with
    | (Throw e, s1) =>
        if continueOnFail h
        then (Ok tt, {| events := events s1;
                        returnData := (returnData s1 ++ [error_record h i e])%list |})
        else (Throw e, s1)
    | r => r
    end.
Proof.
  unfold legacy_item_step. rewrite try_catch_unfold.
  destruct (LegacyNode.process_item operation i h s)
    as [[[] | e |] s1]; try reflexivity.
  unfold LegacyNode.on_item_error, this_continueOnFail.
  rewrite bind_host, bind_assoc, bind_host, bind_mret.
  destruct (continueOnFail h); [| reflexivity].
  unfold push, error_record, object. cbn [list_to_map foldr uncurry].
  rewrite insert_empty. reflexivity.
Qed.

Lemma for_range_unfold start n body h s :
  for_range start (S n) body h s
  = match body start h s with
    | (Ok tt, s') => for_range (S start) n body h s'
    | (Throw e, s') => (Throw e, s')
    | (Pending, s') => (Pending, s')
    end.
Proof.
  simpl. rewrite bind_unfold.
  destruct (body start h s) as [[[] | e |] s']; reflexivity.
Qed.




Lemma execute_run fuel resource operation h s :
  nodeParameter h "resource" 0 = Some resource ->
  nodeParameter h "operation" 0 = Some operation ->
  CambAiNode.execute fuel h s
  = match for_range 0 (inputData_length h) (item_step fuel resource operation) h
            {| events := events s; returnData := [] |} with
    | (Ok tt, s') => (Ok [returnData s'], s')
    | (Throw e, s') => (Throw e, s')
    | (Pending, s') => (Pending, s')
    end.
Proof.
  intros Hr Ho. unfold CambAiNode.execute.
  rewrite bind_host. cbv zeta.
  rewrite bind_unfold. unfold new_returnData at 1. cbn beta iota.
  rewrite (bind_getNodeParameter _ _ _ _ _ _ _ Hr).
  rewrite (bind_getNodeParameter _ _ _ _ _ _ _ Ho).
  rewrite bind_unfold.
  change (fun i => try_catch (CambAiNode.process_item fuel resource operation i)
                     (CambAiNode.on_item_error i))
    with (item_step fuel resource operation).
  destruct (for_range 0 (inputData_length h) (item_step fuel resource operation) h _)
    as [[[] | e |] s']; reflexivity.
Qed.

Lemma legacy_execute_run operation h s :
  nodeParameter h "operation" 0 = Some operation ->
  LegacyNode.execute h s
  = match for_range 0 (inputData_length h) (legacy_item_step operation) h
            {| events := events s; returnData := [] |} with
    | (Ok tt, s') => (Ok [returnData s'], s')
    | (Throw e, s') => (Throw e, s')
    | (Pending, s') => (Pending, s')
    end.
Proof.
  intros Ho. unfold LegacyNode.execute.
  rewrite bind_host. cbv zeta.
  rewrite bind_unfold. unfold new_returnData at 1. cbn beta iota.
  rewrite (bind_getNodeParameter _ _ _ _ _ _ _ Ho).
  rewrite bind_unfold.
  change (fun i => try_catch (LegacyNode.process_item operation i)
                     (LegacyNode.on_item_error i))
    with (legacy_item_step operation).
  destruct (for_range 0 (inputData_length h) (legacy_item_step operation) h _)
    as [[[] | e |] s']; reflexivity.
Qed.


(** The first of two items fails with status 401. With continue-on-failure
    the batch returns the error record for item 0 and the audio for item 1;
    without it the batch is aborted by the error of item 0, after a single
    request. *)
Example batch_continues_on_failure :
  exists b s',
    run (failing_first_host true) (CambAiNode.execute 1)
    = (Ok [[ {| json := JObj {[ "error" :=
                  JStr "Invalid API key. Please check your Camb.ai credentials." ]};
                binary := None;
                pairedItem := 0 |};
             {| json := JObj (object
                  [("text", JStr "Hello"); ("voiceId", JNum 20303);
                   ("language", JStr "en-us"); ("model", JStr "mars-pro");
                   ("outputFormat", JStr "wav");
                   ("fileName", JStr "tts_output.wav"); ("size", JNum 3)]);
                binary := Some {[ "data" := b ]};
                pairedItem := 1 |} ]], s')
    /\ length (events s') = 2%nat.
Proof. eexists _, _. split; vm_compute; reflexivity. Qed.

Example batch_aborts_on_failure :
  exists s',
    run (failing_first_host false) (CambAiNode.execute 1)
    = (Throw (NodeApiError (TransportError (Some 401) (Some "Unauthorized"))
                (Some "Invalid API key. Please check your Camb.ai credentials.")),
       s')
    /\ length (events s') = 1%nat /\ returnData s' = [].
Proof. eexists. split; [| split]; vm_compute; reflexivity. Qed.

Example legacy_batch_on_failure :
  (exists r s',
      run (legacy_failing_first_host true) LegacyNode.execute
      = (Ok [[ {| json := JObj {[ "error" :=
                    JStr "Invalid API key. Please check your Camb.ai credentials." ]};
                  binary := None;
                  pairedItem := 0 |}; r ]], s')
      /\ pairedItem r = 1%nat)
  /\ fst (run (legacy_failing_first_host false) LegacyNode.execute)
     = Throw (NodeApiError (TransportError (Some 401) (Some "Unauthorized"))
                (Some "Invalid API key. Please check your Camb.ai credentials.")).
Proof.
  split; [eexists _, _; split |]; vm_compute; reflexivity.
Qed.

(** ** createVoice: the two previews *)

Lemma bind_ok_inv {A B : Type} (m : M A) (f : A -> M B) h s b s' :
  (m ≫= f) h s = (Ok b, s') ->
  exists a s1, m h s = (Ok a, s1) /\ f a h s1 = (Ok b, s').
Proof.
  rewrite bind_unfold. destruct (m h s) as [[a | e |] s1]; try discriminate.
  intros H. eauto.
Qed.

Lemma bind_lift_pending {A B : Type} (f : A -> M B) h s :
  (lift Pending ≫= f) h s = (Pending, s).
Proof. reflexivity. Qed.

Lemma getNodeParameter_ok_inv name i fb h s v s1 :
  getNodeParameter name i fb h s = (Ok v, s1) -> s1 = s.
Proof.
  unfold getNodeParameter. rewrite bind_host.
  destruct (nodeParameter h name i); [| destruct fb]; cbn; intros [=]; auto.
Qed.

Lemma lift_ok_inv {A : Type} (o : Outcome A) h s a s1 :
  lift o h s = (Ok a, s1) -> o = Ok a /\ s1 = s.
Proof. unfold lift. intros [= -> ->]. auto. Qed.


Lemma api_only_refl s : api_only s s.
Proof. exists []. split; [now rewrite app_nil_r | constructor]. Qed.

Lemma api_only_trans a b c : api_only a b -> api_only b c -> api_only a c.
Proof.
  intros (m1 & H1 & F1) (m2 & H2 & F2). exists (m1 ++ m2)%list. split.
  - now rewrite H2, H1, app_assoc.
  - apply Forall_app. auto.
Qed.

Lemma api_only_log (e : Event) s : is_download e = false -> api_only s (log e s).
Proof. intros H. exists [e]. split; [reflexivity | constructor; auto]. Qed.

(** A call with no baseURL option is an authenticated one. *)
Lemma api_call_only method endpoint body qs options h s :
  options !! "baseURL" = None ->
  api_only s (snd (GenericFunctions.cambAiApiRequest method endpoint body qs options h s)).
Proof.
  intros Hb.
  destruct (cambAiApiRequest_run method endpoint body qs options h s)
    as (cred & req & (Hcred & _) & Hlog & _).
  rewrite Hlog. apply api_only_log.
  unfold resolved_baseURL, prop in Hcred. rewrite Hb in Hcred. simpl in Hcred.
  subst cred. reflexivity.
Qed.

(** After a round the store is that of its status request, with at most
    one sleep added. *)
Lemma pollIteration_store endpoint interval h s :
  let s1 := snd (GenericFunctions.cambAiApiRequest "GET" endpoint ∅ ∅ ∅ h s) in
  snd (GenericFunctions.pollIteration endpoint interval h s) = s1
  \/ snd (GenericFunctions.pollIteration endpoint interval h s)
     = log (Sleep interval) s1.
Proof.
  cbv zeta. unfold GenericFunctions.pollIteration.
  rewrite try_catch_unfold.
  match goal with
  | |- context [match ?b h s with _ => _ end] => set (body := b)
  end.
  assert (Hbody : snd (body h s)
                  = snd (GenericFunctions.cambAiApiRequest "GET" endpoint ∅ ∅ ∅ h s)
                  \/ (snd (body h s)
                      = log (Sleep interval)
                          (snd (GenericFunctions.cambAiApiRequest "GET" endpoint
                                  ∅ ∅ ∅ h s))
                      /\ fst (body h s) = Ok Continue)).
  { subst body. rewrite bind_unfold.
    destruct (GenericFunctions.cambAiApiRequest "GET" endpoint ∅ ∅ ∅ h s)
      as [[response | e |] s1]; cbn [snd]; auto.
    cbv zeta.
    destruct (get response "status") as [st | e |];
      [rewrite bind_lift_ok | rewrite bind_lift_throw; auto
      | rewrite bind_lift_pending; auto].
    destruct (String.eqb _ "SUCCESS"); [auto |].
    destruct (String.eqb _ "ERROR" || String.eqb _ "FAILED").
    { destruct (get response "message") as [m | e |];
        [rewrite bind_lift_ok | rewrite bind_lift_throw; auto
        | rewrite bind_lift_pending; auto].
      destruct (get response "error") as [er | e |];
        [rewrite bind_lift_ok | rewrite bind_lift_throw; auto
        | rewrite bind_lift_pending; auto].
      auto. }
    destruct (String.eqb _ "TIMEOUT"); [auto |].
    destruct (String.eqb _ "PAYMENT_REQUIRED"); [auto |].
    right. split; reflexivity. }
  destruct (body h s) as [[a | e |] s2]; cbn [fst snd] in *.
  - destruct Hbody as [-> | [-> _]]; auto.
  - destruct Hbody as [-> | [_ [=]]].
    rewrite bind_host. case_bool_decide; cbn [snd]; auto.
  - destruct Hbody as [-> | [_ [=]]]. auto.
Qed.

Lemma pollIteration_api_only endpoint interval h s :
  api_only s (snd (GenericFunctions.pollIteration endpoint interval h s)).
Proof.
  pose proof (api_call_only "GET" endpoint ∅ ∅ ∅ h s eq_refl) as Hcall.
  destruct (pollIteration_store endpoint interval h s) as [-> | ->].
  - exact Hcall.
  - eapply api_only_trans; [exact Hcall | now apply api_only_log].
Qed.

Lemma pollForResult_api_only fuel endpoint interval h s :
  api_only s (snd (GenericFunctions.pollForResult fuel endpoint interval h s)).
Proof.
  revert s. induction fuel as [| fuel IH]; intros s.
  - apply api_only_refl.
  - rewrite pollForResult_unfold.
    pose proof (pollIteration_api_only endpoint interval h s) as Hit.
    destruct (GenericFunctions.pollIteration endpoint interval h s)
      as [[[| r] | e |] s1]; cbn [snd] in *; try exact Hit.
    eapply api_only_trans; [exact Hit | apply IH].
Qed.

Lemma length_append (a b : string) :
  String.length (a +:+ b) = (String.length a + String.length b)%nat.
Proof. induction a as [| c a IH]; simpl; [reflexivity | now rewrite IH]. Qed.


(** A download that returns. *)
Lemma download_run endpoint h s v s1 :
  GenericFunctions.cambAiApiRequest "GET" endpoint ∅ ∅
    CambAiNode.external_binary_options h s = (Ok v, s1) ->
  exists req,
    s1 = log (HttpRequest None req) s
    /\ req !! "url" = Some endpoint
    /\ remote h (requests_so_far s) None req = inr v.
Proof.
  intros Hrun.
  destruct (cambAiApiRequest_run "GET" endpoint ∅ ∅
              CambAiNode.external_binary_options h s)
    as (cred & req & (Hcred & _ & Hurl & _) & Hlog & Hok & Herr).
  rewrite Hrun in *. cbn [fst snd] in *.
  vm_compute in Hcred. subst cred.
  exists req. split; [exact Hlog |]. split.
  - rewrite Hurl by reflexivity. reflexivity.
  - destruct (remote h (requests_so_far s) None req) as [cause | v'].
    + destruct (Herr cause eq_refl) as (m & Hm & _). discriminate.
    + specialize (Hok v' eq_refl). congruence.
Qed.

Lemma requests_so_far_request cred req s :
  requests_so_far (log (HttpRequest cred req) s) = S (requests_so_far s).
Proof.
  unfold requests_so_far, log. simpl.
  rewrite filter_app, length_app. simpl. lia.
Qed.

Lemma requests_so_far_sleep ms s :
  requests_so_far (log (Sleep ms) s) = requests_so_far s.
Proof.
  unfold requests_so_far, log. simpl.
  rewrite filter_app, length_app. simpl. lia.
Qed.

Lemma requests_so_far_round endpoint interval s :
  requests_so_far (log (Sleep interval) (log (status_call endpoint) s))
  = S (requests_so_far s).
Proof.
  rewrite requests_so_far_sleep. apply requests_so_far_request.
Qed.

(** An authenticated call that returns: what it logged and what the remote
    side answered. *)
Lemma api_call_answer method endpoint (body qs options : IDataObject) h s v s1 :
  options !! "baseURL" = None ->
  GenericFunctions.cambAiApiRequest method endpoint body qs options h s
  = (Ok v, s1) ->
  exists req,
    s1 = log (HttpRequest (Some "cambAiApi") req) s
    /\ remote h (requests_so_far s) (Some "cambAiApi") req = inr v.
Proof.
  intros Hb Hrun.
  destruct (cambAiApiRequest_run method endpoint body qs options h s)
    as (cred & req & (Hcred & _) & Hlog & Hok & Herr).
  rewrite Hrun in *. cbn [fst snd] in *.
  unfold resolved_baseURL, prop in Hcred. rewrite Hb in Hcred.
  cbn in Hcred. subst cred.
  exists req. split; [exact Hlog |].
  destruct (remote h (requests_so_far s) (Some "cambAiApi") req) as [cause | v'].
  - destruct (Herr cause eq_refl) as (m & Hm & _). discriminate.
  - specialize (Hok v' eq_refl). congruence.
Qed.

(** The last three requests of a store. *)
Lemma requests_so_far_last_three (e1 e2 e3 : Event) s s' :
  is_request e1 = true -> is_request e2 = true -> is_request e3 = true ->
  events s' = events (log e3 (log e2 (log e1 s))) ->
  requests_so_far s' = S (S (S (requests_so_far s))).
Proof.
  intros H1 H2 H3 Hev. unfold requests_so_far. rewrite Hev.
  cbn [events log]. rewrite !filter_app, !length_app.
  cbn [filter list_filter]. rewrite H1, H2, H3.
  repeat (destruct (decide _); [| congruence]). simpl. lia.
Qed.

Tactic Notation "inv_bind" hyp(H) ident(a) ident(s1) ident(Hm) :=
  apply bind_ok_inv in H; destruct H as (a & s1 & Hm & H).

Tactic Notation "inv_param" hyp(H) ident(a) :=
  let s1 := fresh "s" in
  let Hm := fresh "Hm" in
  apply bind_ok_inv in H; destruct H as (a & s1 & Hm & H);
  apply getNodeParameter_ok_inv in Hm; subst s1.

Tactic Notation "inv_lift" hyp(H) ident(a) ident(Hm) :=
  let s1 := fresh "s" in
  apply bind_ok_inv in H; destruct H as (a & s1 & Hm & H);
  apply lift_ok_inv in Hm; destruct Hm as [Hm ->].

#[global] Instance same_records_tracked : Tracked same_records.
Proof.
  split.
  - intros s. reflexivity.
  - intros a b c H1 H2. unfold same_records in *. congruence.
  - intros e s. reflexivity.
Qed.




(** The same item with two previews and with one, run. With two, the two
    binary outputs are the two downloads. With one, nothing stops the second
    download: it is requested with an undefined URL, the remote side rejects
    it, and the item fails after both downloads were attempted. *)
Example createVoice_two_previews :
  exists rec s',
    run (createVoice_host [JStr "https://cdn.camb.ai/p1.mp3";
                           JStr "https://cdn.camb.ai/p2.mp3"])
      (CambAiNode.execute 1) = (Ok [[rec]], s')
    /\ binary rec
       = Some (<["data_preview2" :=
                   {| data := ["004"%byte; "005"%byte; "006"%byte];
                      fileName := JStr "voice_preview_2_r1.mp3";
                      mimeType := JStr "audio/mpeg" |}]>
                 {[ "data" :=
                   {| data := ["001"%byte; "002"%byte; "003"%byte];
                      fileName := JStr "voice_preview_1_r1.mp3";
                      mimeType := JStr "audio/mpeg" |} ]})
    /\ map is_download (events s') = [false; false; false; true; true].
Proof. eexists _, _. split; [| split]; vm_compute; reflexivity. Qed.

Example createVoice_one_preview :
  exists req0 req1 api s',
    run (createVoice_host [JStr "https://cdn.camb.ai/p1.mp3"])
      (CambAiNode.execute 1)
    = (Throw (NodeApiError (TransportError None (Some "Invalid URL")) None), s')
    /\ events s' = (api ++ [HttpRequest None req0; HttpRequest None req1])%list
    /\ req0 !! "url" = Some (JStr "https://cdn.camb.ai/p1.mp3")
    /\ req1 !! "url" = Some JUndefined
    /\ returnData s' = [].
Proof.
  eexists _, _, [_; _; _], _.
  split; [vm_compute; reflexivity |].
  split; [reflexivity |].
  repeat split; vm_compute; reflexivity.
Qed.
(** ** Calls that pass no options *)

Lemma plain_call_run method endpoint (body qs : IDataObject) h s :
  match remote h (requests_so_far s) (Some "cambAiApi")
          (plain_request method endpoint body qs) with
  | inr v =>
      GenericFunctions.cambAiApiRequest method endpoint body qs ∅ h s
      = (Ok v, log (HttpRequest (Some "cambAiApi")
                      (plain_request method endpoint body qs)) s)
  | inl cause =>
      exists message,
        GenericFunctions.cambAiApiRequest method endpoint body qs ∅ h s
        = (Throw (NodeApiError cause message),
           log (HttpRequest (Some "cambAiApi")
                  (plain_request method endpoint body qs)) s)
        /\ classified h cause message
  end.
Proof.
  assert (Hrun :
    GenericFunctions.cambAiApiRequest method endpoint body qs ∅ h s
    = try_catch
        (httpRequestWithAuthentication "cambAiApi"
           (plain_request method endpoint body qs))
        (fun error =>
           h ← host;
           if bool_decide (statusCode_of h error = Some 401) then
             throwM (NodeApiError error
                       (Some "Invalid API key. Please check your Camb.ai credentials."))
           else if bool_decide (statusCode_of h error = Some 429) then
             throwM (NodeApiError error
                       (Some "Rate limit exceeded. Please wait before making more requests."))
           else if bool_decide (statusCode_of h error = Some 400) then
             throwM (NodeApiError error
                       (Some ("Bad request: "
                              +:+ toString (js_or (message_of h error)
                                                  (JStr "Invalid parameters")))))
           else throwM (NodeApiError error None)) h s).
  { unfold GenericFunctions.cambAiApiRequest, plain_request. cbv zeta.
    rewrite !delete_empty. unfold prop. rewrite !lookup_empty.
    cbn [default is_defined is_str truthy andb toString].
    rewrite (left_id_L ∅ (∪)). reflexivity. }
  rewrite Hrun, try_catch_unfold. unfold httpRequestWithAuthentication.
  rewrite request_unfold.
  destruct (remote h (requests_so_far s) (Some "cambAiApi") _) as [cause | v];
    [| reflexivity].
  apply classify_handler.
Qed.

Lemma status_request_plain endpoint :
  plain_request "GET" endpoint ∅ ∅ = status_request endpoint.
Proof. reflexivity. Qed.

(** A status request: one authenticated GET, answered or rejected. *)
Lemma status_call_run endpoint h s :
  match remote h (requests_so_far s) (Some "cambAiApi")
          (status_request endpoint) with
  | inr v =>
      GenericFunctions.cambAiApiRequest "GET" endpoint ∅ ∅ ∅ h s
      = (Ok v, log (status_call endpoint) s)
  | inl cause =>
      exists message,
        GenericFunctions.cambAiApiRequest "GET" endpoint ∅ ∅ ∅ h s
        = (Throw (NodeApiError cause message), log (status_call endpoint) s)
        /\ classified h cause message
  end.
Proof.
  pose proof (plain_call_run "GET" endpoint ∅ ∅ h s) as H.
  rewrite status_request_plain in H. exact H.
Qed.

(** Rejected or not, a call without options leaves one request on record. *)
Lemma plain_call_store method endpoint (body qs : IDataObject) h s :
  snd (GenericFunctions.cambAiApiRequest method endpoint body qs ∅ h s)
  = log (HttpRequest (Some "cambAiApi") (plain_request method endpoint body qs)) s.
Proof.
  pose proof (plain_call_run method endpoint body qs h s) as H.
  destruct (remote h (requests_so_far s) (Some "cambAiApi") _) as [cause | v].
  - destruct H as (message & -> & _). reflexivity.
  - rewrite H. reflexivity.
Qed.

(** ** A status request that is rejected *)

(** C2: the poller means to go on when a status request is not found: its
    [catch] sleeps and retries when [err.statusCode === 404]. What it
    catches, though, is the [NodeApiError] that [cambAiApiRequest] built
    around the rejection, and the library's class has no [statusCode]. So,
    with the library as it is, a rejected status request ends the poll at
    once, a 404 like any other: the poller throws the wrapped error after
    this one request, without a wait and without a second request. *)
Theorem C2_not_found_ends_the_poll
    (h : Host) (s : Store) (endpoint : JsValue) (interval : Z) (fuel : nat)
    (cause : JsError) :
  library_NodeApiError h ->
  remote h (requests_so_far s) (Some "cambAiApi") (status_request endpoint)
  = inl cause ->
  exists message,
    GenericFunctions.pollForResult (S fuel) endpoint interval h s
    = (Throw (NodeApiError cause message), log (status_call endpoint) s)
    /\ classified h cause message.
Proof.
  intros Hlib Hrej.
  pose proof (status_call_run endpoint h s) as Hcall.
  rewrite Hrej in Hcall. destruct Hcall as (message & Hcall & Hcls).
  exists message. split; [| exact Hcls].
  rewrite pollForResult_unfold.
  rewrite (pollIteration_failure _ _ _ _ _ _ Hcall).
  cbn [statusCode_of]. rewrite Hlib.
  rewrite bool_decide_eq_false_2 by discriminate. reflexivity.
Qed.

Lemma C2_not_found_ends_the_poll_witness :
  exists message,
    GenericFunctions.pollForResult 5 (JStr "/translate/t1") 3000
      not_found_once_host empty_store
    = (Throw (NodeApiError (TransportError (Some 404) (Some "Not Found")) message),
       log (status_call (JStr "/translate/t1")) empty_store)
    /\ classified not_found_once_host
         (TransportError (Some 404) (Some "Not Found")) message.
Proof.
  apply (C2_not_found_ends_the_poll not_found_once_host empty_store
           (JStr "/translate/t1") 3000 4
           (TransportError (Some 404) (Some "Not Found"))).
  - intros cause message. reflexivity.
  - vm_compute. reflexivity.
Defined.

(** The same run, evaluated: one request, no wait, and the SUCCESS answer
    that a second request would have got is never asked for. *)
Example not_found_once_run :
  run not_found_once_host
    (GenericFunctions.pollForResult 5 (JStr "/translate/t1") 3000)
  = (Throw (NodeApiError (TransportError (Some 404) (Some "Not Found")) None),
     {| events := [status_call (JStr "/translate/t1")]; returnData := [] |})
  /\ remote not_found_once_host 1 (Some "cambAiApi")
       (status_request (JStr "/translate/t1"))
     = inr (JObj (object [("status", JStr "SUCCESS"); ("run_id", JStr "r1")])).
Proof. split; vm_compute; reflexivity. Qed.

(** ** The poller, round by round *)

(** A value one property of which can be read has all its properties
    readable. *)
Lemma get_other_key v k a k' : get v k = Ok a -> exists b, get v k' = Ok b.
Proof. destruct v; simpl; intros H; try discriminate; eauto. Qed.

(** Only an object has a status that is not the empty one. *)
Lemma status_of_object v st :
  get v "status" = Ok st -> GenericFunctions.status_of st <> "" ->
  exists o, v = JObj o /\ st = prop o "status".
Proof.
  destruct v; simpl; intros [= <-] H; try (exfalso; apply H; reflexivity).
  eauto.
Qed.

(** The three ways a round ends: with the SUCCESS envelope the remote side
    answered, with an error, or with a wait before the next round. A round
    issues exactly one status request. *)
Lemma pollIteration_cases endpoint interval h s :
  let s1 := log (status_call endpoint) s in
  (exists o,
      GenericFunctions.pollIteration endpoint interval h s
      = (Ok (Return (JObj o)), s1)
      /\ remote h (requests_so_far s) (Some "cambAiApi") (status_request endpoint)
         = inr (JObj o)
      /\ GenericFunctions.status_of (prop o "status") = "SUCCESS")
  \/ (exists e,
      GenericFunctions.pollIteration endpoint interval h s = (Throw e, s1))
  \/ GenericFunctions.pollIteration endpoint interval h s
     = (Ok Continue, log (Sleep interval) s1).
Proof.
  cbv zeta.
  pose proof (status_call_run endpoint h s) as Hcall.
  destruct (remote h (requests_so_far s) (Some "cambAiApi")
              (status_request endpoint)) as [cause | v] eqn:Hremote.
  - destruct Hcall as (message & Hcall & _).
    rewrite (pollIteration_failure _ _ _ _ _ _ Hcall).
    case_bool_decide; eauto.
  - unfold GenericFunctions.pollIteration.
    rewrite try_catch_unfold, bind_unfold, Hcall. cbn beta iota zeta.
    destruct (get v "status") as [st | e |] eqn:Hst.
    + rewrite bind_lift_ok.
      destruct (get_other_key _ _ _ "message" Hst) as [m Hm].
      destruct (get_other_key _ _ _ "error" Hst) as [er Her].
      destruct (String.eqb (GenericFunctions.status_of st) "SUCCESS") eqn:Hs.
      * left. apply String.eqb_eq in Hs.
        destruct (status_of_object v st Hst) as (o & -> & ->);
          [rewrite Hs; discriminate |].
        exists o. auto.
      * right.
        destruct (String.eqb _ "ERROR" || String.eqb _ "FAILED");
          [| destruct (String.eqb _ "TIMEOUT");
             [| destruct (String.eqb _ "PAYMENT_REQUIRED")]].
        4: right; reflexivity.
        1: rewrite Hm, bind_lift_ok, Her, bind_lift_ok.
        all: left; unfold throwM at 1, lift at 1; cbn beta iota;
          rewrite bind_host; cbn [statusCode_of];
          rewrite bool_decide_eq_false_2 by discriminate; eauto.
    + right. left. rewrite bind_lift_throw, bind_host.
      destruct v; simpl in Hst; inversion Hst; subst;
        cbn [statusCode_of];
        rewrite bool_decide_eq_false_2 by discriminate; eauto.
    + destruct v; discriminate.
Qed.

(** Running the loop after a round that goes on. *)
Lemma pollForResult_continue fuel endpoint interval h s s1 :
  GenericFunctions.pollIteration endpoint interval h s = (Ok Continue, s1) ->
  GenericFunctions.pollForResult (S fuel) endpoint interval h s
  = GenericFunctions.pollForResult fuel endpoint interval h s1.
Proof. intros H. rewrite pollForResult_unfold, H. reflexivity. Qed.

(** X1: whatever the remote side answers and however long the loop runs,
    the poller adds to the log a number of rounds, each one authenticated
    GET of the same status URL (no body, no query) followed by a wait of
    exactly the given interval, and then one last status request, the one
    that ended the loop; a run cut short by the step budget is made of full
    rounds only. It never pushes an output record. *)
Theorem X1_poll_trace (fuel : nat) (endpoint : JsValue) (interval : Z)
    (h : Host) (s : Store) :
  exists (rounds : nat) (last : list Event),
    events (snd (GenericFunctions.pollForResult fuel endpoint interval h s))
    = (events s ++ concat (replicate rounds (poll_round endpoint interval))
       ++ last)%list
    /\ returnData (snd (GenericFunctions.pollForResult fuel endpoint interval h s))
       = returnData s
    /\ (rounds <= fuel)%nat
    /\ match fst (GenericFunctions.pollForResult fuel endpoint interval h s) with
       | Pending => rounds = fuel /\ last = []
       | _ => last = [status_call endpoint]
       end.
Proof.
  revert s. induction fuel as [| fuel IH]; intros s.
  - exists 0%nat, []. simpl. rewrite app_nil_r. auto.
  - destruct (pollIteration_cases endpoint interval h s)
      as [(o & Hit & _) | [(e & Hit) | Hit]].
    + rewrite pollForResult_unfold, Hit. exists 0%nat, [status_call endpoint].
      simpl. split; [reflexivity | split; [reflexivity | split; [lia | reflexivity]]].
    + rewrite pollForResult_unfold, Hit. exists 0%nat, [status_call endpoint].
      simpl. split; [reflexivity | split; [reflexivity | split; [lia | reflexivity]]].
    + rewrite (pollForResult_continue _ _ _ _ _ _ Hit).
      destruct (IH (log (Sleep interval) (log (status_call endpoint) s)))
        as (rounds & last & Hev & Hrec & Hle & Hout).
      exists (S rounds), last. split; [| split; [| split]].
      * rewrite Hev. simpl. rewrite <- !app_assoc. reflexivity.
      * rewrite Hrec. reflexivity.
      * lia.
      * destruct (fst _); [exact Hout | exact Hout |].
        destruct Hout as [-> ->]. auto.
Qed.

(** X2: the poller returns nothing but a SUCCESS envelope: whenever it
    returns, the value is an object whose status reads SUCCESS once
    uppercased, and it is what the remote side answered to the last status
    request, which is also the last thing the poller did. *)
Theorem X2_poll_returns_only_success (fuel : nat) (endpoint : JsValue)
    (interval : Z) (h : Host) (s s' : Store) (r : JsValue) :
  GenericFunctions.pollForResult fuel endpoint interval h s = (Ok r, s') ->
  exists o n,
    r = JObj o
    /\ GenericFunctions.status_of (prop o "status") = "SUCCESS"
    /\ requests_so_far s' = S n
    /\ remote h n (Some "cambAiApi") (status_request endpoint) = inr r
    /\ last (events s') = Some (status_call endpoint).
Proof.
  revert s. induction fuel as [| fuel IH]; intros s Hrun.
  - discriminate.
  - destruct (pollIteration_cases endpoint interval h s)
      as [(o & Hit & Hremote & Hstatus) | [(e & Hit) | Hit]].
    + rewrite pollForResult_unfold, Hit in Hrun. injection Hrun as <- <-.
      exists o, (requests_so_far s).
      split; [reflexivity | split; [exact Hstatus |]].
      split; [apply requests_so_far_request | split; [exact Hremote |]].
      simpl. apply last_snoc.
    + rewrite pollForResult_unfold, Hit in Hrun. discriminate.
    + rewrite (pollForResult_continue _ _ _ _ _ _ Hit) in Hrun.
      exact (IH _ Hrun).
Qed.

Lemma X2_poll_returns_only_success_witness :
  exists o n,
    JObj (object [("status", JStr "success"); ("run_id", JStr "r1")]) = JObj o
    /\ GenericFunctions.status_of (prop o "status") = "SUCCESS"
    /\ requests_so_far
         (snd (run slow_task_host
                 (GenericFunctions.pollForResult 5 (JStr "/translate/t1") 3000)))
       = S n
    /\ remote slow_task_host n (Some "cambAiApi")
         (status_request (JStr "/translate/t1"))
       = inr (JObj (object [("status", JStr "success"); ("run_id", JStr "r1")]))
    /\ last (events
               (snd (run slow_task_host
                       (GenericFunctions.pollForResult 5 (JStr "/translate/t1")
                          3000))))
       = Some (status_call (JStr "/translate/t1")).
Proof.
  apply (X2_poll_returns_only_success 5 (JStr "/translate/t1") 3000
           slow_task_host empty_store).
  vm_compute. reflexivity.
Defined.

(** A round whose status request gets a non-terminal answer. *)
Lemma pollIteration_non_terminal endpoint interval h s :
  non_terminal (remote h (requests_so_far s) (Some "cambAiApi")
                  (status_request endpoint)) ->
  GenericFunctions.pollIteration endpoint interval h s
  = (Ok Continue, log (Sleep interval) (log (status_call endpoint) s)).
Proof.
  intros Hnt.
  pose proof (status_call_run endpoint h s) as Hcall.
  destruct (remote h (requests_so_far s) (Some "cambAiApi")
              (status_request endpoint)) as [cause | v]; simpl in Hnt.
  - contradiction.
  - destruct Hnt as (st & Hst & H1 & H2 & H3 & H4 & H5).
    unfold GenericFunctions.pollIteration.
    rewrite try_catch_unfold, bind_unfold, Hcall. cbn beta iota zeta.
    rewrite Hst, bind_lift_ok.
    apply String.eqb_neq in H1, H2, H3, H4, H5.
    rewrite H1, H2, H3, H4, H5. reflexivity.
Qed.

(** X3: the poller waits exactly as long as the task is not finished: when
    the remote side gives [k] non-terminal answers (answers whose status is
    none of the five terminal ones) and then a SUCCESS envelope, the poller
    returns that envelope after [k] rounds of request and wait and one last
    request, provided the step budget allows [k + 1] rounds. *)
Theorem X3_poll_until_success (k fuel : nat) (endpoint : JsValue)
    (interval : Z) (h : Host) (s : Store) (o : IDataObject) :
  (forall j, (j < k)%nat ->
     non_terminal (remote h (requests_so_far s + j) (Some "cambAiApi")
                     (status_request endpoint))) ->
  remote h (requests_so_far s + k) (Some "cambAiApi") (status_request endpoint)
  = inr (JObj o) ->
  GenericFunctions.status_of (prop o "status") = "SUCCESS" ->
  (k < fuel)%nat ->
  GenericFunctions.pollForResult fuel endpoint interval h s
  = (Ok (JObj o),
     {| events := (events s ++ concat (replicate k (poll_round endpoint interval))
                   ++ [status_call endpoint])%list;
        returnData := returnData s |}).
Proof.
  revert fuel s. induction k as [| k IH]; intros fuel s Hnt Hok Hstatus Hfuel.
  - destruct fuel as [| fuel]; [lia |].
    rewrite Nat.add_0_r in Hok.
    destruct (pollIteration_cases endpoint interval h s)
      as [(o' & Hit & Hremote & _) | [(e & Hit) | Hit]].
    + rewrite pollForResult_unfold, Hit.
      rewrite Hok in Hremote. injection Hremote as <-. reflexivity.
    + exfalso. pose proof (status_call_run endpoint h s) as Hcall.
      rewrite Hok in Hcall.
      pose proof (pollIteration_response _ interval _ _ _ _ Hcall) as Hresp.
      cbv zeta in Hresp. rewrite Hstatus in Hresp. simpl in Hresp.
      rewrite Hresp in Hit. discriminate.
    + exfalso. pose proof (status_call_run endpoint h s) as Hcall.
      rewrite Hok in Hcall.
      pose proof (pollIteration_response _ interval _ _ _ _ Hcall) as Hresp.
      cbv zeta in Hresp. rewrite Hstatus in Hresp. simpl in Hresp.
      rewrite Hresp in Hit. discriminate.
  - destruct fuel as [| fuel]; [lia |].
    assert (Hit := pollIteration_non_terminal endpoint interval h s).
    rewrite <- (Nat.add_0_r (requests_so_far s)) in Hit.
    specialize (Hit (Hnt 0%nat ltac:(lia))).
    rewrite (pollForResult_continue _ _ _ _ _ _ Hit).
    rewrite (IH fuel (log (Sleep interval) (log (status_call endpoint) s))).
    + simpl. rewrite <- !app_assoc. reflexivity.
    + intros j Hj. rewrite requests_so_far_round.
      replace (S (requests_so_far s) + j)%nat
        with (requests_so_far s + S j)%nat by lia.
      apply Hnt. lia.
    + rewrite requests_so_far_round.
      replace (S (requests_so_far s) + k)%nat
        with (requests_so_far s + S k)%nat by lia.
      exact Hok.
    + exact Hstatus.
    + lia.
Qed.

Lemma X3_poll_until_success_witness :
  GenericFunctions.pollForResult 3 (JStr "/translate/t1") 3000
    slow_task_host empty_store
  = (Ok (JObj (object [("status", JStr "success"); ("run_id", JStr "r1")])),
     {| events := (events empty_store
                   ++ concat (replicate 2 (poll_round (JStr "/translate/t1") 3000))
                   ++ [status_call (JStr "/translate/t1")])%list;
        returnData := returnData empty_store |}).
Proof.
  apply (X3_poll_until_success 2 3 (JStr "/translate/t1") 3000
           slow_task_host empty_store).
  - intros j Hj.
    destruct j as [| [| j]]; [| | lia].
    + vm_compute. exists (JStr "pending").
      repeat split; discriminate.
    + vm_compute. exists (JStr "processing").
      repeat split; discriminate.
  - vm_compute. reflexivity.
  - vm_compute. reflexivity.
  - lia.
Defined.

(** ** The WAV header: when it exists *)

#[local] Arguments to_uint8 : simpl never.
#[local] Arguments ushr : simpl never.
#[local] Arguments truncate : simpl never.
#[local] Arguments Qfloor : simpl never.

Lemma checkInt_spec (q max : Q) (buf : list byte) (off len : nat) :
  (off + len < length buf)%nat ->
  checkInt q 0 max buf off len
  = if Qle_bool q max && Qle_bool 0 q then Ok tt
    else Throw (RangeError range_message).
Proof.
  intros Hb. unfold checkInt.
  destruct (Qle_bool q max), (Qle_bool 0 q); simpl; try reflexivity.
  destruct (Nat.ltb_spec (off + len) (length buf)); [reflexivity | lia].
Qed.

Lemma writeUInt32LE_spec (q : Q) (off : nat) (buf : list byte) :
  (off + 3 < length buf)%nat ->
  writeUInt32LE q off buf
  = if Qle_bool q (inject_Z 4294967295) && Qle_bool 0 q
    then Ok (<[(off + 3)%nat := to_uint8 (ushr (ushr (ushr (truncate q) 8) 8) 8)]>
               (<[(off + 2)%nat := to_uint8 (ushr (ushr (truncate q) 8) 8)]>
                  (<[(off + 1)%nat := to_uint8 (ushr (truncate q) 8)]>
                     (<[off := to_uint8 (truncate q)]> buf))))
    else Throw (RangeError range_message).
Proof.
  intros Hb. unfold writeUInt32LE. rewrite checkInt_spec by assumption.
  destruct (_ && _); reflexivity.
Qed.

Lemma writeUInt16LE_spec (q : Q) (off : nat) (buf : list byte) :
  (off + 1 < length buf)%nat ->
  writeUInt16LE q off buf
  = if Qle_bool q (inject_Z 65535) && Qle_bool 0 q
    then Ok (<[(off + 1)%nat := to_uint8 (ushr (truncate q) 8)]>
               (<[off := to_uint8 (truncate q)]> buf))
    else Throw (RangeError range_message).
Proof.
  intros Hb. unfold writeUInt16LE. rewrite checkInt_spec by assumption.
  destruct (_ && _); reflexivity.
Qed.

Lemma in_range_Z (n max : Z) :
  Qle_bool (inject_Z n) (inject_Z max) && Qle_bool 0 (inject_Z n) = true
  <-> 0 <= n <= max.
Proof.
  rewrite andb_true_iff, !Qle_bool_iff.
  change 0%Q with (inject_Z 0). rewrite <- !Zle_Qle. lia.
Qed.

Lemma in_range_eighths (n b max : Z) :
  Qle_bool (inject_Z n * (inject_Z b / inject_Z 8)) (inject_Z max)
  && Qle_bool 0 (inject_Z n * (inject_Z b / inject_Z 8)) = true
  <-> 0 <= n * b <= 8 * max.
Proof.
  rewrite andb_true_iff, !Qle_bool_iff, !eighths_eq.
  unfold Qle. simpl. lia.
Qed.

Ltac wav_field :=
  first [ rewrite writeUInt32LE_spec by (simpl; lia)
        | rewrite writeUInt16LE_spec by (simpl; lia) ];
  match goal with
  | |- context [if ?c then _ else _] =>
      let E := fresh "E" in
      destruct c eqn:E;
      [ first [ apply in_range_Z in E | apply in_range_eighths in E ];
        cbn [mbind Outcome_bind]
      | reflexivity ]
  end.

(** Outside the widths the first field that does not fit stops the
    function with the range error of the buffer write. *)
Lemma generateWavHeader_out_of_range
    (dataLength sampleRate numChannels bitsPerSample : Z) :
  ~ header_fits dataLength sampleRate numChannels bitsPerSample ->
  GenericFunctions.generateWavHeader
    dataLength sampleRate numChannels bitsPerSample
  = Throw (RangeError range_message).
Proof.
  intros Hno. unfold GenericFunctions.generateWavHeader.
  rewrite <- inject_Z_mult.
  set (h0 := Buffer_write (bytes "RIFF") 0 (Buffer_alloc 44)).
  vm_compute in h0. subst h0.
  do 9 wav_field.
  exfalso. apply Hno. unfold header_fits. lia.
Qed.

(** Within the widths every write goes through. *)
Lemma generateWavHeader_in_range
    (dataLength sampleRate numChannels bitsPerSample : Z) :
  header_fits dataLength sampleRate numChannels bitsPerSample ->
  exists header,
    GenericFunctions.generateWavHeader
      dataLength sampleRate numChannels bitsPerSample = Ok header
    /\ length header = 44%nat.
Proof.
  intros (Hd & Hs & Hc & Hb & Hbr & Hba).
  unfold GenericFunctions.generateWavHeader.
  rewrite <- inject_Z_mult.
  set (h0 := Buffer_write (bytes "RIFF") 0 (Buffer_alloc 44)).
  vm_compute in h0. subst h0.
  rewrite writeUInt32LE_Z; [| lia | simpl; lia]. simpl.
  rewrite writeUInt16LE_Z; [| lia | simpl; lia]. simpl.
  rewrite writeUInt32LE_Z; [| lia | simpl; lia]. simpl.
  rewrite writeUInt32LE_eighths; [| nia | simpl; lia]. simpl.
  rewrite writeUInt16LE_eighths; [| nia | simpl; lia]. simpl.
  rewrite writeUInt16LE_Z; [| lia | simpl; lia]. simpl.
  rewrite writeUInt32LE_Z; [| lia | simpl; lia]. simpl.
  eexists. split; reflexivity.
Qed.

(** X4: [generateWavHeader] returns a header exactly when every field fits
    its width (the lengths and the sample rate in 32 bits, the channel
    count and the sample width in 16 bits, and the byte rate and block
    alignment computed from them); in every other case, a negative
    argument included, it throws the range error of the buffer write and
    no header exists. The earlier snapshot behaves the same. *)
Theorem X4_wav_header_exists_iff_fields_fit
    (dataLength sampleRate numChannels bitsPerSample : Z) :
  ((exists header,
       GenericFunctions.generateWavHeader
         dataLength sampleRate numChannels bitsPerSample = Ok header)
   <-> header_fits dataLength sampleRate numChannels bitsPerSample)
  /\ (~ header_fits dataLength sampleRate numChannels bitsPerSample ->
      GenericFunctions.generateWavHeader
        dataLength sampleRate numChannels bitsPerSample
      = Throw (RangeError "The value of 'value' is out of range."))
  /\ LegacyFunctions.generateWavHeader
       dataLength sampleRate numChannels bitsPerSample
     = GenericFunctions.generateWavHeader
         dataLength sampleRate numChannels bitsPerSample.
Proof.
  split; [| split].
  - split.
    + intros [header Hok].
      assert (Hdec : header_fits dataLength sampleRate numChannels bitsPerSample
                     \/ ~ header_fits dataLength sampleRate numChannels
                           bitsPerSample)
        by (unfold header_fits; lia).
      destruct Hdec as [Hfits | Hno]; [exact Hfits |].
      rewrite (generateWavHeader_out_of_range _ _ _ _ Hno) in Hok.
      discriminate.
    + intros Hfits.
      destruct (generateWavHeader_in_range _ _ _ _ Hfits) as (header & Hok & _).
      eauto.
  - apply generateWavHeader_out_of_range.
  - reflexivity.
Qed.

(** ** The request client: what is sent *)

(** The request a call logs, written out. *)
Lemma cambAiApiRequest_logs method endpoint (body qs options : IDataObject) h s :
  let baseURL := resolved_baseURL options in
  let url :=
    if is_str baseURL "" then endpoint
    else JStr (toString baseURL +:+ toString endpoint) in
  let requestOptions : IDataObject :=
    <["method" := JStr method]> (<["url" := url]> (<["json" := JBool true]> ∅)) in
  let requestOptions :=
    if (0 <? size body)%nat then <["body" := JObj body]> requestOptions
    else requestOptions in
  let requestOptions :=
    if (0 <? size qs)%nat then <["qs" := JObj qs]> requestOptions
    else requestOptions in
  let formData := prop (delete "baseURL" options) "formData" in
  let restOptions := delete "formData" (delete "baseURL" options) in
  let requestOptions := restOptions ∪ requestOptions in
  let requestOptions :=
    if truthy formData && (match formData with JFormData _ => true | _ => false end)
    then <["body" := formData]> (<["json" := JBool false]> (delete "body" requestOptions))
    else requestOptions in
  snd (GenericFunctions.cambAiApiRequest method endpoint body qs options h s)
  = log (HttpRequest (if is_str baseURL "" then None else Some "cambAiApi")
           requestOptions) s.
Proof.
  cbv zeta.
  unfold GenericFunctions.cambAiApiRequest. fold (resolved_baseURL options).
  cbv zeta. rewrite try_catch_unfold.
  destruct (is_str (resolved_baseURL options) "");
    unfold httpRequest, httpRequestWithAuthentication;
    rewrite request_unfold;
    match goal with
    | |- context [remote ?h0 ?n ?c ?r] => destruct (remote h0 n c r) as [cause | v]
    end; cbn beta iota; try reflexivity.
  all: match goal with
       | |- context [(host ≫= ?k) ?h0 ?s1] =>
           destruct (classify_handler h0 s1 cause) as (message & Hrun & _)
       end; rewrite Hrun; reflexivity.
Qed.

Lemma legacy_cambAiApiRequest_logs method endpoint (body qs options : IDataObject)
    h s :
  let requestOptions : IDataObject :=
    <["method" := JStr method]>
      (<["url" := JStr (LegacyFunctions.BASE_URL +:+ toString endpoint)]>
         (<["json" := JBool true]> ∅)) in
  let requestOptions :=
    if (0 <? size body)%nat then <["body" := JObj body]> requestOptions
    else requestOptions in
  let requestOptions :=
    if (0 <? size qs)%nat then <["qs" := JObj qs]> requestOptions
    else requestOptions in
  snd (LegacyFunctions.cambAiApiRequest method endpoint body qs options h s)
  = log (HttpRequest (Some "cambAiApi") (options ∪ requestOptions)) s.
Proof.
  cbv zeta.
  unfold LegacyFunctions.cambAiApiRequest.
  cbv zeta. rewrite try_catch_unfold.
  unfold httpRequestWithAuthentication. rewrite request_unfold.
  match goal with
  | |- context [remote ?h0 ?n ?c ?r] => destruct (remote h0 n c r) as [cause | v]
  end; cbn beta iota; try reflexivity.
  match goal with
  | |- context [(host ≫= ?k) ?h0 ?s1] =>
      destruct (classify_handler h0 s1 cause) as (message & Hrun & _)
  end. rewrite Hrun. reflexivity.
Qed.

Lemma size_pos_nonempty (m : IDataObject) : (0 <? size m)%nat = true <-> m <> ∅.
Proof.
  rewrite Nat.ltb_lt. split.
  - intros H ->. rewrite map_size_empty in H. lia.
  - intros H. destruct (size m) eqn:E; [| lia].
    apply map_size_empty_iff in E. contradiction.
Qed.

Lemma size_zero_empty (m : IDataObject) : (0 <? size m)%nat = false <-> m = ∅.
Proof.
  rewrite Nat.ltb_ge. split.
  - intros H. apply map_size_empty_iff. lia.
  - intros ->. rewrite map_size_empty. lia.
Qed.

Ltac map_lookup :=
  repeat first [ rewrite lookup_insert_ne by done
               | rewrite lookup_delete_ne by done
               | rewrite lookup_insert_eq
               | rewrite lookup_delete_eq
               | rewrite lookup_empty ].

(** X5: an empty body object and an empty query object are left out of the
    request; with at least one entry they are sent as they are. This holds
    for every call whose options bring neither a body, a query nor form
    data of their own, in both snapshots. *)
Theorem X5_empty_body_and_query_are_left_out
    (method : string) (endpoint : JsValue) (body qs options : IDataObject)
    (h : Host) (s : Store) :
  options !! "formData" = None ->
  options !! "body" = None ->
  options !! "qs" = None ->
  (exists cred req,
      snd (GenericFunctions.cambAiApiRequest method endpoint body qs options h s)
      = log (HttpRequest cred req) s
      /\ (body = ∅ -> req !! "body" = None)
      /\ (body <> ∅ -> req !! "body" = Some (JObj body))
      /\ (qs = ∅ -> req !! "qs" = None)
      /\ (qs <> ∅ -> req !! "qs" = Some (JObj qs)))
  /\ (exists req,
      snd (LegacyFunctions.cambAiApiRequest method endpoint body qs options h s)
      = log (HttpRequest (Some "cambAiApi") req) s
      /\ (body = ∅ -> req !! "body" = None)
      /\ (body <> ∅ -> req !! "body" = Some (JObj body))
      /\ (qs = ∅ -> req !! "qs" = None)
      /\ (qs <> ∅ -> req !! "qs" = Some (JObj qs))).
Proof.
  intros Hfd Hbody Hqs. split.
  - pose proof (cambAiApiRequest_logs method endpoint body qs options h s) as Hlog.
    cbv zeta in Hlog.
    assert (Hprop : prop (delete "baseURL" options) "formData" = JUndefined).
    { unfold prop. rewrite lookup_delete_ne by done. now rewrite Hfd. }
    rewrite Hprop in Hlog. cbn [truthy andb] in Hlog.
    eexists _, _. split; [exact Hlog |].
    repeat split; intros H.
    all: try (apply size_zero_empty in H); try (apply size_pos_nonempty in H).
    all: rewrite ?H.
    all: rewrite lookup_union_r
      by (rewrite !lookup_delete_ne by done; assumption).
    all: destruct (0 <? size body)%nat eqn:Eb, (0 <? size qs)%nat eqn:Eq;
      try discriminate; map_lookup; reflexivity.
  - pose proof (legacy_cambAiApiRequest_logs method endpoint body qs options h s)
      as Hlog.
    cbv zeta in Hlog.
    eexists. split; [exact Hlog |].
    repeat split; intros H.
    all: try (apply size_zero_empty in H); try (apply size_pos_nonempty in H).
    all: rewrite ?H.
    all: rewrite lookup_union_r by assumption.
    all: destruct (0 <? size body)%nat eqn:Eb, (0 <? size qs)%nat eqn:Eq;
      try discriminate; map_lookup; reflexivity.
Qed.

Lemma X5_empty_body_and_query_are_left_out_witness :
  (exists cred req,
      snd (GenericFunctions.cambAiApiRequest "GET" (JStr "/list-voices") ∅
             {[ "page" := JNum 2 ]} {[ "timeout" := JNum 1000 ]}
             (simple_host 1 [] false []) empty_store)
      = log (HttpRequest cred req) empty_store
      /\ ((∅ : IDataObject) = ∅ -> req !! "body" = None)
      /\ ((∅ : IDataObject) <> ∅ -> req !! "body" = Some (JObj ∅))
      /\ (({[ "page" := JNum 2 ]} : IDataObject) = ∅ -> req !! "qs" = None)
      /\ (({[ "page" := JNum 2 ]} : IDataObject) <> ∅ ->
          req !! "qs" = Some (JObj {[ "page" := JNum 2 ]})))
  /\ (exists req,
      snd (LegacyFunctions.cambAiApiRequest "GET" (JStr "/list-voices") ∅
             {[ "page" := JNum 2 ]} {[ "timeout" := JNum 1000 ]}
             (simple_host 1 [] false []) empty_store)
      = log (HttpRequest (Some "cambAiApi") req) empty_store
      /\ ((∅ : IDataObject) = ∅ -> req !! "body" = None)
      /\ ((∅ : IDataObject) <> ∅ -> req !! "body" = Some (JObj ∅))
      /\ (({[ "page" := JNum 2 ]} : IDataObject) = ∅ -> req !! "qs" = None)
      /\ (({[ "page" := JNum 2 ]} : IDataObject) <> ∅ ->
          req !! "qs" = Some (JObj {[ "page" := JNum 2 ]}))).
Proof.
  apply (X5_empty_body_and_query_are_left_out "GET" (JStr "/list-voices") ∅
           {[ "page" := JNum 2 ]} {[ "timeout" := JNum 1000 ]}
           (simple_host 1 [] false []) empty_store);
    vm_compute; reflexivity.
Defined.

(** X6: what the caller puts in the options wins over what the client
    builds: every entry of the options other than [baseURL] and [formData]
    is in the request with the caller's value, the method, the URL and the
    JSON flag included; only when form data is sent do [body] and [json]
    escape the caller. The earlier snapshot hands every entry of the
    options to the HTTP helper, [baseURL] and [formData] included. *)
Theorem X6_caller_options_win
    (method : string) (endpoint : JsValue) (body qs options : IDataObject)
    (h : Host) (s : Store) (k : string) (v : JsValue) :
  options !! k = Some v ->
  (k <> "baseURL" -> k <> "formData" ->
   (is_FormData (prop options "formData") = true -> k <> "body" /\ k <> "json") ->
   exists cred req,
     snd (GenericFunctions.cambAiApiRequest method endpoint body qs options h s)
     = log (HttpRequest cred req) s
     /\ req !! k = Some v)
  /\ (exists req,
      snd (LegacyFunctions.cambAiApiRequest method endpoint body qs options h s)
      = log (HttpRequest (Some "cambAiApi") req) s
      /\ req !! k = Some v).
Proof.
  intros Hk. split.
  - intros Hb Hf Hfd.
    pose proof (cambAiApiRequest_logs method endpoint body qs options h s) as Hlog.
    cbv zeta in Hlog.
    eexists _, _. split; [exact Hlog |].
    assert (Hrest : (delete "formData" (delete "baseURL" options)) !! k = Some v)
      by (rewrite !lookup_delete_ne by done; exact Hk).
    assert (Hprop : prop (delete "baseURL" options) "formData"
                    = prop options "formData")
      by (unfold prop; now rewrite lookup_delete_ne by done).
    rewrite Hprop.
    destruct (prop options "formData") eqn:Efd; cbn [truthy andb];
      try (erewrite lookup_union_Some_l by exact Hrest; reflexivity);
      try (destruct b; cbn [andb];
           erewrite lookup_union_Some_l by exact Hrest; reflexivity);
      try (rewrite Bool.andb_false_r;
           erewrite lookup_union_Some_l by exact Hrest; reflexivity).
    destruct (Hfd eq_refl) as [Hkb Hkj].
    rewrite !lookup_insert_ne by done. rewrite lookup_delete_ne by done.
    erewrite lookup_union_Some_l by exact Hrest. reflexivity.
  - pose proof (legacy_cambAiApiRequest_logs method endpoint body qs options h s)
      as Hlog.
    cbv zeta in Hlog.
    eexists. split; [exact Hlog |].
    erewrite lookup_union_Some_l by exact Hk. reflexivity.
Qed.

Lemma X6_caller_options_win_witness :
  ("json" <> "baseURL" -> "json" <> "formData" ->
   (is_FormData (prop {[ "json" := JBool false ]} "formData") = true ->
    "json" <> "body" /\ "json" <> "json") ->
   exists cred req,
     snd (GenericFunctions.cambAiApiRequest "GET" (JStr "/tts-result/r1") ∅ ∅
            {[ "json" := JBool false ]} (simple_host 1 [] false []) empty_store)
     = log (HttpRequest cred req) empty_store
     /\ req !! "json" = Some (JBool false))
  /\ (exists req,
      snd (LegacyFunctions.cambAiApiRequest "GET" (JStr "/tts-result/r1") ∅ ∅
             {[ "json" := JBool false ]} (simple_host 1 [] false []) empty_store)
      = log (HttpRequest (Some "cambAiApi") req) empty_store
      /\ req !! "json" = Some (JBool false)).
Proof.
  apply (X6_caller_options_win "GET" (JStr "/tts-result/r1") ∅ ∅
           {[ "json" := JBool false ]} (simple_host 1 [] false []) empty_store
           "json" (JBool false)).
  vm_compute. reflexivity.
Defined.

(** X7: form data replaces the body: when the options carry an instance of
    [FormData], the request's body is that form data and its JSON flag is
    off, whatever body the caller passed and whatever [body] and [json] the
    options hold; a [formData] entry that is not such an instance is
    dropped. In both cases the request has no [formData] entry. *)
Theorem X7_form_data_replaces_the_body
    (method : string) (endpoint : JsValue) (body qs options : IDataObject)
    (h : Host) (s : Store) (formData : JsValue) :
  options !! "formData" = Some formData ->
  exists cred req,
    snd (GenericFunctions.cambAiApiRequest method endpoint body qs options h s)
    = log (HttpRequest cred req) s
    /\ req !! "formData" = None
    /\ (is_FormData formData = true ->
        req !! "body" = Some formData /\ req !! "json" = Some (JBool false))
    /\ (is_FormData formData = false ->
        (forall v, options !! "body" = Some v -> req !! "body" = Some v)
        /\ (options !! "body" = None -> body <> ∅ ->
            req !! "body" = Some (JObj body))
        /\ (options !! "body" = None -> body = ∅ -> req !! "body" = None)
        /\ (options !! "json" = None -> req !! "json" = Some (JBool true))).
Proof.
  intros Hfd.
  pose proof (cambAiApiRequest_logs method endpoint body qs options h s) as Hlog.
  cbv zeta in Hlog.
  assert (Hprop : prop (delete "baseURL" options) "formData" = formData).
  { unfold prop. rewrite lookup_delete_ne by done. now rewrite Hfd. }
  rewrite Hprop in Hlog.
  eexists _, _. split; [exact Hlog |].
  assert (Hrest : forall k, k <> "formData" -> k <> "baseURL" ->
            (delete "formData" (delete "baseURL" options)) !! k = options !! k)
    by (intros; now rewrite !lookup_delete_ne by done).
  assert (Hnone : (delete "formData" (delete "baseURL" options)) !! "formData"
                  = None) by apply lookup_delete_eq.
  destruct (is_FormData formData) eqn:Eis.
  - destruct formData; try discriminate. cbn [truthy andb].
    split; [| split; [intros _ | intros [=]]].
    + map_lookup. apply lookup_union_None. split; [exact Hnone |].
      destruct (0 <? size body)%nat, (0 <? size qs)%nat; map_lookup; reflexivity.
    + split; map_lookup; reflexivity.
  - assert (Hfalse : truthy formData
                     && match formData with JFormData _ => true | _ => false end
                     = false).
    { destruct formData; try discriminate; cbn [truthy andb];
        try reflexivity; apply Bool.andb_false_r. }
    rewrite Hfalse.
    split; [| split; [intros [=] | intros _]].
    + apply lookup_union_None. split; [exact Hnone |].
      destruct (0 <? size body)%nat, (0 <? size qs)%nat; map_lookup; reflexivity.
    + split; [| split; [| split]].
      * intros v Hv. apply lookup_union_Some_l. rewrite Hrest by done. exact Hv.
      * intros Hb Hne. apply size_pos_nonempty in Hne. rewrite Hne.
        rewrite lookup_union_r by (rewrite Hrest by done; exact Hb).
        destruct (0 <? size qs)%nat; map_lookup; reflexivity.
      * intros Hb He. apply size_zero_empty in He. rewrite He.
        rewrite lookup_union_r by (rewrite Hrest by done; exact Hb).
        destruct (0 <? size qs)%nat; map_lookup; reflexivity.
      * intros Hj.
        rewrite lookup_union_r by (rewrite Hrest by done; exact Hj).
        destruct (0 <? size body)%nat, (0 <? size qs)%nat; map_lookup; reflexivity.
Qed.

Lemma X7_form_data_replaces_the_body_witness :
  exists cred req,
    snd (GenericFunctions.cambAiApiRequest "POST" (JStr "/transcribe")
           {[ "ignored" := JNum 1 ]} ∅
           {[ "formData" := JFormData [CambAiNode.text_part "language" "1"] ]}
           (simple_host 1 [] false []) empty_store)
    = log (HttpRequest cred req) empty_store
    /\ req !! "formData" = None
    /\ (is_FormData (JFormData [CambAiNode.text_part "language" "1"]) = true ->
        req !! "body" = Some (JFormData [CambAiNode.text_part "language" "1"])
        /\ req !! "json" = Some (JBool false))
    /\ (is_FormData (JFormData [CambAiNode.text_part "language" "1"]) = false ->
        (forall v,
            ({[ "formData" := JFormData [CambAiNode.text_part "language" "1"] ]}
               : IDataObject) !! "body" = Some v ->
            req !! "body" = Some v)
        /\ (({[ "formData" := JFormData [CambAiNode.text_part "language" "1"] ]}
               : IDataObject) !! "body" = None ->
            ({[ "ignored" := JNum 1 ]} : IDataObject) <> ∅ ->
            req !! "body" = Some (JObj {[ "ignored" := JNum 1 ]}))
        /\ (({[ "formData" := JFormData [CambAiNode.text_part "language" "1"] ]}
               : IDataObject) !! "body" = None ->
            ({[ "ignored" := JNum 1 ]} : IDataObject) = ∅ ->
            req !! "body" = None)
        /\ (({[ "formData" := JFormData [CambAiNode.text_part "language" "1"] ]}
               : IDataObject) !! "json" = None ->
            req !! "json" = Some (JBool true))).
Proof.
  apply (X7_form_data_replaces_the_body "POST" (JStr "/transcribe")
           {[ "ignored" := JNum 1 ]} ∅
           {[ "formData" := JFormData [CambAiNode.text_part "language" "1"] ]}
           (simple_host 1 [] false []) empty_store
           (JFormData [CambAiNode.text_part "language" "1"])).
  vm_compute. reflexivity.
Defined.


(** ** One record per item *)

Lemma one_record_bind {A B : Type} i (m : M A) (f : A -> M B) :
  sat same_records any_error m ->
  (forall a, one_record_or_none i (f a)) ->
  one_record_or_none i (m ≫= f).
Proof.
  intros Hm Hf h s. rewrite bind_unfold.
  pose proof (proj1 (Hm h s)) as Hsame. unfold same_records in Hsame.
  destruct (m h s) as [[a | e |] s1]; cbn [fst snd] in *.
  - specialize (Hf a h s1). rewrite <- Hsame. exact Hf.
  - exact Hsame.
  - exact Hsame.
Qed.

Lemma one_record_push i json binary :
  one_record_or_none i
    (push {| json := json; binary := binary; pairedItem := i |}).
Proof. intros h s. simpl. eauto. Qed.

Ltac one_record :=
  repeat first
    [ apply one_record_push
    | apply one_record_bind; [solve [repeat sat_step] | intro]
    | progress cbv zeta ].

Lemma process_item_one_record fuel resource operation i :
  single_record_operation resource operation = true ->
  one_record_or_none i (CambAiNode.process_item fuel resource operation i).
Proof.
  unfold single_record_operation, CambAiNode.process_item. intros Hop.
  repeat match goal with
         | |- one_record_or_none _ (if ?c then _ else _) =>
             destruct c eqn:?
         end.
  - unfold CambAiNode.synthesize. one_record.
  - unfold CambAiNode.translatedTts. one_record.
  - unfold CambAiNode.generateSound. one_record.
  - unfold CambAiNode.separateAudio. one_record.
  - unfold CambAiNode.transcribe. one_record.
  - unfold CambAiNode.translate. one_record.
  - unfold CambAiNode.createVoice. one_record.
  - unfold CambAiNode.cloneVoice. one_record.
  - exfalso.
    destruct (is_str resource "audio"), (is_str resource "text"),
      (is_str resource "voice"), (is_str operation "synthesize"),
      (is_str operation "translatedTts"), (is_str operation "generateSound"),
      (is_str operation "separateAudio"), (is_str operation "transcribe"),
      (is_str operation "translate"), (is_str operation "createVoice"),
      (is_str operation "cloneVoice"); simpl in *; discriminate.
  - exfalso.
    destruct (is_str resource "audio"), (is_str resource "text"),
      (is_str resource "voice"), (is_str operation "synthesize"),
      (is_str operation "translatedTts"), (is_str operation "generateSound"),
      (is_str operation "separateAudio"), (is_str operation "transcribe"),
      (is_str operation "translate"), (is_str operation "createVoice"),
      (is_str operation "cloneVoice"); simpl in *; discriminate.
Qed.

Lemma legacy_process_item_one_record i :
  one_record_or_none i (LegacyNode.process_item (JStr "synthesize") i).
Proof.
  unfold LegacyNode.process_item. cbn [is_str String.eqb Ascii.eqb Bool.eqb].
  unfold LegacyNode.synthesize. one_record.
Qed.

(** With the [catch]: an item that fails under continue-on-fail still ends
    with one record, the error record. *)
Lemma item_step_one_record fuel resource operation i :
  single_record_operation resource operation = true ->
  one_record_or_none i (item_step fuel resource operation i).
Proof.
  intros Hop h s. rewrite item_step_run.
  pose proof (process_item_one_record fuel resource operation i Hop h s) as Hp.
  destruct (CambAiNode.process_item fuel resource operation i h s)
    as [[[] | e |] s1]; cbn [fst snd] in *; try exact Hp.
  destruct (continueOnFail h); cbn [fst snd]; [| exact Hp].
  rewrite Hp. eauto.
Qed.

Lemma legacy_item_step_one_record i :
  one_record_or_none i (legacy_item_step (JStr "synthesize") i).
Proof.
  intros h s. rewrite legacy_item_step_run.
  pose proof (legacy_process_item_one_record i h s) as Hp.
  destruct (LegacyNode.process_item (JStr "synthesize") i h s)
    as [[[] | e |] s1]; cbn [fst snd] in *; try exact Hp.
  destruct (continueOnFail h); cbn [fst snd]; [| exact Hp].
  rewrite Hp. eauto.
Qed.

Lemma for_range_one_per_item (body : nat -> M unit) :
  (forall i, one_record_or_none i (body i)) ->
  forall n start h s s',
    for_range start n body h s = (Ok tt, s') ->
    exists records,
      returnData s' = (returnData s ++ records)%list
      /\ one_per_item start n records.
Proof.
  intros Hbody. induction n as [| n IH]; intros start h s s' Hrun.
  - simpl in Hrun. injection Hrun as <-.
    exists []. split; [now rewrite app_nil_r |].
    split; [reflexivity | intros k rec [=]].
  - rewrite for_range_unfold in Hrun.
    pose proof (Hbody start h s) as Hone.
    destruct (body start h s) as [[[] | e |] s1]; cbn [fst snd] in *;
      try discriminate.
    destruct Hone as (r & Hr & Hpair).
    destruct (IH _ _ _ _ Hrun) as (records & Hrecs & Hlen & Hidx).
    exists (r :: records). split; [| split].
    + rewrite Hrecs, Hr, <- app_assoc. reflexivity.
    + simpl. now rewrite Hlen.
    + intros [| k] rec Hk; simpl in Hk.
      * injection Hk as <-. rewrite Hpair. lia.
      * rewrite (Hidx k rec Hk). lia.
Qed.

(** X9: one output record per input item. For each of the eight operations
    that end with one push (all but List Voices), a batch that [execute]
    completes returns exactly as many records as there were input items,
    the [k]-th paired with item [k]: an item that succeeded gave its
    record, and an item that failed under continue-on-fail gave its error
    record in the same place. The same holds for the earlier snapshot's
    synthesize. *)
Theorem X9_one_record_per_item :
  (forall (fuel : nat) (h : Host) (s s' : Store) (resource operation : JsValue)
          (out : list (list INodeExecutionData)),
      nodeParameter h "resource" 0 = Some resource ->
      nodeParameter h "operation" 0 = Some operation ->
      single_record_operation resource operation = true ->
      CambAiNode.execute fuel h s = (Ok out, s') ->
      exists records,
        out = [records] /\ one_per_item 0 (inputData_length h) records)
  /\ (forall (h : Host) (s s' : Store) (out : list (list INodeExecutionData)),
      nodeParameter h "operation" 0 = Some (JStr "synthesize") ->
      LegacyNode.execute h s = (Ok out, s') ->
      exists records,
        out = [records] /\ one_per_item 0 (inputData_length h) records).
Proof.
  split.
  - intros fuel h s s' resource operation out Hr Ho Hop Hrun.
    rewrite (execute_run _ _ _ _ _ Hr Ho) in Hrun.
    destruct (for_range 0 (inputData_length h) (item_step fuel resource operation)
                h {| events := events s; returnData := [] |})
      as [[[] | e |] s1] eqn:Hloop; try discriminate.
    injection Hrun as <- <-.
    destruct (for_range_one_per_item _
                (fun i => item_step_one_record fuel resource operation i Hop)
                _ _ _ _ _ Hloop) as (records & Hrecs & Hone).
    exists records. simpl in Hrecs. rewrite Hrecs. auto.
  - intros h s s' out Ho Hrun.
    rewrite (legacy_execute_run _ _ _ Ho) in Hrun.
    destruct (for_range 0 (inputData_length h) (legacy_item_step (JStr "synthesize"))
                h {| events := events s; returnData := [] |})
      as [[[] | e |] s1] eqn:Hloop; try discriminate.
    injection Hrun as <- <-.
    destruct (for_range_one_per_item _ legacy_item_step_one_record
                _ _ _ _ _ Hloop) as (records & Hrecs & Hone).
    exists records. simpl in Hrecs. rewrite Hrecs. auto.
Qed.

Lemma X9_one_record_per_item_witness :
  exists records,
    match fst (run (failing_first_host true) (CambAiNode.execute 1)) with
    | Ok out => out
    | _ => []
    end = [records]
    /\ one_per_item 0 (inputData_length (failing_first_host true)) records.
Proof.
  apply (proj1 X9_one_record_per_item 1%nat (failing_first_host true) empty_store
           (snd (run (failing_first_host true) (CambAiNode.execute 1)))
           (JStr "audio") (JStr "synthesize"));
    vm_compute; reflexivity.
Defined.

(** ** What a program adds to the log *)

Section Keeps.

Context (R : Store -> Store -> Prop).
Context (R_refl : forall s, R s s).
Context (R_trans : forall a b c, R a b -> R b c -> R a c).

Lemma keeps_ret {A : Type} (a : A) : keeps R (mret a).
Proof. intros h s. apply R_refl. Qed.

Lemma keeps_lift {A : Type} (o : Outcome A) : keeps R (lift o).
Proof. intros h s. apply R_refl. Qed.

Lemma keeps_throwM {A : Type} (e : JsError) : keeps R (throwM e : M A).
Proof. intros h s. apply R_refl. Qed.

Lemma keeps_host : keeps R host.
Proof. intros h s. apply R_refl. Qed.

Lemma keeps_bind {A B : Type} (m : M A) (f : A -> M B) :
  keeps R m -> (forall a, keeps R (f a)) -> keeps R (m ≫= f).
Proof.
  intros Hm Hf h s. rewrite bind_unfold.
  specialize (Hm h s).
  destruct (m h s) as [[a | e |] s1]; cbn [snd] in *; try exact Hm.
  eapply R_trans; [exact Hm | apply Hf].
Qed.

Lemma keeps_try_catch {A : Type} (body : M A) (handler : JsError -> M A) :
  keeps R body -> (forall e, keeps R (handler e)) ->
  keeps R (try_catch body handler).
Proof.
  intros Hb Hh h s. rewrite try_catch_unfold.
  specialize (Hb h s).
  destruct (body h s) as [[a | e |] s1]; cbn [snd] in *; try exact Hb.
  eapply R_trans; [exact Hb | apply Hh].
Qed.

Lemma keeps_getNodeParameter name i fb : keeps R (getNodeParameter name i fb).
Proof.
  intros h s. unfold getNodeParameter. rewrite bind_host.
  destruct (nodeParameter h name i); [| destruct fb]; apply R_refl.
Qed.

Lemma keeps_continueOnFail : keeps R this_continueOnFail.
Proof. intros h s. apply R_refl. Qed.

Lemma keeps_prepareBinaryData buf name mime :
  keeps R (helpers_prepareBinaryData buf name mime).
Proof. intros h s. apply R_refl. Qed.

Lemma keeps_assertBinaryData i name : keeps R (helpers_assertBinaryData i name).
Proof.
  intros h s. unfold helpers_assertBinaryData. rewrite bind_host.
  destruct (assertBinaryData h i name); apply R_refl.
Qed.

Lemma keeps_getBinaryDataBuffer i name :
  keeps R (helpers_getBinaryDataBuffer i name).
Proof.
  intros h s. unfold helpers_getBinaryDataBuffer. rewrite bind_host.
  destruct (getBinaryDataBuffer h i name); apply R_refl.
Qed.

Lemma keeps_parse_texts textsInput : keeps R (CambAiNode.parse_texts textsInput).
Proof.
  intros h s. unfold CambAiNode.parse_texts, JSON_parse_text.
  rewrite try_catch_unfold, bind_unfold, bind_host.
  destruct (JSON_parse h (toString textsInput)) as [v |]; cbn;
    [destruct (Array_isArray v) |]; apply R_refl.
Qed.

Lemma keeps_for_of {A : Type} (l : list A) (body : A -> M unit) :
  (forall x, keeps R (body x)) -> keeps R (for_of l body).
Proof.
  intros Hb. induction l as [| x l IH]; simpl.
  - apply keeps_ret.
  - apply keeps_bind; [apply Hb | intros _; exact IH].
Qed.

Lemma keeps_for_range (body : nat -> M unit) n :
  (forall i, keeps R (body i)) -> forall start, keeps R (for_range start n body).
Proof.
  intros Hb. induction n as [| n IH]; intros start; simpl.
  - apply keeps_ret.
  - apply keeps_bind; [apply Hb | intros _; apply IH].
Qed.

End Keeps.

Lemma adds_refl E s : adds E s s.
Proof. exists []. split; [now rewrite app_nil_r | constructor]. Qed.

Lemma adds_trans E a b c : adds E a b -> adds E b c -> adds E a c.
Proof.
  intros (m1 & H1 & F1) (m2 & H2 & F2). exists (m1 ++ m2)%list. split.
  - now rewrite H2, H1, app_assoc.
  - apply Forall_app. auto.
Qed.

Lemma adds_log (E : Event -> Prop) e s : E e -> adds E s (log e s).
Proof. intros H. exists [e]. split; [reflexivity | constructor; auto]. Qed.

Section Adds.

Context (E : Event -> Prop).
Context (E_sleep : forall ms, E (Sleep ms)).

Lemma keeps_sleep ms : keeps (adds E) (sleep ms).
Proof. intros h s. apply adds_log, E_sleep. Qed.

Lemma keeps_push r : keeps (adds E) (push r).
Proof. intros h s. exists []. simpl. split; [now rewrite app_nil_r | constructor]. Qed.

Lemma keeps_new_returnData : keeps (adds E) new_returnData.
Proof. intros h s. exists []. simpl. split; [now rewrite app_nil_r | constructor]. Qed.

Lemma keeps_read_returnData : keeps (adds E) read_returnData.
Proof. intros h s. apply adds_refl. Qed.

Lemma keeps_cambAiApiRequest method endpoint body qs options :
  (forall cred req, request_shape endpoint body options cred req ->
     E (HttpRequest cred req)) ->
  keeps (adds E) (GenericFunctions.cambAiApiRequest method endpoint body qs options).
Proof.
  intros HE h s.
  destruct (cambAiApiRequest_run method endpoint body qs options h s)
    as (cred & req & Hshape & Hlog & _).
  rewrite Hlog. apply adds_log, HE, Hshape.
Qed.

Lemma keeps_pollForResult fuel endpoint interval :
  E (status_call endpoint) ->
  keeps (adds E) (GenericFunctions.pollForResult fuel endpoint interval).
Proof.
  intros HE. induction fuel as [| fuel IH]; intros h s.
  - apply adds_refl.
  - rewrite pollForResult_unfold.
    destruct (pollIteration_cases endpoint interval h s)
      as [(o & -> & _) | [(e & ->) | ->]]; cbn [snd].
    + apply adds_log, HE.
    + apply adds_log, HE.
    + eapply adds_trans; [| apply IH].
      eapply adds_trans; apply adds_log; [apply HE | apply E_sleep].
Qed.

End Adds.

(** ** Where the credential goes *)

Lemma confined_sleep ms : credential_confined (Sleep ms).
Proof. exact I. Qed.

(** A call without a URL of its own in the options, and with no base or
    the empty base, keeps the credential confined. *)
Lemma confined_call method endpoint body qs options :
  options !! "url" = None ->
  prop options "baseURL" = JUndefined \/ prop options "baseURL" = JStr "" ->
  keeps (adds credential_confined)
    (GenericFunctions.cambAiApiRequest method endpoint body qs options).
Proof.
  intros Hurl Hbase. apply keeps_cambAiApiRequest.
  intros cred req (Hcred & _ & Hreq & _). specialize (Hreq Hurl).
  unfold resolved_baseURL in *.
  destruct Hbase as [Hb | Hb]; rewrite Hb in *; simpl in *; subst cred.
  - split; [reflexivity |]. eauto.
  - exact I.
Qed.

Lemma legacy_confined_call method endpoint body qs options :
  options !! "url" = None ->
  keeps (adds credential_confined)
    (LegacyFunctions.cambAiApiRequest method endpoint body qs options).
Proof.
  intros Hurl h s.
  pose proof (legacy_cambAiApiRequest_logs method endpoint body qs options h s)
    as Hlog.
  cbv zeta in Hlog. rewrite Hlog. apply adds_log.
  split; [reflexivity |].
  exists (toString endpoint).
  rewrite lookup_union_r by exact Hurl.
  destruct (0 <? size body)%nat, (0 <? size qs)%nat; map_lookup; reflexivity.
Qed.

Lemma confined_status_call endpoint : credential_confined (status_call endpoint).
Proof.
  split; [reflexivity |]. exists (toString endpoint).
  unfold status_request. map_lookup. reflexivity.
Qed.

Ltac keeps_step E_sleep call :=
  lazymatch goal with
  | |- keeps _ (_ ≫= _) =>
      apply keeps_bind; [apply adds_trans | | intro]
  | |- keeps _ (mret _) => apply keeps_ret, adds_refl
  | |- keeps _ (lift _) => apply keeps_lift, adds_refl
  | |- keeps _ (throwM _) => apply keeps_throwM, adds_refl
  | |- keeps _ (getNodeParameter _ _ _) => apply keeps_getNodeParameter, adds_refl
  | |- keeps _ (GenericFunctions.cambAiApiRequest _ _ _ _ _) => call
  | |- keeps _ (LegacyFunctions.cambAiApiRequest _ _ _ _ _) => call
  | |- keeps _ (GenericFunctions.pollForResult _ _ _) =>
      apply keeps_pollForResult; [exact E_sleep | ]
  | |- keeps _ (CambAiNode.parse_texts _) => apply keeps_parse_texts, adds_refl
  | |- keeps _ (helpers_prepareBinaryData _ _ _) =>
      apply keeps_prepareBinaryData, adds_refl
  | |- keeps _ (helpers_assertBinaryData _ _) =>
      apply keeps_assertBinaryData, adds_refl
  | |- keeps _ (helpers_getBinaryDataBuffer _ _) =>
      apply keeps_getBinaryDataBuffer, adds_refl
  | |- keeps _ (for_of _ _) =>
      apply keeps_for_of; [apply adds_refl | apply adds_trans | intro]
  | |- keeps _ (push _) => apply keeps_push
  | |- keeps _ host => apply keeps_host, adds_refl
  | |- keeps _ this_continueOnFail => apply keeps_continueOnFail, adds_refl
  | |- keeps _ new_returnData => apply keeps_new_returnData
  | |- keeps _ read_returnData => apply keeps_read_returnData
  | |- keeps _ (try_catch _ _) =>
      apply keeps_try_catch; [apply adds_trans | | intro]
  | |- keeps _ (for_range _ _ _) =>
      apply keeps_for_range; [apply adds_refl | apply adds_trans | intro]
  | |- keeps _ (if ?c then _ else _) => destruct c
  | |- keeps _ (match ?v with _ => _ end) => destruct v
  end.

Ltac confined :=
  repeat first
    [ keeps_step confined_sleep
        ltac:(first [ apply confined_call;
                      [ vm_compute; reflexivity
                      | first [ left; reflexivity | right; reflexivity ] ]
                    | apply legacy_confined_call; vm_compute; reflexivity ])
    | apply confined_status_call ].

Lemma process_item_confined fuel resource operation i :
  keeps (adds credential_confined)
    (CambAiNode.process_item fuel resource operation i).
Proof.
  unfold CambAiNode.process_item.
  repeat match goal with
         | |- keeps _ (if ?c then _ else _) => destruct c
         end.
  - unfold CambAiNode.synthesize. confined.
  - unfold CambAiNode.translatedTts. confined.
  - unfold CambAiNode.generateSound. confined.
  - unfold CambAiNode.separateAudio. confined.
  - unfold CambAiNode.transcribe. confined.
  - unfold CambAiNode.translate. confined.
  - unfold CambAiNode.createVoice. confined.
  - unfold CambAiNode.cloneVoice. confined.
  - unfold CambAiNode.listVoices. confined.
  - confined.
Qed.

Lemma legacy_process_item_confined operation i :
  keeps (adds credential_confined) (LegacyNode.process_item operation i).
Proof.
  unfold LegacyNode.process_item.
  destruct (is_str operation "synthesize"); [| confined].
  unfold LegacyNode.synthesize. confined.
Qed.

Lemma execute_confined fuel h s :
  adds credential_confined s (snd (CambAiNode.execute fuel h s)).
Proof.
  revert h s. change (keeps (adds credential_confined) (CambAiNode.execute fuel)).
  unfold CambAiNode.execute. cbv zeta.
  repeat first [ apply process_item_confined
               | progress unfold CambAiNode.on_item_error
               | progress confined ].
Qed.

Lemma legacy_execute_confined h s :
  adds credential_confined s (snd (LegacyNode.execute h s)).
Proof.
  revert h s. change (keeps (adds credential_confined) LegacyNode.execute).
  unfold LegacyNode.execute. cbv zeta.
  repeat first [ apply legacy_process_item_confined
               | progress unfold LegacyNode.on_item_error
               | progress confined ].
Qed.

(** X10: the credential never leaves the service. Whatever the input, the
    parameters and the answers of the remote side, every request that
    [execute] makes with a credential uses the one named [cambAiApi] and
    goes to a URL that begins with the fixed base
    [https://client.camb.ai/apis]; the requests to other URLs (the
    downloads of result files) are made without credential. Both
    snapshots. *)
Theorem X10_credential_stays_with_the_service (fuel : nat) (h : Host) (s : Store) :
  adds credential_confined s (snd (CambAiNode.execute fuel h s))
  /\ adds credential_confined s (snd (LegacyNode.execute h s)).
Proof.
  split; [apply execute_confined | apply legacy_execute_confined].
Qed.

(** ** Which operations download *)

Lemma with_credential_sleep ms : with_credential (Sleep ms).
Proof. reflexivity. Qed.

Lemma with_credential_call method endpoint body qs options :
  prop options "baseURL" = JUndefined ->
  keeps (adds with_credential)
    (GenericFunctions.cambAiApiRequest method endpoint body qs options).
Proof.
  intros Hbase. apply keeps_cambAiApiRequest.
  intros cred req (Hcred & _). unfold resolved_baseURL in Hcred.
  rewrite Hbase in Hcred. simpl in Hcred. subst cred. reflexivity.
Qed.

Lemma legacy_with_credential_call method endpoint body qs options :
  keeps (adds with_credential)
    (LegacyFunctions.cambAiApiRequest method endpoint body qs options).
Proof.
  intros h s.
  destruct (legacy_cambAiApiRequest_run method endpoint body qs options h s)
    as (req & Hlog & _).
  rewrite Hlog. apply adds_log. reflexivity.
Qed.

Lemma with_credential_status_call endpoint : with_credential (status_call endpoint).
Proof. reflexivity. Qed.

Ltac credentialed :=
  repeat first
    [ keeps_step with_credential_sleep
        ltac:(first [ apply with_credential_call; reflexivity
                    | apply legacy_with_credential_call ])
    | apply with_credential_status_call ].

Lemma process_item_with_credential fuel resource operation i :
  downloads_files resource operation = false ->
  keeps (adds with_credential)
    (CambAiNode.process_item fuel resource operation i).
Proof.
  unfold downloads_files, CambAiNode.process_item. intros Hop.
  repeat match goal with
         | |- keeps _ (if ?c then _ else _) => destruct c eqn:?
         end.
  - unfold CambAiNode.synthesize. credentialed.
  - unfold CambAiNode.translatedTts. credentialed.
  - unfold CambAiNode.generateSound. credentialed.
  - discriminate Hop.
  - unfold CambAiNode.transcribe. credentialed.
  - unfold CambAiNode.translate. credentialed.
  - rewrite Bool.orb_true_r in Hop. discriminate Hop.
  - unfold CambAiNode.cloneVoice. credentialed.
  - unfold CambAiNode.listVoices. credentialed.
  - credentialed.
Qed.

(** X11: only Separate Audio and Create Voice fetch anything without the
    credential. For every other resource and operation, unknown ones
    included, each request [execute] makes carries the credential. The
    earlier snapshot, which has no resource parameter, never makes a
    request without the credential, whatever its parameters. *)
Theorem X11_only_two_operations_download :
  (forall (fuel : nat) (h : Host) (s : Store) (resource operation : JsValue),
      nodeParameter h "resource" 0 = Some resource ->
      nodeParameter h "operation" 0 = Some operation ->
      downloads_files resource operation = false ->
      adds with_credential s (snd (CambAiNode.execute fuel h s)))
  /\ (forall (h : Host) (s : Store),
      adds with_credential s (snd (LegacyNode.execute h s))).
Proof.
  split.
  - intros fuel h s resource operation Hr Ho Hop.
    rewrite (execute_run _ _ _ _ _ Hr Ho).
    assert (Hloop : keeps (adds with_credential)
                      (for_range 0 (inputData_length h)
                         (item_step fuel resource operation))).
    { unfold item_step.
      repeat first [ apply process_item_with_credential; exact Hop
                   | progress unfold CambAiNode.on_item_error
                   | progress credentialed ]. }
    specialize (Hloop h {| events := events s; returnData := [] |}).
    destruct (for_range _ _ _ _ _) as [[[] | e |] s1]; exact Hloop.
  - change (keeps (adds with_credential) LegacyNode.execute).
    unfold LegacyNode.execute, LegacyNode.process_item. cbv zeta.
    repeat first [ progress unfold LegacyNode.on_item_error, LegacyNode.synthesize
                 | progress credentialed ].
Qed.

Lemma X11_only_two_operations_download_witness :
  adds with_credential empty_store
    (snd (CambAiNode.execute 3 (translate_host "[1,2]") empty_store)).
Proof.
  apply (proj1 X11_only_two_operations_download 3%nat (translate_host "[1,2]")
           empty_store (JStr "text") (JStr "translate")); reflexivity.
Defined.

(** ** Operations the description does not offer *)

Lemma is_str_true v lit : is_str v lit = true -> v = JStr lit.
Proof.
  destruct v; simpl; try discriminate.
  intros H. apply String.eqb_eq in H. now subst.
Qed.

Ltac offered_branch Hoff :=
  match goal with
  | H : is_str ?r ?a && is_str ?o ?b = true |- _ =>
      apply andb_true_iff in H; destruct H as [Hr Ho];
      apply is_str_true in Hr, Ho; subst;
      vm_compute in Hoff; discriminate Hoff
  end.

Lemma process_item_not_offered fuel resource operation i h s :
  offered resource operation = false ->
  CambAiNode.process_item fuel resource operation i h s = (Ok tt, s).
Proof.
  intros Hoff. unfold CambAiNode.process_item.
  repeat match goal with
         | |- context [if ?c then _ else _] =>
             destruct c eqn:?; [offered_branch Hoff |]
         end.
  reflexivity.
Qed.

Lemma legacy_process_item_not_offered operation i h s :
  legacy_offered operation = false ->
  LegacyNode.process_item operation i h s = (Ok tt, s).
Proof.
  intros Hoff. unfold LegacyNode.process_item.
  destruct (is_str operation "synthesize") eqn:E; [| reflexivity].
  apply is_str_true in E. subst. vm_compute in Hoff. discriminate.
Qed.

Lemma for_range_idle (body : nat -> M unit) h :
  (forall i s, body i h s = (Ok tt, s)) ->
  forall n start s, for_range start n body h s = (Ok tt, s).
Proof.
  intros Hb. induction n as [| n IH]; intros start s; [reflexivity |].
  rewrite for_range_unfold, Hb. apply IH.
Qed.

(** X12: an operation the description does not offer is ignored in
    silence. When the resource and operation parameters hold a pair that
    cannot be selected in the node (an unknown name, or an operation under
    the wrong resource), [execute] makes no request, pushes no record and
    raises no error, however many input items there are: it returns one
    empty list. The earlier snapshot does the same for every operation but
    synthesize. *)
Theorem X12_unoffered_operation_does_nothing :
  (forall (fuel : nat) (h : Host) (s : Store) (resource operation : JsValue),
      nodeParameter h "resource" 0 = Some resource ->
      nodeParameter h "operation" 0 = Some operation ->
      offered resource operation = false ->
      CambAiNode.execute fuel h s
      = (Ok [[]], {| events := events s; returnData := [] |}))
  /\ (forall (h : Host) (s : Store) (operation : JsValue),
      nodeParameter h "operation" 0 = Some operation ->
      legacy_offered operation = false ->
      LegacyNode.execute h s
      = (Ok [[]], {| events := events s; returnData := [] |})).
Proof.
  split.
  - intros fuel h s resource operation Hr Ho Hoff.
    rewrite (execute_run _ _ _ _ _ Hr Ho).
    rewrite for_range_idle; [reflexivity |].
    intros i s0. rewrite item_step_run.
    rewrite (process_item_not_offered _ _ _ _ _ _ Hoff). reflexivity.
  - intros h s operation Ho Hoff.
    rewrite (legacy_execute_run _ _ _ Ho).
    rewrite for_range_idle; [reflexivity |].
    intros i s0. rewrite legacy_item_step_run.
    rewrite (legacy_process_item_not_offered _ _ _ _ Hoff). reflexivity.
Qed.

Lemma X12_unoffered_operation_does_nothing_witness :
  CambAiNode.execute 1
    (simple_host 3 [("resource", JStr "text"); ("operation", JStr "synthesize")]
       false [])
    empty_store
  = (Ok [[]], {| events := events empty_store; returnData := [] |}).
Proof.
  apply (proj1 X12_unoffered_operation_does_nothing 1%nat
           (simple_host 3 [("resource", JStr "text"); ("operation", JStr "synthesize")]
              false [])
           empty_store (JStr "text") (JStr "synthesize"));
    vm_compute; reflexivity.
Defined.

(** ** The parameters an operation reads *)

Section Agrees.

Context (h : Host) (values : string -> nat -> option JsValue).

Let h' := with_nodeParameter values h.

Lemma agrees_bind {A B : Type} (m : M A) (f : A -> M B) :
  agrees h h' m -> (forall a, agrees h h' (f a)) -> agrees h h' (m ≫= f).
Proof.
  intros Hm Hf s. rewrite !bind_unfold, Hm.
  destruct (m h s) as [[a | e |] s1]; [apply Hf | reflexivity | reflexivity].
Qed.

Lemma agrees_try_catch {A : Type} (body : M A) (handler : JsError -> M A) :
  agrees h h' body -> (forall e, agrees h h' (handler e)) ->
  agrees h h' (try_catch body handler).
Proof.
  intros Hb Hh s. rewrite !try_catch_unfold, Hb.
  destruct (body h s) as [[a | e |] s1]; [reflexivity | apply Hh | reflexivity].
Qed.

Lemma agrees_getNodeParameter name i fb :
  values name i = nodeParameter h name i ->
  agrees h h' (getNodeParameter name i fb).
Proof.
  intros H s. unfold getNodeParameter. rewrite !bind_host.
  change (nodeParameter h' name i) with (values name i). rewrite H.
  destruct (nodeParameter h name i); [| destruct fb]; reflexivity.
Qed.

Lemma agrees_cambAiApiRequest method endpoint body qs options :
  agrees h h' (GenericFunctions.cambAiApiRequest method endpoint body qs options).
Proof.
  intros s. unfold GenericFunctions.cambAiApiRequest. cbv zeta.
  rewrite !try_catch_unfold.
  destruct (is_str _ ""); unfold httpRequest, httpRequestWithAuthentication;
    rewrite !request_unfold.

  all: change (remote h') with (remote h).
  all: destruct (remote h _ _ _); try reflexivity.
  all: rewrite !bind_host.
  all: change (statusCode_of h' j) with (statusCode_of h j).
  all: change (message_of h' j) with (message_of h j).
  all: repeat case_bool_decide; reflexivity.
Qed.

Lemma agrees_legacy_cambAiApiRequest method endpoint body qs options :
  agrees h h' (LegacyFunctions.cambAiApiRequest method endpoint body qs options).
Proof.
  intros s. unfold LegacyFunctions.cambAiApiRequest. cbv zeta.
  rewrite !try_catch_unfold.
  unfold httpRequestWithAuthentication. rewrite !request_unfold.
  change (remote h') with (remote h).
  destruct (remote h _ _ _); try reflexivity.
  rewrite !bind_host.
  change (statusCode_of h' j) with (statusCode_of h j).
  change (message_of h' j) with (message_of h j).
  repeat case_bool_decide; reflexivity.
Qed.

Lemma agrees_pure {A : Type} (m : M A) :
  (forall h0 h1 s, m h0 s = m h1 s) -> agrees h h' m.
Proof. intros H s. apply H. Qed.

Lemma agrees_pollIteration endpoint interval :
  agrees h h' (GenericFunctions.pollIteration endpoint interval).
Proof.
  unfold GenericFunctions.pollIteration.
  apply agrees_try_catch.
  - apply agrees_bind; [apply agrees_cambAiApiRequest | intros response].
    apply agrees_bind; [apply agrees_pure; reflexivity | intros result_status].
    cbv zeta.
    destruct (String.eqb _ "SUCCESS"); [apply agrees_pure; reflexivity |].
    destruct (String.eqb _ "ERROR" || String.eqb _ "FAILED").
    { apply agrees_bind; [apply agrees_pure; reflexivity | intros m].
      apply agrees_bind; [apply agrees_pure; reflexivity | intros e].
      apply agrees_pure; reflexivity. }
    destruct (String.eqb _ "TIMEOUT"); [apply agrees_pure; reflexivity |].
    destruct (String.eqb _ "PAYMENT_REQUIRED"); apply agrees_pure; reflexivity.
  - intros e s. rewrite !bind_host.
    change (statusCode_of h' e) with (statusCode_of h e).
    case_bool_decide; reflexivity.
Qed.

Lemma agrees_pollForResult fuel endpoint interval :
  agrees h h' (GenericFunctions.pollForResult fuel endpoint interval).
Proof.
  induction fuel as [| fuel IH]; simpl.
  - apply agrees_pure; reflexivity.
  - apply agrees_bind; [apply agrees_pollIteration | intros [| r]].
    + exact IH.
    + apply agrees_pure; reflexivity.
Qed.

Lemma agrees_continueOnFail : agrees h h' this_continueOnFail.
Proof. intros s. unfold this_continueOnFail. rewrite !bind_host. reflexivity. Qed.

Lemma agrees_host_free {A : Type} (m : M A) :
  (forall h0 h1 s, m h0 s = m h1 s) -> agrees h h' m.
Proof. intros H s. apply H. Qed.

Lemma agrees_assertBinaryData i name :
  agrees h h' (helpers_assertBinaryData i name).
Proof.
  intros s. unfold helpers_assertBinaryData. rewrite !bind_host.
  change (assertBinaryData h') with (assertBinaryData h).
  destruct (assertBinaryData h i name); reflexivity.
Qed.

Lemma agrees_getBinaryDataBuffer i name :
  agrees h h' (helpers_getBinaryDataBuffer i name).
Proof.
  intros s. unfold helpers_getBinaryDataBuffer. rewrite !bind_host.
  change (getBinaryDataBuffer h') with (getBinaryDataBuffer h).
  destruct (getBinaryDataBuffer h i name); reflexivity.
Qed.

Lemma agrees_parse_texts textsInput :
  agrees h h' (CambAiNode.parse_texts textsInput).
Proof.
  intros s. unfold CambAiNode.parse_texts, JSON_parse_text.
  rewrite !try_catch_unfold.
  rewrite bind_unfold, bind_host, bind_unfold, bind_host.
  change (JSON_parse h') with (JSON_parse h).
  destruct (JSON_parse h (toString textsInput)) as [v |]; cbn;
    [destruct (Array_isArray v) |]; reflexivity.
Qed.

Lemma agrees_for_of {A : Type} (l : list A) (body : A -> M unit) :
  (forall x, agrees h h' (body x)) -> agrees h h' (for_of l body).
Proof.
  intros Hb. induction l as [| x l IH]; simpl.
  - intros s. reflexivity.
  - apply agrees_bind; [apply Hb | intros _; exact IH].
Qed.

Lemma agrees_for_range (body : nat -> M unit) n :
  (forall i, agrees h h' (body i)) ->
  forall start, agrees h h' (for_range start n body).
Proof.
  intros Hb. induction n as [| n IH]; intros start; simpl.
  - intros s. reflexivity.
  - apply agrees_bind; [apply Hb | intros _; apply IH].
Qed.

End Agrees.

Ltac agrees_step Hdecl :=
  lazymatch goal with
  | |- agrees _ _ (_ ≫= _) => apply agrees_bind; [ | intro]
  | |- agrees _ _ (getNodeParameter _ _ _) =>
      apply agrees_getNodeParameter; apply Hdecl; vm_compute; reflexivity
  | |- agrees _ _ (GenericFunctions.cambAiApiRequest _ _ _ _ _) =>
      apply agrees_cambAiApiRequest
  | |- agrees _ _ (LegacyFunctions.cambAiApiRequest _ _ _ _ _) =>
      apply agrees_legacy_cambAiApiRequest
  | |- agrees _ _ (GenericFunctions.pollForResult _ _ _) =>
      apply agrees_pollForResult
  | |- agrees _ _ (for_of _ _) => apply agrees_for_of; intro
  | |- agrees _ _ (if ?c then _ else _) => destruct c
  | |- agrees _ _ (match ?v with _ => _ end) => destruct v
  | |- agrees _ _ (helpers_assertBinaryData _ _) => apply agrees_assertBinaryData
  | |- agrees _ _ (helpers_getBinaryDataBuffer _ _) =>
      apply agrees_getBinaryDataBuffer
  | |- agrees _ _ (CambAiNode.parse_texts _) => apply agrees_parse_texts
  | |- agrees _ _ this_continueOnFail => apply agrees_continueOnFail
  | |- agrees _ _ (try_catch _ _) => apply agrees_try_catch; [ | intro]
  | |- agrees _ _ (for_range _ _ _) => apply agrees_for_range; intro
  | |- agrees _ _ _ => apply agrees_pure; reflexivity
  end.

Ltac agrees_branch Hdecl :=
  match goal with
  | H : is_str ?r ?a && is_str ?o ?b = true |- _ =>
      apply andb_true_iff in H; destruct H as [Hr Ho];
      apply is_str_true in Hr, Ho; subst
  end.

Lemma process_item_reads_declared fuel resource operation i h values :
  (forall name,
      declared CambAiDescription.properties resource operation name = true ->
      values name i = nodeParameter h name i) ->
  agrees h (with_nodeParameter values h)
    (CambAiNode.process_item fuel resource operation i).
Proof.
  intros Hdecl. unfold CambAiNode.process_item.
  repeat match goal with
         | |- agrees _ _ (if ?c then _ else _) =>
             destruct c eqn:?; [agrees_branch Hdecl |]
         end.
  - unfold CambAiNode.synthesize. repeat agrees_step Hdecl.
  - unfold CambAiNode.translatedTts. repeat agrees_step Hdecl.
  - unfold CambAiNode.generateSound. repeat agrees_step Hdecl.
  - unfold CambAiNode.separateAudio. repeat agrees_step Hdecl.
  - unfold CambAiNode.transcribe. repeat agrees_step Hdecl.
  - unfold CambAiNode.translate. repeat agrees_step Hdecl.
  - unfold CambAiNode.createVoice. repeat agrees_step Hdecl.
  - unfold CambAiNode.cloneVoice. repeat agrees_step Hdecl.
  - unfold CambAiNode.listVoices. repeat agrees_step Hdecl.
  - apply agrees_pure; reflexivity.
Qed.

Lemma legacy_process_item_reads_declared operation i h values :
  (forall name,
      declared LegacyDescription.properties JUndefined operation name = true ->
      values name i = nodeParameter h name i) ->
  agrees h (with_nodeParameter values h) (LegacyNode.process_item operation i).
Proof.
  intros Hdecl. unfold LegacyNode.process_item.
  destruct (is_str operation "synthesize") eqn:E.
  - apply is_str_true in E. subst.
    unfold LegacyNode.synthesize. repeat agrees_step Hdecl.
  - apply agrees_pure; reflexivity.
Qed.

Lemma on_item_error_agrees i e h values :
  agrees h (with_nodeParameter values h) (CambAiNode.on_item_error i e)
  /\ agrees h (with_nodeParameter values h) (LegacyNode.on_item_error i e).
Proof.
  split; intros s.
  - unfold CambAiNode.on_item_error, this_continueOnFail.
    rewrite !bind_host, !bind_assoc, !bind_host, !bind_mret.
    change (continueOnFail (with_nodeParameter values h)) with (continueOnFail h).
    change (message_of (with_nodeParameter values h) e) with (message_of h e).
    destruct (continueOnFail h); reflexivity.
  - unfold LegacyNode.on_item_error, this_continueOnFail.
    rewrite !bind_host, !bind_assoc, !bind_host, !bind_mret.
    change (continueOnFail (with_nodeParameter values h)) with (continueOnFail h).
    change (message_of (with_nodeParameter values h) e) with (message_of h e).
    destruct (continueOnFail h); reflexivity.
Qed.

(** X13: an operation reads only the parameters the description displays
    for it. When two sets of parameter values agree on every parameter
    that the description declares for the selected resource and operation
    (whatever they hold under other names), [execute] does the same with
    both: the same requests, the same records, the same result. Both
    snapshots. *)
Theorem X13_only_declared_parameters_are_read :
  (forall (fuel : nat) (h : Host) (values : string -> nat -> option JsValue)
          (s : Store) (resource operation : JsValue),
      nodeParameter h "resource" 0 = Some resource ->
      nodeParameter h "operation" 0 = Some operation ->
      values "operation" 0%nat = Some operation ->
      (forall name i,
          declared CambAiDescription.properties resource operation name = true ->
          values name i = nodeParameter h name i) ->
      CambAiNode.execute fuel (with_nodeParameter values h) s
      = CambAiNode.execute fuel h s)
  /\ (forall (h : Host) (values : string -> nat -> option JsValue)
             (s : Store) (operation : JsValue),
      nodeParameter h "operation" 0 = Some operation ->
      (forall name i,
          declared LegacyDescription.properties JUndefined operation name = true ->
          values name i = nodeParameter h name i) ->
      LegacyNode.execute (with_nodeParameter values h) s
      = LegacyNode.execute h s).
Proof.
  split.
  - intros fuel h values s resource operation Hr Ho Hvo Hdecl.
    assert (Hvr : values "resource" 0%nat = Some resource)
      by (rewrite (Hdecl "resource" 0%nat eq_refl); exact Hr).
    rewrite (execute_run fuel resource operation h s Hr Ho).
    rewrite (execute_run fuel resource operation (with_nodeParameter values h) s
               Hvr Hvo).
    change (inputData_length (with_nodeParameter values h))
      with (inputData_length h).
    assert (Hloop : agrees h (with_nodeParameter values h)
                      (for_range 0%nat (inputData_length h)
                         (item_step fuel resource operation))).
    { apply agrees_for_range. intros i. unfold item_step.
      apply agrees_try_catch.
      - apply process_item_reads_declared. intros name. apply Hdecl.
      - intros e. apply on_item_error_agrees. }
    rewrite Hloop. reflexivity.
  - intros h values s operation Ho Hdecl.
    assert (Hvo : values "operation" 0%nat = Some operation)
      by (rewrite (Hdecl "operation" 0%nat eq_refl); exact Ho).
    rewrite (legacy_execute_run operation h s Ho).
    rewrite (legacy_execute_run operation (with_nodeParameter values h) s Hvo).
    change (inputData_length (with_nodeParameter values h))
      with (inputData_length h).
    assert (Hloop : agrees h (with_nodeParameter values h)
                      (for_range 0%nat (inputData_length h)
                         (legacy_item_step operation))).
    { apply agrees_for_range. intros i. unfold legacy_item_step.
      apply agrees_try_catch.
      - apply legacy_process_item_reads_declared. intros name. apply Hdecl.
      - intros e. apply on_item_error_agrees. }
    rewrite Hloop. reflexivity.
Qed.

Lemma X13_only_declared_parameters_are_read_witness :
  CambAiNode.execute 3
    (with_nodeParameter (with_stray_parameter (translate_host "[1,2]"))
       (translate_host "[1,2]"))
    empty_store
  = CambAiNode.execute 3 (translate_host "[1,2]") empty_store.
Proof.
  apply (proj1 X13_only_declared_parameters_are_read 3%nat
           (translate_host "[1,2]") (with_stray_parameter (translate_host "[1,2]"))
           empty_store (JStr "text") (JStr "translate")).
  - reflexivity.
  - reflexivity.
  - reflexivity.
  - intros name i Hd. unfold with_stray_parameter.
    destruct (String.eqb_spec name "voiceId") as [-> | Hne]; [| reflexivity].
    vm_compute in Hd. discriminate Hd.
Defined.

(** ** List Voices *)

Lemma for_of_push (i : nat) (voices : list JsValue) h s :
  for_of voices (fun voice =>
    push {| json := voice; binary := None; pairedItem := i |}) h s
  = (Ok tt, {| events := events s;
               returnData := (returnData s ++ map (voice_record i) voices)%list |}).
Proof.
  revert s. induction voices as [| v voices IH]; intros s; simpl.
  - rewrite app_nil_r. destruct s; reflexivity.
  - rewrite bind_push, IH. simpl. rewrite <- app_assoc. reflexivity.
Qed.

(** X14: List Voices gives one record per voice, in the order of the
    answer, each holding the voice as the service sent it; an answer that
    is not an array gives no record and no error; a rejected request is
    thrown classified. In every case the operation has made one request,
    the authenticated GET of [/list-voices]. *)
Theorem X14_list_voices_one_record_per_voice (i : nat) (h : Host) (s : Store) :
  exists req,
    list_voices_call = HttpRequest (Some "cambAiApi") req
    /\ match remote h (requests_so_far s) (Some "cambAiApi") req with
       | inr (JArr voices) =>
           CambAiNode.listVoices i h s
           = (Ok tt,
              {| events := (events s ++ [list_voices_call])%list;
                 returnData := (returnData s ++ map (voice_record i) voices)%list |})
       | inr _ => CambAiNode.listVoices i h s = (Ok tt, log list_voices_call s)
       | inl cause =>
           exists message,
             CambAiNode.listVoices i h s
             = (Throw (NodeApiError cause message), log list_voices_call s)
       end.
Proof.
  eexists. split; [reflexivity |].
  pose proof (plain_call_run "GET" (JStr "/list-voices") ∅ ∅ h s) as Hcall.
  change (plain_request "GET" (JStr "/list-voices") ∅ ∅)
    with (object [("method", JStr "GET");
                  ("url", JStr "https://client.camb.ai/apis/list-voices");
                  ("json", JBool true)]) in Hcall.
  unfold CambAiNode.listVoices.
  destruct (remote h (requests_so_far s) (Some "cambAiApi") _) as [cause | v].
  - destruct Hcall as (message & Hcall & _). exists message.
    now rewrite (bind_throw _ _ _ _ _ _ Hcall).
  - rewrite (bind_ok _ _ _ _ _ _ Hcall).
    destruct v; try reflexivity.
    rewrite for_of_push. reflexivity.
Qed.

(** ** Before the loop *)

Lemma getNodeParameter_missing name i h s :
  nodeParameter h name i = None ->
  getNodeParameter name i None h s = (Throw (Error "Could not get parameter"), s).
Proof. intros H. unfold getNodeParameter. rewrite bind_host, H. reflexivity. Qed.

(** X15: the selection is read once, before the loop and outside its
    [try]: when the resource or the operation cannot be read, [execute]
    throws at once, continue-on-fail or not, with no request made; and with
    no input item it returns one empty list without a request, whatever
    the operation. The earlier snapshot does the same with its operation
    parameter. *)
Theorem X15_selection_is_read_before_the_loop :
  (forall (fuel : nat) (h : Host) (s : Store),
      nodeParameter h "resource" 0 = None \/ nodeParameter h "operation" 0 = None ->
      CambAiNode.execute fuel h s
      = (Throw (Error "Could not get parameter"),
         {| events := events s; returnData := [] |}))
  /\ (forall (fuel : nat) (h : Host) (s : Store) (resource operation : JsValue),
      nodeParameter h "resource" 0 = Some resource ->
      nodeParameter h "operation" 0 = Some operation ->
      inputData_length h = 0%nat ->
      CambAiNode.execute fuel h s
      = (Ok [[]], {| events := events s; returnData := [] |}))
  /\ (forall (h : Host) (s : Store),
      nodeParameter h "operation" 0 = None ->
      LegacyNode.execute h s
      = (Throw (Error "Could not get parameter"),
         {| events := events s; returnData := [] |}))
  /\ (forall (h : Host) (s : Store) (operation : JsValue),
      nodeParameter h "operation" 0 = Some operation ->
      inputData_length h = 0%nat ->
      LegacyNode.execute h s
      = (Ok [[]], {| events := events s; returnData := [] |})).
Proof.
  split; [| split; [| split]].
  - intros fuel h s Hmiss. unfold CambAiNode.execute.
    rewrite bind_host. cbv zeta.
    rewrite bind_unfold. unfold new_returnData at 1. cbn beta iota.
    destruct (nodeParameter h "resource" 0) as [resource |] eqn:Hr.
    + destruct Hmiss as [[=] | Ho].
      rewrite (bind_getNodeParameter _ _ _ _ _ _ _ Hr).
      rewrite (bind_throw _ _ _ _ _ _ (getNodeParameter_missing _ _ _ _ Ho)).
      reflexivity.
    + rewrite (bind_throw _ _ _ _ _ _ (getNodeParameter_missing _ _ _ _ Hr)).
      reflexivity.
  - intros fuel h s resource operation Hr Ho Hn.
    rewrite (execute_run _ _ _ _ _ Hr Ho), Hn. reflexivity.
  - intros h s Ho. unfold LegacyNode.execute.
    rewrite bind_host. cbv zeta.
    rewrite bind_unfold. unfold new_returnData at 1. cbn beta iota.
    rewrite (bind_throw _ _ _ _ _ _ (getNodeParameter_missing _ _ _ _ Ho)).
    reflexivity.
  - intros h s operation Ho Hn.
    rewrite (legacy_execute_run _ _ _ Ho), Hn. reflexivity.
Qed.

Lemma X15_selection_is_read_before_the_loop_witness :
  CambAiNode.execute 1 (simple_host 2 [("resource", JStr "audio")] true [])
    empty_store
  = (Throw (Error "Could not get parameter"),
     {| events := events empty_store; returnData := [] |}).
Proof.
  apply (proj1 X15_selection_is_read_before_the_loop 1%nat
           (simple_host 2 [("resource", JStr "audio")] true []) empty_store).
  right. reflexivity.
Defined.

(** ** Synthesize: the header it writes *)

Lemma not_inherited (name : string) :
  name = "mars-flash" \/ name = "mars-pro" \/ name = "mars-instruct" ->
  name ∉ CambAiNode.Object_prototype_names.
Proof.
  intros H Hin. apply list_elem_of_In in Hin. simpl in Hin.
  destruct H as [-> | [-> | ->]]; intuition discriminate.
Qed.

Lemma sampleRate_for_model model :
  (toString model = "mars-pro" ->
   written_rate (CambAiNode.sampleRate_for model) = 48000)
  /\ (toString model ∈ CambAiNode.Object_prototype_names ->
      written_rate (CambAiNode.sampleRate_for model) = 0)
  /\ (toString model <> "mars-pro" ->
      toString model ∉ CambAiNode.Object_prototype_names ->
      written_rate (CambAiNode.sampleRate_for model) = 22050).
Proof.
  unfold CambAiNode.sampleRate_for.
  destruct (CambAiNode.MODEL_SAMPLE_RATES !! toString model) as [rate |] eqn:E.
  - unfold CambAiNode.MODEL_SAMPLE_RATES in E.
    cbn [list_to_map foldr uncurry fst snd] in E.
    rewrite !lookup_insert, lookup_empty in E.
    repeat case_decide; simplify_eq; simpl.
    + split; [congruence | split; [| reflexivity]].
      intros Hin. exfalso. eapply not_inherited; [| exact Hin]. auto.
    + split; [reflexivity | split; [| congruence]].
      intros Hin. exfalso. eapply not_inherited; [| exact Hin]. auto.
    + split; [congruence | split; [| reflexivity]].
      intros Hin. exfalso. eapply not_inherited; [| exact Hin]. auto.
  - assert (Hne : toString model <> "mars-pro").
    { intros Heq. rewrite Heq in E. vm_compute in E. discriminate. }
    case_bool_decide; simpl.
    + split; [congruence | split; [reflexivity | contradiction]].
    + split; [congruence | split; [contradiction | reflexivity]].
Qed.

Lemma take_drop_header (header raw : list byte) :
  length header = 44%nat ->
  take 44 (header ++ raw) = header /\ drop 44 (header ++ raw) = raw.
Proof.
  intros H. split.
  - rewrite take_app_le by lia. apply take_ge. lia.
  - rewrite drop_app_ge by lia. rewrite H. reflexivity.
Qed.

(** X16: the header Synthesize puts before raw PCM describes it as mono,
    16 bits, at the sample rate looked up for the model: 48000 Hz for
    [mars-pro]; zero, with a zero byte rate, for a model value that names
    a property every object inherits (such as [constructor]), since the
    lookup then gives a function and the header writes store it as zero;
    and 22050 Hz for every other model value, unknown ones included. Its
    two length fields count the raw payload, and the payload follows the
    44 bytes unchanged. The earlier snapshot writes 24000 Hz whatever the
    model. *)
Theorem X16_synthesize_header_fields :
  (forall (h : Host) (s : Store) (i : nat) (text : string)
          (voiceId language model binaryPropertyName : JsValue)
          (o response : IDataObject) (raw : list byte),
      nodeParameter h "text" i = Some (JStr text) ->
      nodeParameter h "voiceId" i = Some voiceId ->
      nodeParameter h "language" i = Some language ->
      nodeParameter h "model" i = Some model ->
      nodeParameter h "outputFormat" i = Some (JStr "pcm_s16le") ->
      nodeParameter h "binaryPropertyName" i = Some binaryPropertyName ->
      nodeParameter h "options" i = Some (JObj o) ->
      3 <= Z.of_nat (String.length text) <= 3000 ->
      (forall cred req,
          remote h (requests_so_far s) cred req = inr (JObj response)) ->
      response !! "body" = Some (JBuffer raw) ->
      Z.of_nat (length raw) <= 4294967259 ->
      exists b rec rate,
        fst (CambAiNode.synthesize i h s) = Ok tt
        /\ returnData (snd (CambAiNode.synthesize i h s))
           = (returnData s ++ [rec])%list
        /\ binary rec = Some {[ toString binaryPropertyName := b ]}
        /\ wav_layout (take 44 (data b)) (Z.of_nat (length raw)) rate 1 16
        /\ drop 44 (data b) = raw
        /\ (toString model = "mars-pro" -> rate = 48000)
        /\ (toString model ∈ CambAiNode.Object_prototype_names -> rate = 0)
        /\ (toString model <> "mars-pro" ->
            toString model ∉ CambAiNode.Object_prototype_names ->
            rate = 22050))
  /\ (forall (h : Host) (s : Store) (i : nat) (text : string)
             (voice model binaryPropertyName : JsValue)
             (o response : IDataObject) (raw : list byte),
      nodeParameter h "text" i = Some (JStr text) ->
      nodeParameter h "voice" i = Some voice ->
      nodeParameter h "model" i = Some model ->
      nodeParameter h "outputFormat" i = Some (JStr "pcm_s16le") ->
      nodeParameter h "binaryPropertyName" i = Some binaryPropertyName ->
      nodeParameter h "voiceOptions" i = Some (JObj o) ->
      3 <= Z.of_nat (String.length text) <= 3000 ->
      (forall cred req,
          remote h (requests_so_far s) cred req = inr (JObj response)) ->
      response !! "body" = Some (JBuffer raw) ->
      Z.of_nat (length raw) <= 4294967259 ->
      exists b rec,
        fst (LegacyNode.synthesize i h s) = Ok tt
        /\ returnData (snd (LegacyNode.synthesize i h s))
           = (returnData s ++ [rec])%list
        /\ binary rec = Some {[ toString binaryPropertyName := b ]}
        /\ wav_layout (take 44 (data b)) (Z.of_nat (length raw)) 24000 1 16
        /\ drop 44 (data b) = raw).
Proof.
  split.
  - intros h s i text voiceId language model binaryPropertyName o response raw
      Ht Hv Hl Hm Ho Hb Hopt Hlen Hans Hbody Hraw.
    destruct (synthesize_payload h s i text voiceId language model
                (JStr "pcm_s16le") binaryPropertyName o response raw
                Ht Hv Hl Hm Ho Hb Hopt Hlen Hans Hbody)
      as (payload & Hpayload & Hok & _).
    destruct (node_header_at_exists (Z.of_nat (length raw)) model)
      as (header & Hheader & Hlayout).
    { lia. }
    cbn [is_str String.eqb Ascii.eqb Bool.eqb] in Hpayload.
    rewrite Hheader in Hpayload. cbn in Hpayload.
    destruct (Hok _ Hpayload) as (b & rec & Hfst & Hrec & _ & Hbin & Hdata & _).
    destruct (take_drop_header header raw (proj1 Hlayout)) as [Htake Hdrop].
    exists b, rec, (written_rate (CambAiNode.sampleRate_for model)).
    split; [exact Hfst |].
    split; [exact Hrec |]. split; [exact Hbin |].
    rewrite Hdata, Htake, Hdrop.
    split; [exact Hlayout |]. split; [reflexivity |].
    apply sampleRate_for_model.
  - intros h s i text voice model binaryPropertyName o response raw
      Ht Hv Hm Ho Hb Hopt Hlen Hans Hbody Hraw.
    destruct (legacy_synthesize_payload h s i text voice model
                (JStr "pcm_s16le") binaryPropertyName o response raw
                Ht Hv Hm Ho Hb Hopt Hlen Hans Hbody)
      as (payload & Hpayload & Hok & _).
    destruct (node_header_exists (Z.of_nat (length raw)) 24000)
      as (header & Hheader & Hlayout); [lia | auto |].
    cbn [is_str String.eqb Ascii.eqb Bool.eqb] in Hpayload.
    rewrite generateWavHeader_same, Hheader in Hpayload. cbn in Hpayload.
    destruct (Hok _ Hpayload) as (b & rec & Hfst & Hrec & _ & Hbin & Hdata & _).
    destruct (take_drop_header header raw (proj1 Hlayout)) as [Htake Hdrop].
    exists b, rec.
    split; [exact Hfst |].
    split; [exact Hrec |]. split; [exact Hbin |].
    rewrite Hdata, Htake, Hdrop. auto.
Qed.

Lemma X16_synthesize_header_fields_witness :
  exists b rec rate,
    fst (CambAiNode.synthesize 0
           (synthesize_host "Hello" "pcm_s16le" ["001"; "002"; "003"; "004"]%byte)
           empty_store) = Ok tt
    /\ returnData (snd (CambAiNode.synthesize 0
                          (synthesize_host "Hello" "pcm_s16le"
                             ["001"; "002"; "003"; "004"]%byte)
                          empty_store))
       = (returnData empty_store ++ [rec])%list
    /\ binary rec = Some {[ toString (JStr "data") := b ]}
    /\ wav_layout (take 44 (data b))
         (Z.of_nat (length ["001"; "002"; "003"; "004"]%byte)) rate 1 16
    /\ drop 44 (data b) = ["001"; "002"; "003"; "004"]%byte
    /\ (toString (JStr "mars-pro") = "mars-pro" -> rate = 48000)
    /\ (toString (JStr "mars-pro") ∈ CambAiNode.Object_prototype_names ->
        rate = 0)
    /\ (toString (JStr "mars-pro") <> "mars-pro" ->
        toString (JStr "mars-pro") ∉ CambAiNode.Object_prototype_names ->
        rate = 22050).
Proof.
  apply (proj1 X16_synthesize_header_fields
           (synthesize_host "Hello" "pcm_s16le" ["001"; "002"; "003"; "004"]%byte)
           empty_store 0%nat "Hello" (JNum 20303) (JStr "en-us") (JStr "mars-pro")
           (JStr "data") ∅
           (object [("body", JBuffer ["001"; "002"; "003"; "004"]%byte)])
           ["001"; "002"; "003"; "004"]%byte);
    try (intros; vm_compute; reflexivity).
  - vm_compute. split; discriminate.
  - vm_compute. discriminate.
Defined.

(** The same item with the model value [constructor]: the rate field and
    the byte rate field of the header are zero. *)
Example synthesize_inherited_model :
  exists rec b s',
    run (simple_host 1
           [("resource", JStr "audio"); ("operation", JStr "synthesize");
            ("text", JStr "Hello"); ("voiceId", JNum 20303);
            ("language", JStr "en-us"); ("model", JStr "constructor");
            ("outputFormat", JStr "pcm_s16le");
            ("binaryPropertyName", JStr "data"); ("options", JObj ∅)]
           false [inr (audio_response ["001"; "002"; "003"; "004"]%byte)])
      (CambAiNode.execute 1) = (Ok [[rec]], s')
    /\ binary rec = Some {[ "data" := b ]}
    /\ length (data b) = 48%nat
    /\ readUInt32LE (data b) 24 = Some 0
    /\ readUInt32LE (data b) 28 = Some 0.
Proof.
  eexists _, _, _. split; [vm_compute; reflexivity |].
  repeat split; vm_compute; reflexivity.
Qed.

(** ** The record of a completed item *)

Lemma ends_with_bind {A B : Type} Q (m : M A) (f : A -> M B) :
  sat same_records any_error m ->
  (forall a, ends_with Q (f a)) ->
  ends_with Q (m ≫= f).
Proof.
  intros Hm Hf h s s' b Hrun. rewrite bind_unfold in Hrun.
  pose proof (proj1 (Hm h s)) as Hsame. unfold same_records in Hsame.
  destruct (m h s) as [[a | e |] s1]; cbn [snd] in *; try discriminate.
  destruct (Hf a h s1 s' b Hrun) as (r & Hr & HQ).
  exists r. rewrite <- Hsame. auto.
Qed.

Lemma ends_with_prepareBinaryData {B : Type} Q buf name mime
    (f : IBinaryData -> M B) :
  ends_with Q (f {| data := buf; fileName := name; mimeType := mime |}) ->
  ends_with Q (helpers_prepareBinaryData buf name mime ≫= f).
Proof. intros H h s s' b Hrun. exact (H h s s' b Hrun). Qed.

Lemma ends_with_push (Q : INodeExecutionData -> Prop) r :
  Q r -> ends_with Q (push r).
Proof.
  intros HQ h s s' a Hrun. injection Hrun as _ <-. exists r. auto.
Qed.

Lemma ends_with_if {A : Type} Q (c : bool) (m1 m2 : M A) :
  ends_with Q m1 -> ends_with Q m2 -> ends_with Q (if c then m1 else m2).
Proof. destruct c; auto. Qed.

Ltac ends_step :=
  first
    [ apply ends_with_prepareBinaryData
    | apply ends_with_bind; [solve [repeat sat_step] | intro]
    | progress cbv zeta ].

Lemma sized_record name b j i :
  j !! "size" = Some (JNum (Z.of_nat (length (data b)))) ->
  reports_its_size
    {| json := JObj j; binary := Some {[ name := b ]}; pairedItem := i |}.
Proof. intros H. exists name, b, j. auto. Qed.

Ltac sized :=
  repeat ends_step;
  apply ends_with_push, sized_record;
  unfold object; cbn [list_to_map foldr uncurry fst snd];
  map_lookup; reflexivity.

(** X17: the size an audio operation reports is the size of what it
    delivers. Whenever Synthesize, Translated TTS or Generate Sound
    completes an item, the record it pushed has one binary output and its
    [size] is the length in bytes of that output; for Synthesize with raw
    PCM this counts the 44 bytes of the header. The same holds for the
    earlier snapshot's synthesize. *)
Theorem X17_reported_size_is_the_payload_size (fuel i : nat) :
  ends_with reports_its_size (CambAiNode.synthesize i)
  /\ ends_with reports_its_size (CambAiNode.translatedTts fuel i)
  /\ ends_with reports_its_size (CambAiNode.generateSound fuel i)
  /\ ends_with reports_its_size (LegacyNode.synthesize i).
Proof.
  split; [| split; [| split]].
  - unfold CambAiNode.synthesize. sized.
  - unfold CambAiNode.translatedTts. sized.
  - unfold CambAiNode.generateSound. sized.
  - unfold LegacyNode.synthesize. sized.
Qed.

(** ** Separate Audio *)

Lemma getNodeParameter_value name i h s v s1 :
  getNodeParameter name i None h s = (Ok v, s1) ->
  nodeParameter h name i = Some v.
Proof.
  unfold getNodeParameter. rewrite bind_host.
  destruct (nodeParameter h name i); cbn; intros [=]; congruence.
Qed.

Lemma assertBinaryData_ok_inv i name h s b s1 :
  helpers_assertBinaryData i name h s = (Ok b, s1) -> s1 = s.
Proof.
  unfold helpers_assertBinaryData. rewrite bind_host.
  destruct (assertBinaryData h i name); cbn; intros [=]; auto.
Qed.

Lemma getBinaryDataBuffer_ok_inv i name h s b s1 :
  helpers_getBinaryDataBuffer i name h s = (Ok b, s1) -> s1 = s.
Proof.
  unfold helpers_getBinaryDataBuffer. rewrite bind_host.
  destruct (getBinaryDataBuffer h i name); cbn; intros [=]; auto.
Qed.

Lemma background_key_differs (name : string) : name <> name +:+ "_background".
Proof.
  intros H. apply (f_equal String.length) in H.
  rewrite length_append in H. simpl in H. lia.
Qed.

(** X18: a Separate Audio item that completes has downloaded exactly two
    files, the foreground and then the background, without the credential,
    from the two URLs named by the answer of the remote side to the fetch
    of the result, which came just before; these are the last things it
    did, after authenticated calls and waits only. Its record names both
    URLs and holds exactly two binary outputs: the bytes of the foreground
    download under the chosen name and the bytes of the background
    download under that name followed by [_background]. *)
Theorem X18_separate_audio_downloads_both_files
    (h : Host) (s s' : Store) (fuel i : nat) :
  CambAiNode.separateAudio fuel i h s = (Ok tt, s') ->
  separateAudio_outcome h s s' i.
Proof.
  intros Hrun. unfold CambAiNode.separateAudio in Hrun.
  inv_param Hrun inputBinaryField.
  apply bind_ok_inv in Hrun.
  destruct Hrun as (binaryPropertyName & s0 & Hname & Hrun).
  pose proof (getNodeParameter_ok_inv _ _ _ _ _ _ _ Hname). subst s0.
  apply getNodeParameter_value in Hname.
  inv_bind Hrun binaryData s0 Hassert.
  apply assertBinaryData_ok_inv in Hassert. subst s0.
  inv_bind Hrun buffer s0 Hbuffer.
  apply getBinaryDataBuffer_ok_inv in Hbuffer. subst s0.
  cbv zeta in Hrun.
  inv_bind Hrun response s1 Hpost.
  inv_lift Hrun taskId HtaskId.
  inv_bind Hrun pollResult s2 Hpoll.
  inv_lift Hrun runId HrunId.
  inv_bind Hrun audioResult s3 Hfetch.
  inv_lift Hrun foregroundUrl Hfg.
  inv_lift Hrun backgroundUrl Hbg.
  inv_bind Hrun foregroundResponse s4 Hd0.
  inv_lift Hrun body1 Hbody1.
  inv_lift Hrun foregroundBuffer Hbuf1.
  rewrite bind_prepareBinaryData in Hrun.
  inv_bind Hrun backgroundResponse s5 Hd1.
  inv_lift Hrun body2 Hbody2.
  inv_lift Hrun backgroundBuffer Hbuf2.
  rewrite bind_prepareBinaryData in Hrun.
  unfold push in Hrun. injection Hrun as Hs'.
  (* the calls before the fetch of the result *)
  assert (Hapi : api_only s s2).
  { match type of Hpost with
    | GenericFunctions.cambAiApiRequest ?m ?e ?b ?q ?o h s = _ =>
        pose proof (api_call_only m e b q o h s eq_refl) as H1
    end.
    rewrite Hpost in H1.
    match type of Hpoll with
    | GenericFunctions.pollForResult ?f ?e ?iv h s1 = _ =>
        pose proof (pollForResult_api_only f e iv h s1) as H2
    end.
    rewrite Hpoll in H2.
    eapply api_only_trans; [exact H1 | exact H2]. }
  assert (Hrec : returnData s2 = returnData s).
  { match type of Hpost with
    | GenericFunctions.cambAiApiRequest ?m ?e ?b ?q ?o h s = _ =>
        pose proof (proj1 (sat_cambAiApiRequest same_records any_error
                             m e b q o h s)) as H1
    end.
    rewrite Hpost in H1.
    match type of Hpoll with
    | GenericFunctions.pollForResult ?f ?e ?iv h s1 = _ =>
        pose proof (proj1 (sat_pollForResult same_records any_error
                             f e iv h s1)) as H2
    end.
    rewrite Hpoll in H2.
    unfold same_records in *. cbn [snd] in *. congruence. }
  destruct Hapi as (api & Hev & Hforall).
  apply api_call_answer in Hfetch; [| reflexivity].
  destruct Hfetch as (fetch & -> & Hans).
  destruct (download_run _ _ _ _ _ Hd0) as (req0 & -> & Hurl0 & Hans0).
  destruct (download_run _ _ _ _ _ Hd1) as (req1 & -> & Hurl1 & Hans1).
  repeat rewrite requests_so_far_request in Hans0.
  repeat rewrite requests_so_far_request in Hans1.
  set (name := toString binaryPropertyName) in *.
  eexists binaryPropertyName, audioResult, foregroundUrl, backgroundUrl,
    fetch, req0, req1, api, (requests_so_far s2),
    {| data := foregroundBuffer;
       fileName := JStr ("foreground_" +:+ toString taskId +:+ ".wav");
       mimeType := JStr "audio/wav" |},
    {| data := backgroundBuffer;
       fileName := JStr ("background_" +:+ toString taskId +:+ ".wav");
       mimeType := JStr "audio/wav" |}, _, _, _.
  split; [exact Hname |].
  split.
  { rewrite <- Hs'. cbn [events log]. rewrite Hev, <- !app_assoc. reflexivity. }
  split; [exact Hforall |].
  split.
  { apply (requests_so_far_last_three
             (HttpRequest (Some "cambAiApi") fetch) (HttpRequest None req0)
             (HttpRequest None req1)); try reflexivity.
    rewrite <- Hs'. reflexivity. }
  split; [exact Hans |].
  split; [exact Hfg |].
  split; [exact Hbg |].
  split.
  { split; [exact Hurl0 |]. exists foregroundResponse, body1.
    split; [exact Hans0 |]. split; [exact Hbody1 | exact Hbuf1]. }
  split.
  { split; [exact Hurl1 |]. exists backgroundResponse, body2.
    split; [exact Hans1 |]. split; [exact Hbody2 | exact Hbuf2]. }
  split.
  { rewrite <- Hs'. cbn [returnData log]. rewrite Hrec. reflexivity. }
  split; [reflexivity |].
  split; [reflexivity |].
  split.
  { unfold object. cbn [list_to_map foldr uncurry fst snd].
    map_lookup. reflexivity. }
  split.
  { unfold object. cbn [list_to_map foldr uncurry fst snd].
    map_lookup. reflexivity. }
  split; [reflexivity |].
  split.
  { rewrite map_size_insert_None.
    - rewrite map_size_singleton. reflexivity.
    - apply lookup_singleton_None. apply background_key_differs. }
  split.
  { rewrite lookup_insert_ne by (apply not_eq_sym, background_key_differs).
    apply lookup_singleton_eq. }
  apply lookup_insert_eq.
Qed.

Lemma X18_separate_audio_downloads_both_files_witness :
  separateAudio_outcome separateAudio_host empty_store
    (snd (run separateAudio_host (CambAiNode.separateAudio 1 0))) 0.
Proof.
  apply (X18_separate_audio_downloads_both_files separateAudio_host empty_store
           _ 1 0).
  vm_compute. reflexivity.
Defined.

(** ** The choices of the voice parameter (earlier snapshot) *)

Lemma map_outcome_voice_options (voices : list JsValue) :
  Forall (fun v => v <> JUndefined /\ v <> JNull) voices ->
  exists options,
    map_outcome LegacyLoadOptions.voice_option voices = Ok options
    /\ length options = length voices
    /\ forall k voice, voices !! k = Some voice ->
       exists name id,
         get voice "name" = Ok name /\ get voice "id" = Ok id
         /\ options !! k = Some (JObj (object [("name", name); ("value", id)])).
Proof.
  induction 1 as [| v voices [Hu Hn] _ IH].
  - exists []. split; [reflexivity | split; [reflexivity |]]. intros k voice [=].
  - destruct IH as (options & Hmap & Hlen & Hidx).
    assert (Hv : exists name id,
               get v "name" = Ok name /\ get v "id" = Ok id
               /\ LegacyLoadOptions.voice_option v
                  = Ok (JObj (object [("name", name); ("value", id)]))).
    { unfold LegacyLoadOptions.voice_option.
      destruct v; try contradiction; simpl; eauto. }
    destruct Hv as (name & id & Hname & Hid & Hopt).
    eexists. simpl. rewrite Hopt, Hmap. simpl.
    split; [reflexivity | split; [simpl; now rewrite Hlen |]].
    intros [| k] voice Hk; simpl in Hk.
    + injection Hk as <-. eauto.
    + apply Hidx. exact Hk.
Qed.

(** X19: the voice choices are the listed voices. [getVoices] makes one
    authenticated GET of [/list-voices]; when the answer is an array of
    voices it returns as many choices, in the same order, each made of the
    name and the id of its voice; when the answer is not an array it
    throws a type error, there being no check before [map]. *)
Theorem X19_voice_choices_follow_the_list (h : Host) (s : Store) :
  exists req,
    snd (LegacyLoadOptions.getVoices h s)
    = log (HttpRequest (Some "cambAiApi") req) s
    /\ req !! "method" = Some (JStr "GET")
    /\ req !! "url" = Some (JStr "https://client.camb.ai/apis/list-voices")
    /\ (forall voices,
           remote h (requests_so_far s) (Some "cambAiApi") req = inr (JArr voices) ->
           Forall (fun v => v <> JUndefined /\ v <> JNull) voices ->
           exists options,
             fst (LegacyLoadOptions.getVoices h s) = Ok (JArr options)
             /\ length options = length voices
             /\ forall k voice, voices !! k = Some voice ->
                exists name id,
                  get voice "name" = Ok name /\ get voice "id" = Ok id
                  /\ options !! k
                     = Some (JObj (object [("name", name); ("value", id)])))
    /\ (forall v,
           remote h (requests_so_far s) (Some "cambAiApi") req = inr v ->
           Array_isArray v = false ->
           exists message,
             fst (LegacyLoadOptions.getVoices h s) = Throw (TypeError message)).
Proof.
  destruct (legacy_cambAiApiRequest_run "GET" (JStr "/list-voices") ∅ ∅ ∅ h s)
    as (req & Hlog & Hok & Herr).
  pose proof (legacy_cambAiApiRequest_logs "GET" (JStr "/list-voices") ∅ ∅ ∅ h s)
    as Hlogs.
  cbv zeta in Hlogs. rewrite Hlog in Hlogs.
  assert (Hreq : req = (∅ ∪ <["method" := JStr "GET"]>
                             (<["url" := JStr (LegacyFunctions.BASE_URL
                                               +:+ toString (JStr "/list-voices"))]>
                                (<["json" := JBool true]> ∅)) : IDataObject)).
  { unfold log in Hlogs. injection Hlogs as Hl.
    apply app_inj_tail in Hl. destruct Hl as [_ Hl]. now injection Hl. }
  exists req.
  assert (Hcall : forall v,
             remote h (requests_so_far s) (Some "cambAiApi") req = inr v ->
             LegacyFunctions.cambAiApiRequest "GET" (JStr "/list-voices") ∅ ∅ ∅ h s
             = (Ok v, log (HttpRequest (Some "cambAiApi") req) s)).
  { intros v Hv. rewrite <- Hlog, <- (Hok v Hv). apply surjective_pairing. }
  split; [| split; [| split; [| split]]].
  - unfold LegacyLoadOptions.getVoices.
    destruct (remote h (requests_so_far s) (Some "cambAiApi") req)
      as [cause | v] eqn:E.
    + destruct (Herr cause eq_refl) as (m & Hm & _).
      rewrite bind_unfold.
      destruct (LegacyFunctions.cambAiApiRequest _ _ _ _ _ h s) as [o s1].
      cbn [fst snd] in *. subst. reflexivity.
    + rewrite (bind_ok _ _ _ _ _ _ (Hcall v eq_refl)).
      destruct (LegacyLoadOptions.voices_map v _); reflexivity.
  - rewrite Hreq, (left_id_L ∅ (∪)). map_lookup. reflexivity.
  - rewrite Hreq, (left_id_L ∅ (∪)). map_lookup. reflexivity.
  - intros voices Hv Hall.
    destruct (map_outcome_voice_options voices Hall) as (options & Hmap & Hrest).
    exists options. split; [| exact Hrest].
    unfold LegacyLoadOptions.getVoices.
    rewrite (bind_ok _ _ _ _ _ _ (Hcall _ Hv)).
    cbn [LegacyLoadOptions.voices_map]. rewrite Hmap. reflexivity.
  - intros v Hv Hnot.
    unfold LegacyLoadOptions.getVoices.
    rewrite (bind_ok _ _ _ _ _ _ (Hcall _ Hv)).
    destruct v; try discriminate; eexists; reflexivity.
Qed.

Lemma X19_voice_choices_follow_the_list_witness :
  exists options,
    fst (LegacyLoadOptions.getVoices two_voices_host empty_store)
    = Ok (JArr options)
    /\ length options = 2%nat.
Proof.
  destruct (X19_voice_choices_follow_the_list two_voices_host empty_store)
    as (req & _ & _ & _ & Hok & _).
  destruct (Hok [JObj (object [("id", JNum 20303); ("name", JStr "Ada")]);
                 JObj (object [("id", JNum 20305); ("name", JStr "Grace");
                               ("gender", JNum 2)])])
    as (options & Hfst & Hlen & _).
  - reflexivity.
  - repeat constructor; discriminate.
  - exists options. split; [exact Hfst | exact Hlen].
Defined.

(** ** The life of a task *)

Lemma log_inj e1 e2 s : log e1 s = log e2 s -> e1 = e2.
Proof.
  unfold log. intros [= H]. apply app_inj_tail in H. tauto.
Qed.

(** A completed call against the service: what was sent and what came
    back. *)
Lemma api_call_ok method endpoint (body qs options : IDataObject) h s v s1 :
  options !! "method" = None ->
  options !! "url" = None ->
  options !! "baseURL" = None ->
  GenericFunctions.cambAiApiRequest method endpoint body qs options h s
  = (Ok v, s1) ->
  exists req,
    s1 = log (HttpRequest (Some "cambAiApi") req) s
    /\ req !! "method" = Some (JStr method)
    /\ req !! "url"
       = Some (JStr (GenericFunctions.BASE_URL +:+ toString endpoint))
    /\ remote h (requests_so_far s) (Some "cambAiApi") req = inr v.
Proof.
  intros Hm Hu Hb Hrun.
  destruct (cambAiApiRequest_run method endpoint body qs options h s)
    as (cred & req & (Hcred & _ & Hurl & _) & Hlog & Hok & Herr).
  pose proof (cambAiApiRequest_logs method endpoint body qs options h s) as Hlogs.
  cbv zeta in Hlogs. rewrite Hlog in Hlogs. apply log_inj in Hlogs.
  injection Hlogs as _ Hreq.
  rewrite Hrun in *. cbn [fst snd] in *.
  unfold resolved_baseURL, prop in Hcred, Hurl. rewrite Hb in Hcred, Hurl.
  cbn in Hcred, Hurl. subst cred.
  exists req. split; [exact Hlog |]. split; [| split; [exact (Hurl Hu) |]].
  - rewrite Hreq.
    assert (Hrest : (delete "formData" (delete "baseURL" options)) !! "method"
                    = None)
      by (rewrite !lookup_delete_ne by done; exact Hm).
    destruct (truthy _ && _);
      [rewrite !lookup_insert_ne by done; rewrite lookup_delete_ne by done |];
      rewrite lookup_union_r by exact Hrest;
      destruct (0 <? size body)%nat, (0 <? size qs)%nat; map_lookup; reflexivity.
  - destruct (remote h (requests_so_far s) (Some "cambAiApi") req)
      as [cause | v'].
    + destruct (Herr cause eq_refl) as (m & Hthrow & _). discriminate.
    + specialize (Hok v' eq_refl). congruence.
Qed.

(** A poll that returned: full rounds, then the request that was answered
    with the SUCCESS envelope. *)
Lemma pollForResult_ok_run fuel endpoint interval h s r s' :
  GenericFunctions.pollForResult fuel endpoint interval h s = (Ok r, s') ->
  exists (o : IDataObject) (rounds : nat),
    r = JObj o
    /\ GenericFunctions.status_of (prop o "status") = "SUCCESS"
    /\ events s'
       = (events s ++ concat (replicate rounds (poll_round endpoint interval))
          ++ [status_call endpoint])%list
    /\ returnData s' = returnData s.
Proof.
  revert s. induction fuel as [| fuel IH]; intros s Hrun; [discriminate |].
  destruct (pollIteration_cases endpoint interval h s)
    as [(o & Hit & _ & Hstatus) | [(e & Hit) | Hit]].
  - rewrite pollForResult_unfold, Hit in Hrun. injection Hrun as <- <-.
    exists o, 0%nat. auto.
  - rewrite pollForResult_unfold, Hit in Hrun. discriminate.
  - rewrite (pollForResult_continue _ _ _ _ _ _ Hit) in Hrun.
    destruct (IH _ Hrun) as (o & rounds & Hr & Hstatus & Hev & Hrec).
    exists o, (S rounds). split; [exact Hr | split; [exact Hstatus |]].
    split; [| exact Hrec].
    rewrite Hev. simpl. rewrite <- !app_assoc. reflexivity.
Qed.

Lemma parse_texts_ok_inv textsInput h s v s1 :
  CambAiNode.parse_texts textsInput h s = (Ok v, s1) -> s1 = s.
Proof.
  intros H. rewrite parse_texts_run in H. now injection H.
Qed.

(** The envelope a poll returned is the answer of the remote side to its
    last status request, whose number is known from the rounds made. *)
Lemma pollForResult_ok_answer fuel endpoint interval h s r s' :
  GenericFunctions.pollForResult fuel endpoint interval h s = (Ok r, s') ->
  exists (o : IDataObject) (rounds : nat),
    r = JObj o
    /\ GenericFunctions.status_of (prop o "status") = "SUCCESS"
    /\ events s'
       = (events s ++ concat (replicate rounds (poll_round endpoint interval))
          ++ [status_call endpoint])%list
    /\ returnData s' = returnData s
    /\ remote h (requests_so_far s + rounds) (Some "cambAiApi")
         (status_request endpoint) = inr r.
Proof.
  revert s. induction fuel as [| fuel IH]; intros s Hrun; [discriminate |].
  destruct (pollIteration_cases endpoint interval h s)
    as [(o & Hit & Hremote & Hstatus) | [(e & Hit) | Hit]].
  - rewrite pollForResult_unfold, Hit in Hrun. injection Hrun as <- <-.
    exists o, 0%nat. rewrite Nat.add_0_r. auto.
  - rewrite pollForResult_unfold, Hit in Hrun. discriminate.
  - rewrite (pollForResult_continue _ _ _ _ _ _ Hit) in Hrun.
    destruct (IH _ Hrun) as (o & rounds & Hr & Hstatus & Hev & Hrec & Hans).
    exists o, (S rounds). split; [exact Hr | split; [exact Hstatus |]].
    split; [| split; [exact Hrec |]].
    + rewrite Hev. simpl. rewrite <- !app_assoc. reflexivity.
    + rewrite requests_so_far_round in Hans.
      replace (requests_so_far s + S rounds)%nat
        with (S (requests_so_far s) + rounds)%nat by lia.
      exact Hans.
Qed.

Ltac lifecycle Hpost HtaskId Hpoll HrunId Hfetch :=
  let post := fresh "post" in
  let fetch := fresh "fetch" in
  let o := fresh "o" in
  let rounds := fresh "rounds" in
  apply api_call_ok in Hpost; [| reflexivity ..];
  destruct Hpost as (post & -> & Hpm & Hpu & Hpr);
  apply pollForResult_ok_answer in Hpoll;
  destruct Hpoll as (o & rounds & -> & Hstatus & Hpev & _ & Hans);
  rewrite requests_so_far_request, Nat.add_succ_comm in Hans;
  apply api_call_ok in Hfetch; [| reflexivity ..];
  destruct Hfetch as (fetch & -> & Hfm & Hfu & _);
  simpl in HrunId; injection HrunId as HrunId;
  eexists post, fetch, _, _, _, o, rounds;
  split; [| split; [exact Hpm |
            split; [exact Hpu |
            split; [exact Hpr |
            split; [exact HtaskId |
            split; [exact Hans |
            split; [exact Hstatus |
            split; [exact HrunId |
            split; [exact Hfm | exact Hfu]]]]]]]]].

Lemma translate_lifecycle fuel i h s s' :
  CambAiNode.translate fuel i h s = (Ok tt, s') ->
  task_lifecycle "/translate" "/translation-result" h s s' [].
Proof.
  intros Hrun. unfold CambAiNode.translate in Hrun.
  inv_param Hrun textsInput.
  inv_param Hrun sourceLanguage.
  inv_param Hrun targetLanguage.
  inv_param Hrun options.
  inv_bind Hrun texts s0 Hparse.
  apply parse_texts_ok_inv in Hparse. subst s0.
  cbv zeta in Hrun.
  inv_lift Hrun formality Hformality.
  inv_bind Hrun response s1 Hpost.
  inv_lift Hrun taskId HtaskId.
  inv_bind Hrun pollResult s2 Hpoll.
  inv_lift Hrun runId HrunId.
  inv_bind Hrun translationResult s3 Hfetch.
  inv_lift Hrun translatedTexts Htexts.
  unfold push in Hrun. injection Hrun as Hs'.
  lifecycle Hpost HtaskId Hpoll HrunId Hfetch.
  rewrite <- Hs'. cbn [events log]. rewrite Hpev. cbn [events log].
  rewrite <- !app_assoc. reflexivity.
Qed.

Lemma translatedTts_lifecycle fuel i h s s' :
  CambAiNode.translatedTts fuel i h s = (Ok tt, s') ->
  task_lifecycle "/translated-tts" "/tts-result" h s s' [].
Proof.
  intros Hrun. unfold CambAiNode.translatedTts in Hrun.
  inv_param Hrun text.
  inv_param Hrun sourceLanguage.
  inv_param Hrun targetLanguage.
  inv_param Hrun voiceId.
  inv_param Hrun binaryPropertyName.
  cbv zeta in Hrun.
  inv_bind Hrun response s1 Hpost.
  inv_lift Hrun taskId HtaskId.
  inv_bind Hrun pollResult s2 Hpoll.
  inv_lift Hrun runId HrunId.
  inv_bind Hrun audioResponse s3 Hfetch.
  inv_lift Hrun body Hbody.
  inv_lift Hrun audioBuffer Hbuffer.
  rewrite bind_prepareBinaryData in Hrun.
  unfold push in Hrun. injection Hrun as Hs'.
  lifecycle Hpost HtaskId Hpoll HrunId Hfetch.
  rewrite <- Hs'. cbn [events log]. rewrite Hpev. cbn [events log].
  rewrite <- !app_assoc. reflexivity.
Qed.

Lemma generateSound_lifecycle fuel i h s s' :
  CambAiNode.generateSound fuel i h s = (Ok tt, s') ->
  task_lifecycle "/text-to-sound" "/text-to-sound-result" h s s' [].
Proof.
  intros Hrun. unfold CambAiNode.generateSound in Hrun.
  inv_param Hrun prompt.
  inv_param Hrun audioType.
  inv_param Hrun duration.
  inv_param Hrun outputFormat.
  inv_param Hrun binaryPropertyName.
  cbv zeta in Hrun.
  inv_bind Hrun response s1 Hpost.
  inv_lift Hrun taskId HtaskId.
  inv_bind Hrun pollResult s2 Hpoll.
  inv_lift Hrun runId HrunId.
  inv_bind Hrun audioResponse s3 Hfetch.
  inv_lift Hrun body Hbody.
  inv_lift Hrun audioBuffer Hbuffer.
  rewrite bind_prepareBinaryData in Hrun.
  unfold push in Hrun. injection Hrun as Hs'.
  lifecycle Hpost HtaskId Hpoll HrunId Hfetch.
  rewrite <- Hs'. cbn [events log]. rewrite Hpev. cbn [events log].
  rewrite <- !app_assoc. reflexivity.
Qed.

Lemma transcribe_lifecycle fuel i h s s' :
  CambAiNode.transcribe fuel i h s = (Ok tt, s') ->
  task_lifecycle "/transcribe" "/transcription-result" h s s' [].
Proof.
  intros Hrun. unfold CambAiNode.transcribe in Hrun.
  inv_param Hrun inputBinaryField.
  inv_param Hrun languageId.
  inv_bind Hrun binaryData s0 Hassert.
  apply assertBinaryData_ok_inv in Hassert. subst s0.
  inv_bind Hrun buffer s0 Hbuffer.
  apply getBinaryDataBuffer_ok_inv in Hbuffer. subst s0.
  cbv zeta in Hrun.
  inv_bind Hrun response s1 Hpost.
  inv_lift Hrun taskId HtaskId.
  inv_bind Hrun pollResult s2 Hpoll.
  inv_lift Hrun runId HrunId.
  inv_bind Hrun transcriptResult s3 Hfetch.
  inv_lift Hrun transcript Htranscript.
  inv_lift Hrun texts Htexts.
  unfold push in Hrun. injection Hrun as Hs'.
  lifecycle Hpost HtaskId Hpoll HrunId Hfetch.
  rewrite <- Hs'. cbn [events log]. rewrite Hpev. cbn [events log].
  rewrite <- !app_assoc. reflexivity.
Qed.

Lemma separateAudio_lifecycle fuel i h s s' :
  CambAiNode.separateAudio fuel i h s = (Ok tt, s') ->
  exists d0 d1,
    task_lifecycle "/audio-separation" "/audio-separation-result" h s s'
      [HttpRequest None d0; HttpRequest None d1].
Proof.
  intros Hrun. unfold CambAiNode.separateAudio in Hrun.
  inv_param Hrun inputBinaryField.
  inv_param Hrun binaryPropertyName.
  inv_bind Hrun binaryData s0 Hassert.
  apply assertBinaryData_ok_inv in Hassert. subst s0.
  inv_bind Hrun buffer s0 Hbuffer.
  apply getBinaryDataBuffer_ok_inv in Hbuffer. subst s0.
  cbv zeta in Hrun.
  inv_bind Hrun response s1 Hpost.
  inv_lift Hrun taskId HtaskId.
  inv_bind Hrun pollResult s2 Hpoll.
  inv_lift Hrun runId HrunId.
  inv_bind Hrun audioResult s3 Hfetch.
  inv_lift Hrun foregroundUrl Hfg.
  inv_lift Hrun backgroundUrl Hbg.
  inv_bind Hrun foregroundResponse s4 Hd0.
  inv_lift Hrun body1 Hbody1.
  inv_lift Hrun foregroundBuffer Hbuf1.
  rewrite bind_prepareBinaryData in Hrun.
  inv_bind Hrun backgroundResponse s5 Hd1.
  inv_lift Hrun body2 Hbody2.
  inv_lift Hrun backgroundBuffer Hbuf2.
  rewrite bind_prepareBinaryData in Hrun.
  unfold push in Hrun. injection Hrun as Hs'.
  destruct (download_run _ _ _ _ _ Hd0) as (req0 & -> & _).
  destruct (download_run _ _ _ _ _ Hd1) as (req1 & -> & _).
  exists req0, req1.
  lifecycle Hpost HtaskId Hpoll HrunId Hfetch.
  rewrite <- Hs'. cbn [events log]. rewrite Hpev. cbn [events log].
  rewrite <- !app_assoc. reflexivity.
Qed.

Lemma createVoice_lifecycle fuel i h s s' :
  CambAiNode.createVoice fuel i h s = (Ok tt, s') ->
  exists d0 d1,
    task_lifecycle "/text-to-voice" "/text-to-voice-result" h s s'
      [HttpRequest None d0; HttpRequest None d1].
Proof.
  intros Hrun. unfold CambAiNode.createVoice in Hrun.
  inv_param Hrun text.
  inv_param Hrun voiceDescription.
  inv_param Hrun binaryPropertyName.
  inv_lift Hrun len Hlen.
  inv_bind Hrun u s0 Hvalid.
  assert (s0 = s) as ->.
  { destruct (js_lt len 100); [discriminate | now injection Hvalid]. }
  clear Hvalid u.
  cbv zeta in Hrun.
  inv_bind Hrun response s1 Hpost.
  inv_lift Hrun taskId HtaskId.
  inv_bind Hrun pollResult s2 Hpoll.
  inv_lift Hrun runId HrunId.
  inv_bind Hrun voiceResult s3 Hfetch.
  inv_lift Hrun previews Hprev.
  inv_lift Hrun p0 Hp0.
  inv_bind Hrun preview1Response s4 Hd0.
  inv_lift Hrun body1 Hbody1.
  inv_lift Hrun preview1Buffer Hbuf1.
  rewrite bind_prepareBinaryData in Hrun.
  inv_lift Hrun p1 Hp1.
  inv_bind Hrun preview2Response s5 Hd1.
  inv_lift Hrun body2 Hbody2.
  inv_lift Hrun preview2Buffer Hbuf2.
  rewrite bind_prepareBinaryData in Hrun.
  unfold push in Hrun. injection Hrun as Hs'.
  destruct (download_run _ _ _ _ _ Hd0) as (req0 & -> & _).
  destruct (download_run _ _ _ _ _ Hd1) as (req1 & -> & _).
  exists req0, req1.
  lifecycle Hpost HtaskId Hpoll HrunId Hfetch.
  rewrite <- Hs'. cbn [events log]. rewrite Hpev. cbn [events log].
  rewrite <- !app_assoc. reflexivity.
Qed.

(** X20: every operation that runs a task follows the same three steps
    with the ids the service gave it. Whenever Translated TTS, Generate
    Sound, Separate Audio, Transcribe, Translate or Create Voice completes
    an item, it has posted to its own path; polled that path followed by
    the task id that the answer to the POST carried, waiting three seconds
    after each poll but the last; got, as the answer of the remote side to
    the last poll, an envelope with status SUCCESS; and fetched the result
    under its result path followed by the run id of that envelope. Nothing
    else was requested, but for the two downloads with which Separate
    Audio and Create Voice end. *)
Theorem X20_task_operations_follow_the_lifecycle
    (fuel i : nat) (h : Host) (s s' : Store) :
  (CambAiNode.translatedTts fuel i h s = (Ok tt, s') ->
   task_lifecycle "/translated-tts" "/tts-result" h s s' [])
  /\ (CambAiNode.generateSound fuel i h s = (Ok tt, s') ->
      task_lifecycle "/text-to-sound" "/text-to-sound-result" h s s' [])
  /\ (CambAiNode.separateAudio fuel i h s = (Ok tt, s') ->
      exists d0 d1,
        task_lifecycle "/audio-separation" "/audio-separation-result" h s s'
          [HttpRequest None d0; HttpRequest None d1])
  /\ (CambAiNode.transcribe fuel i h s = (Ok tt, s') ->
      task_lifecycle "/transcribe" "/transcription-result" h s s' [])
  /\ (CambAiNode.translate fuel i h s = (Ok tt, s') ->
      task_lifecycle "/translate" "/translation-result" h s s' [])
  /\ (CambAiNode.createVoice fuel i h s = (Ok tt, s') ->
      exists d0 d1,
        task_lifecycle "/text-to-voice" "/text-to-voice-result" h s s'
          [HttpRequest None d0; HttpRequest None d1]).
Proof.
  split; [apply translatedTts_lifecycle |].
  split; [apply generateSound_lifecycle |].
  split; [apply separateAudio_lifecycle |].
  split; [apply transcribe_lifecycle |].
  split; [apply translate_lifecycle |].
  apply createVoice_lifecycle.
Qed.

Lemma X20_task_operations_follow_the_lifecycle_witness :
  task_lifecycle "/translate" "/translation-result" (translate_host "[1,2]")
    empty_store
    (snd (run (translate_host "[1,2]") (CambAiNode.translate 3 0))) [].
Proof.
  apply (proj1 (proj2 (proj2 (proj2 (proj2
           (X20_task_operations_follow_the_lifecycle 3 0 (translate_host "[1,2]")
              empty_store
              (snd (run (translate_host "[1,2]") (CambAiNode.translate 3 0))))))))).
  vm_compute. reflexivity.
Defined.

(** ** Transcribe: the transcript *)

Lemma ends_with_lift {A B : Type} Q (o : Outcome A) (f : A -> M B) :
  (forall a, o = Ok a -> ends_with Q (f a)) ->
  ends_with Q (lift o ≫= f).
Proof.
  intros Hf h s s' b Hrun. rewrite bind_unfold in Hrun. unfold lift in Hrun.
  destruct o as [a | e |]; try discriminate.
  exact (Hf a eq_refl h s s' b Hrun).
Qed.

Lemma map_outcome_texts (segments texts : list JsValue) :
  map_outcome (fun s => get s "text") segments = Ok texts ->
  length texts = length segments
  /\ forall k segment, segments !! k = Some segment ->
     exists text, get segment "text" = Ok text /\ texts !! k = Some text.
Proof.
  revert texts. induction segments as [| x segments IH]; intros texts H.
  - simpl in H. injection H as <-. split; [reflexivity | intros k segment [=]].
  - simpl in H.
    destruct (get x "text") as [y | e |] eqn:Ex; simpl in H; try discriminate.
    destruct (map_outcome _ segments) as [ys | e |]; simpl in H; try discriminate.
    injection H as <-.
    destruct (IH ys eq_refl) as [Hlen Hidx].
    split; [simpl; now rewrite Hlen |].
    intros [| k] segment Hk; simpl in Hk.
    + injection Hk as <-. eauto.
    + apply Hidx. exact Hk.
Qed.

(** X21: the plain transcript is the text of the segments. Whenever
    Transcribe completes an item, the [transcript] of its record is the
    [text] of each of the [segments] of the same record, in order, joined
    with single spaces, a missing text counting as the empty piece. The record
    has no binary output. *)
Theorem X21_transcript_joins_the_segments (fuel i : nat) :
  ends_with transcript_of_segments (CambAiNode.transcribe fuel i).
Proof.
  unfold CambAiNode.transcribe.
  do 10 ends_step.
  apply ends_with_lift. intros texts Htexts.
  apply ends_with_push.
  match goal with
  | |- context [js_or ?x (JArr [])] =>
      destruct (js_or x (JArr [])) as [| | | | | segments | | |] eqn:Hseg;
      try discriminate
  end.
  destruct (map_outcome_texts _ _ Htexts) as [Hlen Hidx].
  eexists _, segments, texts.
  split; [reflexivity |]. split; [reflexivity |].
  split; [unfold object; cbn [list_to_map foldr uncurry fst snd];
          map_lookup; reflexivity |].
  split; [exact Hlen |]. split; [exact Hidx |].
  unfold object. cbn [list_to_map foldr uncurry fst snd].
  map_lookup. reflexivity.
Qed.

(** ** Generate Sound and Translated TTS: what is delivered *)

Lemma api_call_body method endpoint (body qs options : IDataObject) h s v req :
  body <> ∅ ->
  options !! "body" = None ->
  options !! "formData" = None ->
  GenericFunctions.cambAiApiRequest method endpoint body qs options h s
  = (Ok v, log (HttpRequest (Some "cambAiApi") req) s) ->
  req !! "body" = Some (JObj body).
Proof.
  intros Hne Hb Hf Hrun.
  destruct (cambAiApiRequest_run method endpoint body qs options h s)
    as (cred & req' & (_ & _ & _ & Hbody) & Hlog & _).
  rewrite Hrun in Hlog. cbn [snd] in Hlog. apply log_inj in Hlog.
  injection Hlog as _ ->. auto.
Qed.

Lemma object_nonempty k v (rest : list (string * JsValue)) :
  object ((k, v) :: rest) <> ∅.
Proof.
  unfold object. cbn [list_to_map foldr uncurry fst snd].
  apply insert_non_empty.
Qed.

Lemma insert_nonempty (k : string) (v : JsValue) (m : IDataObject) :
  <[k := v]> m <> ∅.
Proof. apply insert_non_empty. Qed.

Lemma events_between (before middle : list Event) (first last : Event) :
  (((before ++ [first]) ++ middle) ++ [last] = before ++ first :: middle ++ [last])%list.
Proof. rewrite <- !app_assoc. reflexivity. Qed.

Lemma generateSound_delivery fuel i h s s' :
  CambAiNode.generateSound fuel i h s = (Ok tt, s') ->
  exists prompt audioType duration outputFormat,
    nodeParameter h "prompt" i = Some prompt
    /\ nodeParameter h "audioType" i = Some audioType
    /\ nodeParameter h "duration" i = Some duration
    /\ nodeParameter h "outputFormat" i = Some outputFormat
    /\ delivers_as_received h s s'
         (object [("prompt", prompt); ("audio_type", audioType);
                  ("duration", duration)])
         (CambAiNode.lookup_or CambAiNode.mimeTypes outputFormat "audio/wav").
Proof.
  intros Hrun. unfold CambAiNode.generateSound in Hrun.
  apply bind_ok_inv in Hrun. destruct Hrun as (prompt & s0 & Hp & Hrun).
  pose proof (getNodeParameter_ok_inv _ _ _ _ _ _ _ Hp). subst s0.
  apply bind_ok_inv in Hrun. destruct Hrun as (audioType & s0 & Ha & Hrun).
  pose proof (getNodeParameter_ok_inv _ _ _ _ _ _ _ Ha). subst s0.
  apply bind_ok_inv in Hrun. destruct Hrun as (duration & s0 & Hd & Hrun).
  pose proof (getNodeParameter_ok_inv _ _ _ _ _ _ _ Hd). subst s0.
  apply bind_ok_inv in Hrun. destruct Hrun as (outputFormat & s0 & Ho & Hrun).
  pose proof (getNodeParameter_ok_inv _ _ _ _ _ _ _ Ho). subst s0.
  inv_param Hrun binaryPropertyName.
  apply getNodeParameter_value in Hp, Ha, Hd, Ho.
  cbv zeta in Hrun.
  inv_bind Hrun response s1 Hpost.
  inv_lift Hrun taskId HtaskId.
  inv_bind Hrun pollResult s2 Hpoll.
  inv_lift Hrun runId HrunId.
  inv_bind Hrun audioResponse s3 Hfetch.
  inv_lift Hrun body Hbody.
  inv_lift Hrun audioBuffer Hbuffer.
  rewrite bind_prepareBinaryData in Hrun.
  unfold push in Hrun. injection Hrun as Hs'.
  exists prompt, audioType, duration, outputFormat.
  split; [exact Hp |]. split; [exact Ha |]. split; [exact Hd |].
  split; [exact Ho |].
  pose proof Hpost as Hsent.
  apply api_call_ok in Hpost; [| reflexivity ..].
  destruct Hpost as (post & -> & _).
  apply api_call_body in Hsent; [| apply object_nonempty | reflexivity ..].
  apply pollForResult_ok_run in Hpoll.
  destruct Hpoll as (o & rounds & -> & _ & Hpev & Hprec).
  apply api_call_ok in Hfetch; [| reflexivity ..].
  destruct Hfetch as (fetch & -> & _ & _ & Hanswer).
  eexists post, fetch, _, _, audioResponse, body, audioBuffer, _, _, _.
  split.
  { rewrite <- Hs'. cbn [events log]. rewrite Hpev. cbn [events log].
    apply events_between. }
  split; [exact Hsent |]. split; [exact Hanswer |].
  split; [exact Hbody |]. split; [exact Hbuffer |].
  split.
  { rewrite <- Hs'. cbn [returnData log]. rewrite Hprec. reflexivity. }
  split; [reflexivity |]. split; reflexivity.
Qed.

Lemma translatedTts_delivery fuel i h s s' :
  CambAiNode.translatedTts fuel i h s = (Ok tt, s') ->
  exists text sourceLanguage targetLanguage voiceId,
    nodeParameter h "text" i = Some text
    /\ nodeParameter h "sourceLanguage" i = Some sourceLanguage
    /\ nodeParameter h "targetLanguage" i = Some targetLanguage
    /\ nodeParameter h "voiceId" i = Some voiceId
    /\ delivers_as_received h s s'
         (if truthy voiceId
          then <["voice_id" := voiceId]>
                 (object [("text", text); ("source_language", sourceLanguage);
                          ("target_language", targetLanguage)])
          else object [("text", text); ("source_language", sourceLanguage);
                       ("target_language", targetLanguage)])
         (JStr "audio/wav").
Proof.
  intros Hrun. unfold CambAiNode.translatedTts in Hrun.
  apply bind_ok_inv in Hrun. destruct Hrun as (text & s0 & Ht & Hrun).
  pose proof (getNodeParameter_ok_inv _ _ _ _ _ _ _ Ht). subst s0.
  apply bind_ok_inv in Hrun. destruct Hrun as (sourceLanguage & s0 & Hsl & Hrun).
  pose proof (getNodeParameter_ok_inv _ _ _ _ _ _ _ Hsl). subst s0.
  apply bind_ok_inv in Hrun. destruct Hrun as (targetLanguage & s0 & Htl & Hrun).
  pose proof (getNodeParameter_ok_inv _ _ _ _ _ _ _ Htl). subst s0.
  apply bind_ok_inv in Hrun. destruct Hrun as (voiceId & s0 & Hv & Hrun).
  pose proof (getNodeParameter_ok_inv _ _ _ _ _ _ _ Hv). subst s0.
  inv_param Hrun binaryPropertyName.
  apply getNodeParameter_value in Ht, Hsl, Htl, Hv.
  cbv zeta in Hrun.
  inv_bind Hrun response s1 Hpost.
  inv_lift Hrun taskId HtaskId.
  inv_bind Hrun pollResult s2 Hpoll.
  inv_lift Hrun runId HrunId.
  inv_bind Hrun audioResponse s3 Hfetch.
  inv_lift Hrun body Hbody.
  inv_lift Hrun audioBuffer Hbuffer.
  rewrite bind_prepareBinaryData in Hrun.
  unfold push in Hrun. injection Hrun as Hs'.
  exists text, sourceLanguage, targetLanguage, voiceId.
  split; [exact Ht |]. split; [exact Hsl |]. split; [exact Htl |].
  split; [exact Hv |].
  pose proof Hpost as Hsent.
  apply api_call_ok in Hpost; [| reflexivity ..].
  destruct Hpost as (post & -> & _).
  apply api_call_body in Hsent;
    [| destruct (truthy voiceId); [apply insert_nonempty | apply object_nonempty]
     | reflexivity ..].
  apply pollForResult_ok_run in Hpoll.
  destruct Hpoll as (o & rounds & -> & _ & Hpev & Hprec).
  apply api_call_ok in Hfetch; [| reflexivity ..].
  destruct Hfetch as (fetch & -> & _ & _ & Hanswer).
  eexists post, fetch, _, _, audioResponse, body, audioBuffer, _, _, _.
  split.
  { rewrite <- Hs'. cbn [events log]. rewrite Hpev. cbn [events log].
    apply events_between. }
  split; [exact Hsent |]. split; [exact Hanswer |].
  split; [exact Hbody |]. split; [exact Hbuffer |].
  split.
  { rewrite <- Hs'. cbn [returnData log]. rewrite Hprec. reflexivity. }
  split; [reflexivity |]. split; reflexivity.
Qed.

(** X22: Generate Sound and Translated TTS deliver what they fetched.
    Whenever one of them completes an item, the bytes of its binary output
    are the body of the answer to its last request, unchanged: no WAV
    header is put before them, also when Generate Sound is asked for raw
    PCM, although that output is then labelled [audio/wav]. The body
    Generate Sound posts holds the prompt, the audio type and the duration
    only: the output format is not sent and decides the label and the file
    name alone. The body Translated TTS posts holds the voice only when
    the voice id is not zero, and its output is always labelled
    [audio/wav]. *)
Theorem X22_fetched_audio_is_delivered_unchanged
    (fuel i : nat) (h : Host) (s s' : Store) :
  (CambAiNode.generateSound fuel i h s = (Ok tt, s') ->
   exists prompt audioType duration outputFormat,
     nodeParameter h "prompt" i = Some prompt
     /\ nodeParameter h "audioType" i = Some audioType
     /\ nodeParameter h "duration" i = Some duration
     /\ nodeParameter h "outputFormat" i = Some outputFormat
     /\ delivers_as_received h s s'
          (object [("prompt", prompt); ("audio_type", audioType);
                   ("duration", duration)])
          (CambAiNode.lookup_or CambAiNode.mimeTypes outputFormat "audio/wav")
     /\ (outputFormat = JStr "pcm_s16le" ->
         CambAiNode.lookup_or CambAiNode.mimeTypes outputFormat "audio/wav"
         = JStr "audio/wav"))
  /\ (CambAiNode.translatedTts fuel i h s = (Ok tt, s') ->
      exists text sourceLanguage targetLanguage voiceId,
        nodeParameter h "text" i = Some text
        /\ nodeParameter h "sourceLanguage" i = Some sourceLanguage
        /\ nodeParameter h "targetLanguage" i = Some targetLanguage
        /\ nodeParameter h "voiceId" i = Some voiceId
        /\ delivers_as_received h s s'
             (if truthy voiceId
              then <["voice_id" := voiceId]>
                     (object [("text", text); ("source_language", sourceLanguage);
                              ("target_language", targetLanguage)])
              else object [("text", text); ("source_language", sourceLanguage);
                           ("target_language", targetLanguage)])
             (JStr "audio/wav")).
Proof.
  split.
  - intros Hrun.
    destruct (generateSound_delivery _ _ _ _ _ Hrun)
      as (prompt & audioType & duration & outputFormat & Hp & Ha & Hd & Ho & Hdel).
    exists prompt, audioType, duration, outputFormat.
    repeat (split; [assumption |]).
    intros ->. reflexivity.
  - apply translatedTts_delivery.
Qed.

Lemma X22_fetched_audio_is_delivered_unchanged_witness :
  exists prompt audioType duration outputFormat,
    nodeParameter generateSound_host "prompt" 0 = Some prompt
    /\ nodeParameter generateSound_host "audioType" 0 = Some audioType
    /\ nodeParameter generateSound_host "duration" 0 = Some duration
    /\ nodeParameter generateSound_host "outputFormat" 0 = Some outputFormat
    /\ delivers_as_received generateSound_host empty_store
         (snd (run generateSound_host (CambAiNode.generateSound 1 0)))
         (object [("prompt", prompt); ("audio_type", audioType);
                  ("duration", duration)])
         (CambAiNode.lookup_or CambAiNode.mimeTypes outputFormat "audio/wav")
    /\ (outputFormat = JStr "pcm_s16le" ->
        CambAiNode.lookup_or CambAiNode.mimeTypes outputFormat "audio/wav"
        = JStr "audio/wav").
Proof.
  apply (proj1 (X22_fetched_audio_is_delivered_unchanged 1 0 generateSound_host
                  empty_store
                  (snd (run generateSound_host (CambAiNode.generateSound 1 0))))).
  vm_compute. reflexivity.
Defined.

(** ** The credential class *)

Lemma adds_weaken (E F : Event -> Prop) s s' :
  (forall e, E e -> F e) -> adds E s s' -> adds F s s'.
Proof.
  intros H (more & Hev & Hall). exists more. split; [exact Hev |].
  eapply Forall_impl; eauto.
Qed.

Lemma confined_is_declared e :
  credential_confined e ->
  declared_credential CambAiDescription.credentials e
  /\ declared_credential LegacyDescription.credentials e.
Proof.
  destruct e as [[c |] req | ms]; simpl; auto.
  intros [-> _]. repeat split; left; reflexivity.
Qed.

(** X23: the node and its credential class agree. Every request the node
    makes with a credential names the credential the class defines, which
    the description of the node lists as required; and the request the
    class gives for testing a key is the request of List Voices: the same
    method and the same URL, base and path put together. Both
    snapshots. *)
Theorem X23_node_and_credential_agree (fuel i : nat) (h : Host) (s : Store) :
  adds (declared_credential CambAiDescription.credentials) s
    (snd (CambAiNode.execute fuel h s))
  /\ adds (declared_credential LegacyDescription.credentials) s
       (snd (LegacyNode.execute h s))
  /\ exists req,
       events (snd (CambAiNode.listVoices i h s))
       = (events s ++ [HttpRequest (Some CambAiApi.name) req])%list
       /\ req !! "method" = CambAiApi.test_request !! "method"
       /\ req !! "url"
          = Some (JStr (toString (prop CambAiApi.test_request "baseURL")
                        +:+ toString (prop CambAiApi.test_request "url"))).
Proof.
  split; [| split].
  - eapply adds_weaken; [| apply execute_confined].
    intros e He. apply confined_is_declared, He.
  - eapply adds_weaken; [| apply legacy_execute_confined].
    intros e He. apply confined_is_declared, He.
  - exists (plain_request "GET" (JStr "/list-voices") ∅ ∅).
    split; [| split; vm_compute; reflexivity].
    unfold CambAiNode.listVoices.
    pose proof (plain_call_run "GET" (JStr "/list-voices") ∅ ∅ h s) as Hcall.
    destruct (remote h (requests_so_far s) (Some "cambAiApi") _) as [cause | v].
    + destruct Hcall as (message & Hcall & _).
      now rewrite (bind_throw _ _ _ _ _ _ Hcall).
    + rewrite (bind_ok _ _ _ _ _ _ Hcall).
      destruct v; try reflexivity.
      rewrite for_of_push. reflexivity.
Qed.

(** ** Create Voice: validation *)

Lemma bind_getNodeParameter_fallback {B : Type} name i d (f : JsValue -> M B) h s :
  (getNodeParameter name i (Some d) ≫= f) h s
  = f (default d (nodeParameter h name i)) h s.
Proof.
  rewrite bind_unfold. unfold getNodeParameter. rewrite bind_host.
  destruct (nodeParameter h name i); reflexivity.
Qed.

(** X24: Create Voice checks the description before it calls the service.
    A voice description shorter than 100 characters stops the item with
    the operation error, no request having been made; one of 100
    characters or more is accepted, and the first thing the item does is
    the POST of the text and the description to [/text-to-voice]. The text
    itself is not checked. *)
Theorem X24_voice_description_is_checked_first
    (h : Host) (s : Store) (fuel i : nat) (text : JsValue)
    (voiceDescription : string) :
  nodeParameter h "text" i = Some text ->
  nodeParameter h "voiceDescription" i = Some (JStr voiceDescription) ->
  (Z.of_nat (String.length voiceDescription) < 100 ->
   CambAiNode.createVoice fuel i h s
   = (Throw (NodeOperationError
               "Voice description must be at least 100 characters (18+ words)" i),
      s))
  /\ (100 <= Z.of_nat (String.length voiceDescription) ->
      (forall m j,
          fst (CambAiNode.createVoice fuel i h s) <> Throw (NodeOperationError m j))
      /\ exists req more,
           events (snd (CambAiNode.createVoice fuel i h s))
           = (events s ++ HttpRequest (Some "cambAiApi") req :: more)%list
           /\ req !! "method" = Some (JStr "POST")
           /\ req !! "url"
              = Some (JStr "https://client.camb.ai/apis/text-to-voice")
           /\ req !! "body"
              = Some (JObj (object [("text", text);
                                    ("voice_description",
                                      JStr voiceDescription)]))).
Proof.
  intros Ht Hd. unfold CambAiNode.createVoice.
  rewrite (bind_getNodeParameter _ _ _ _ _ _ _ Ht).
  rewrite (bind_getNodeParameter _ _ _ _ _ _ _ Hd).
  rewrite bind_getNodeParameter_fallback.
  change (get (JStr voiceDescription) "length")
    with (Ok (JNum (Z.of_nat (String.length voiceDescription)))).
  rewrite bind_lift_ok. cbn [js_lt].
  split.
  - intros Hbad. apply Z.ltb_lt in Hbad. rewrite Hbad, bind_throwM. reflexivity.
  - intros Hgood. apply Z.ltb_ge in Hgood. rewrite Hgood, bind_mret. cbv zeta.
    split.
    + match goal with
      | |- context [fst (?k h s)] =>
          assert (Hsat : sat events_extend not_operation_error k) by sat_events
      end.
      intros m j Heq. apply (proj2 (Hsat h s)) in Heq. exact Heq.
    + match goal with
      | |- context [(GenericFunctions.cambAiApiRequest ?me ?en ?bo ?qs ?op ≫= ?k) h s] =>
          pose proof (plain_call_store me en bo qs h s) as Hlog;
          destruct (bind_continues
                      (GenericFunctions.cambAiApiRequest me en bo qs op)
                      k any_error h s) as [[more Hmore] _];
            [intros; sat_events |]
      end.
      eexists _, more. split; [| split; [| split]].
      * rewrite Hmore, Hlog. simpl. rewrite <- app_assoc. reflexivity.
      * reflexivity.
      * reflexivity.
      * unfold plain_request.
        rewrite (proj2 (size_pos_nonempty _) (insert_nonempty _ _ _)).
        rewrite map_size_empty. cbn [Nat.ltb Nat.leb]. map_lookup. reflexivity.
Qed.

Lemma X24_voice_description_is_checked_first_witness :
  (Z.of_nat (String.length long_description) < 100 ->
   CambAiNode.createVoice 1 0 (createVoice_host []) empty_store
   = (Throw (NodeOperationError
               "Voice description must be at least 100 characters (18+ words)" 0),
      empty_store))
  /\ (100 <= Z.of_nat (String.length long_description) ->
      (forall m j,
          fst (CambAiNode.createVoice 1 0 (createVoice_host []) empty_store)
          <> Throw (NodeOperationError m j))
      /\ exists req more,
           events (snd (CambAiNode.createVoice 1 0 (createVoice_host [])
                          empty_store))
           = (events empty_store ++ HttpRequest (Some "cambAiApi") req :: more)%list
           /\ req !! "method" = Some (JStr "POST")
           /\ req !! "url"
              = Some (JStr "https://client.camb.ai/apis/text-to-voice")
           /\ req !! "body"
              = Some (JObj (object [("text", JStr "Hello");
                                    ("voice_description",
                                      JStr long_description)]))).
Proof.
  apply (X24_voice_description_is_checked_first (createVoice_host []) empty_store
           1 0 (JStr "Hello") long_description); reflexivity.
Defined.

